(** * kubernetes_agent/agent.py: a shallow embedding

    The Kubernetes tool functions of [kubernetes_agent/agent.py] as Rocq
    functions.  Python dictionaries are association lists in insertion
    order, the objects of the Kubernetes client are records, and the
    calls into the client library ([config.load_kube_config],
    [v1.list_namespaced_pod], ...) are looked up in a [World] that fixes
    what every such call returns or raises.  A computation yields the
    list of client calls it made together with its outcome. *)

From Stdlib Require Import String Ascii List ZArith Bool Lia DecimalString.
Import ListNotations.
Open Scope Z_scope.
Open Scope list_scope.
Open Scope string_scope.

(* ===================================================================== *)
(** ** Python strings *)
(* ===================================================================== *)

(** Python [str] values are modelled by their UTF-8 encoding, a string
    of bytes.  [lower] acts on the ASCII range, which is all that the
    comparisons with ASCII literals in agent.py can observe.  The
    whitespace functions know every character that [str.isspace] and
    [str.strip] treat as whitespace, through its encoding of one, two or
    three bytes.  In well-formed UTF-8 a byte below 128 or a lead byte
    (194 and above) never occurs inside the encoding of another
    character, so these encodings are recognised at any position. *)
Module Py.

Definition is_upper (c : ascii) : bool :=
  let n := nat_of_ascii c in (Nat.leb 65 n && Nat.leb n 90)%bool.

Definition lower_char (c : ascii) : ascii :=
  if is_upper c then ascii_of_nat (nat_of_ascii c + 32) else c.

(** [s.lower()] *)
Fixpoint lower (s : string) : string :=
  match s with
  | EmptyString => EmptyString
  | String c s' => String (lower_char c) (lower s')
  end.

(** Whitespace of one byte: TAB, LF, VT, FF, CR (9-13), FS, GS, RS, US
    (28-31) and SPACE (32). *)
Definition is_space (c : ascii) : bool :=
  let n := nat_of_ascii c in
  ((Nat.leb 9 n && Nat.leb n 13) || (Nat.leb 28 n && Nat.leb n 32))%bool.

(** Whitespace of two bytes: U+0085 NEXT LINE (194 133) and U+00A0
    NO-BREAK SPACE (194 160). *)
Definition is_space2 (c1 c2 : ascii) : bool :=
  let a := nat_of_ascii c1 in
  let b := nat_of_ascii c2 in
  (Nat.eqb a 194 && (Nat.eqb b 133 || Nat.eqb b 160))%bool.

(** Whitespace of three bytes: U+1680 (225 154 128), U+2000 to U+200A
    (226 128 128 to 226 128 138), U+2028 and U+2029 (226 128 168 and
    169), U+202F (226 128 175), U+205F (226 129 159) and U+3000
    (227 128 128). *)
Definition is_space3 (c1 c2 c3 : ascii) : bool :=
  let a := nat_of_ascii c1 in
  let b := nat_of_ascii c2 in
  let c := nat_of_ascii c3 in
  ((Nat.eqb a 225 && Nat.eqb b 154 && Nat.eqb c 128)
   || (Nat.eqb a 226 && Nat.eqb b 128
       && ((Nat.leb 128 c && Nat.leb c 138)
           || Nat.eqb c 168 || Nat.eqb c 169 || Nat.eqb c 175))
   || (Nat.eqb a 226 && Nat.eqb b 129 && Nat.eqb c 159)
   || (Nat.eqb a 227 && Nat.eqb b 128 && Nat.eqb c 128))%bool.

(** [s.lstrip()]: the leading whitespace characters are dropped. *)
Fixpoint lstrip (s : string) : string :=
  match s with
  | EmptyString => EmptyString
  | String c1 s1 =>
      if is_space c1 then lstrip s1
      else match s1 with
           | EmptyString => s
           | String c2 s2 =>
               if is_space2 c1 c2 then lstrip s2
               else match s2 with
                    | EmptyString => s
                    | String c3 s3 =>
                        if is_space3 c1 c2 c3 then lstrip s3 else s
                    end
           end
  end.

(** [s.rstrip()]: a whitespace character is dropped when nothing but
    whitespace follows it, that is when the rest strips to nothing. *)
Fixpoint rstrip (s : string) : string :=
  match s with
  | EmptyString => EmptyString
  | String c1 s1 =>
      if is_space c1
      then (if rstrip s1 =? "" then EmptyString else String c1 (rstrip s1))
      else match s1 with
           | EmptyString => s
           | String c2 s2 =>
               if is_space2 c1 c2
               then (if rstrip s2 =? "" then EmptyString
                     else String c1 (String c2 (rstrip s2)))
               else match s2 with
                    | EmptyString => String c1 (rstrip s1)
                    | String c3 s3 =>
                        if is_space3 c1 c2 c3
                        then (if rstrip s3 =? "" then EmptyString
                              else String c1 (String c2 (String c3 (rstrip s3))))
                        else String c1 (rstrip s1)
                    end
           end
  end.

(** [s.strip()] *)
Definition strip (s : string) : string := rstrip (lstrip s).

(** The encoding of the character with code point [n], from U+0000 to
    U+FFFF, to write down strings outside the ASCII range. *)
Definition chr (n : N) : string :=
  if (n <? 128)%N then String (ascii_of_N n) ""
  else if (n <? 2048)%N
  then String (ascii_of_N (192 + n / 64))
         (String (ascii_of_N (128 + n mod 64)) "")
  else String (ascii_of_N (224 + n / 4096))
         (String (ascii_of_N (128 + (n / 64) mod 64))
            (String (ascii_of_N (128 + n mod 64)) "")).

(** [sub in s] *)
Fixpoint contains (sub s : string) : bool :=
  (prefix sub s ||
   match s with
   | EmptyString => false
   | String _ s' => contains sub s'
   end)%bool.

(** [s.replace(old, new)] for a non-empty [old]: occurrences are taken
    left to right and do not overlap.  [skip] counts the characters of
    the occurrence being dropped. *)
Fixpoint replace_from (old new : string) (skip : nat) (s : string) : string :=
  match s with
  | EmptyString => EmptyString
  | String c s' =>
      match skip with
      | S k => replace_from old new k s'
      | O =>
          if prefix old s
          then new ++ replace_from old new (String.length old - 1) s'
          else String c (replace_from old new O s')
      end
  end.

Definition replace (old new s : string) : string := replace_from old new O s.

(** [s.split(sep)] for a one-character separator. *)
Fixpoint split (sep : ascii) (s : string) : list string :=
  match s with
  | EmptyString => [EmptyString]
  | String c s' =>
      if Ascii.eqb c sep then EmptyString :: split sep s'
      else match split sep s' with
           | h :: t => String c h :: t
           | [] => [String c EmptyString]
           end
  end.

Definition nl : ascii := ascii_of_nat 10.

(** Truth value of a [str]: the empty string is false. *)
Definition truthy (s : string) : bool := negb (s =? "").

(** Truth value of an [Optional[str]]: [None] and the empty string are
    false. *)
Definition truthy_opt (o : option string) : bool :=
  match o with
  | Some s => truthy s
  | None => false
  end.

(** [str(n)] for an integer. *)
Definition str_int (z : Z) : string := NilZero.string_of_int (Z.to_int z).

(** [str(o)] / [f"{o}"] for an [Optional[str]]. *)
Definition str_opt (o : option string) : string :=
  match o with
  | Some s => s
  | None => "None"
  end.

Definition squote : ascii := ascii_of_nat 39.
Definition dquote : ascii := ascii_of_nat 34.

Definition hex_digit (n : nat) : ascii :=
  if Nat.ltb n 10 then ascii_of_nat (48 + n) else ascii_of_nat (87 + n).

(** One character of [repr(s)] with quote character [q]. *)
Definition repr_char (q c : ascii) : string :=
  let n := nat_of_ascii c in
  if Ascii.eqb c "\" then "\\"
  else if Ascii.eqb c q then String "\" (String q "")
  else if Nat.eqb n 9 then "\t"
  else if Nat.eqb n 10 then "\n"
  else if Nat.eqb n 13 then "\r"
  else if (Nat.ltb n 32 || Nat.eqb n 127)%bool
       then String "\" (String "x"
              (String (hex_digit (Nat.div n 16)) (String (hex_digit (Nat.modulo n 16)) "")))
  else String c "".

Fixpoint repr_chars (q : ascii) (s : string) : string :=
  match s with
  | EmptyString => EmptyString
  | String c s' => repr_char q c ++ repr_chars q s'
  end.

(** [repr(s)]: single quotes, unless the string has a single quote and
    no double quote. *)
Definition repr (s : string) : string :=
  let q : ascii :=
    if (contains (String squote "") s && negb (contains (String dquote "") s))%bool
    then dquote else squote in
  String q (repr_chars q s ++ String q "").

(** [repr(l)] / [f"{l}"] for a list of [str]. *)
Definition repr_list (l : list string) : string :=
  "[" ++ String.concat ", " (map repr l) ++ "]".

End Py.

(* ===================================================================== *)
(** ** Exceptions, outcomes and the trace of client calls *)
(* ===================================================================== *)

(** The exception classes agent.py distinguishes, all subclasses of
    Python's [Exception].  [ApiException] carries [e.status], [e.reason]
    and [str(e.body)]; [UnboundLocalError] is what Python raises when a
    local of a function is read before any assignment to it has run. *)
Inductive exn : Type :=
| ApiException (status : Z) (reason : string) (body : string)
| ConfigException (msg : string)
| UnboundLocalError (name : string)
| OtherException (msg : string).

(** [str(e)].  For [ApiException] this is the client library's
    [__str__] (without response headers). *)
Definition str_exn (e : exn) : string :=
  match e with
  | ApiException status reason body =>
      "(" ++ Py.str_int status ++ ")" ++ String Py.nl ("Reason: " ++ reason ++ String Py.nl
        (if Py.truthy body
         then "HTTP response body: " ++ body ++ String Py.nl ""
         else ""))
  | ConfigException msg => msg
  | UnboundLocalError name =>
      "cannot access local variable '" ++ name ++
      "' where it is not associated with a value"
  | OtherException msg => msg
  end.

Inductive result (A : Type) : Type :=
| Return (a : A)
| Raise (e : exn).
Arguments Return {A} a.
Arguments Raise {A} e.

(** The keyword arguments [kwargs] passed to
    [v1.read_namespaced_pod_log]; [None] in the last two fields means
    the key is not in [kwargs]. *)
Record LogKwargs : Type := mkLogKwargs {
  kw_name : string;
  kw_namespace : string;
  kw_container : option string;
  kw_previous : bool;
  kw_timestamps : bool;
  kw_tail_lines : option Z;
  kw_since_seconds : option Z
}.

(** One constructor per client call made by agent.py. *)
Inductive event : Type :=
| LoadKubeConfig (config_file : option string)
| LoadInclusterConfig
| ListPodForAllNamespaces (label_selector : option string)
| ListNamespacedPod (namespace : string) (label_selector : option string)
| ListNode
| ListNamespace
| ListServiceForAllNamespaces
| ListNamespacedService (namespace : string)
| ListDeploymentForAllNamespaces
| ListNamespacedDeployment (namespace : string)
| ReadNamespacedPod (name namespace : string)
| ReadNamespacedPodLog (kwargs : LogKwargs).

(** A computation: the client calls made, in order, and the outcome. *)
Definition Comp (A : Type) : Type := (list event * result A)%type.

Definition ret {A} (a : A) : Comp A := ([], Return a).

Definition bind {A B} (c : Comp A) (k : A -> Comp B) : Comp B :=
  match c with
  | (t, Return a) => let (t', r) := k a in (t ++ t', r)%list
  | (t, Raise e) => (t, Raise e)
  end.

(** A client call: logged, with the outcome the world gives it. *)
Definition call {A} (ev : event) (r : result A) : Comp A := ([ev], r).

(** [try: c  except <classes matched by h>: h e].  [h e = None] when no
    [except] clause matches [e]. *)
Definition try_except {A} (c : Comp A) (h : exn -> option (Comp A)) : Comp A :=
  match c with
  | (t, Return a) => (t, Return a)
  | (t, Raise e) =>
      match h e with
      | Some c' => let (t', r) := c' in (t ++ t', r)%list
      | None => (t, Raise e)
      end
  end.

Notation "x <- c ;; k" := (bind c (fun x => k))
  (at level 61, c at next level, right associativity).

Definition trace {A} (c : Comp A) : list event := fst c.
Definition outcome {A} (c : Comp A) : result A := snd c.

(* ===================================================================== *)
(** ** Python values and dictionaries *)
(* ===================================================================== *)

Set Warnings "-register-all".

(** Python values as they appear in the dictionaries the tools return. *)
Inductive value : Type :=
| VNone
| VBool (b : bool)
| VInt (z : Z)
| VStr (s : string)
| VList (l : list value)
| VDict (d : list (string * value)).

Definition dict : Type := list (string * value).

(** [d.get(k)] *)
Fixpoint dict_get {A} (k : string) (d : list (string * A)) : option A :=
  match d with
  | [] => None
  | (k', v) :: d' => if k' =? k then Some v else dict_get k d'
  end.

(** [d[k] = v]: replaces the value of an existing key in place, else
    appends the new key. *)
Fixpoint dict_set {A} (k : string) (v : A) (d : list (string * A)) : list (string * A) :=
  match d with
  | [] => [(k, v)]
  | (k', v') :: d' => if k' =? k then (k, v) :: d' else (k', v') :: dict_set k v d'
  end.

Definition keys {A} (d : list (string * A)) : list string := map fst d.

Definition vstr_opt (o : option string) : value :=
  match o with Some s => VStr s | None => VNone end.

Definition vint_opt (o : option Z) : value :=
  match o with Some z => VInt z | None => VNone end.

Definition vlen {A} (l : list A) : value := VInt (Z.of_nat (List.length l)).

(** A [Dict[str, str]] of the client (labels, annotations, quantities)
    as a Python value. *)
Definition vstr_dict (d : list (string * string)) : value :=
  VDict (map (fun kv => (fst kv, VStr (snd kv))) d).

(** [d or {}] for an optional string dictionary. *)
Definition or_empty (o : option (list (string * string))) : list (string * string) :=
  match o with Some d => d | None => [] end.

(* ===================================================================== *)
(** ** Objects of the Kubernetes client *)
(* ===================================================================== *)

(** The attributes agent.py reads.  An attribute the code tests before
    use is an [option]; timestamps are held as their [str()]. *)
Module K8s.

Record ObjectMeta : Type := {
  name : option string;
  namespace : option string;
  uid : option string;
  creation_timestamp : option string;
  labels : option (list (string * string));
  annotations : option (list (string * string))
}.

Record ContainerStateRunning : Type := { started_at : option string }.

Record ContainerStateTerminated : Type := {
  exit_code : option Z;
  term_reason : option string;
  term_message : option string
}.

Record ContainerStateWaiting : Type := {
  wait_reason : option string;
  wait_message : option string
}.

Record ContainerState : Type := {
  running : option ContainerStateRunning;
  terminated : option ContainerStateTerminated;
  waiting : option ContainerStateWaiting
}.

Record ContainerStatus : Type := {
  cs_name : option string;
  ready : bool;
  restart_count : Z;
  cs_image : option string;
  image_id : option string;
  container_id : option string;
  state : option ContainerState
}.

Record ContainerPort : Type := {
  container_port : Z;
  cp_protocol : option string
}.

Record EnvVar : Type := {
  env_name : string;
  env_value : option string
}.

Record ResourceRequirements : Type := {
  requests : option (list (string * string));
  limits : option (list (string * string))
}.

Record Container : Type := {
  c_name : string;
  image : option string;
  ports : option (list ContainerPort);
  env : option (list EnvVar);
  resources : option ResourceRequirements
}.

Record PodSpec : Type := {
  node_name : option string;
  restart_policy : option string;
  service_account_name : option string;
  containers : list Container
}.

Record PodCondition : Type := {
  pc_type : option string;
  pc_status : option string;
  pc_reason : option string;
  pc_message : option string;
  last_transition_time : option string
}.

Record PodStatus : Type := {
  phase : option string;
  message : option string;
  reason : option string;
  pod_ip : option string;
  host_ip : option string;
  start_time : option string;
  container_statuses : option (list ContainerStatus);
  conditions : option (list PodCondition)
}.

Record Pod : Type := {
  metadata : ObjectMeta;
  spec : PodSpec;
  status : PodStatus
}.

Record NodeCondition : Type := {
  nc_type : string;
  nc_status : string
}.

Record NodeSystemInfo : Type := {
  kubelet_version : option string;
  operating_system : option string;
  architecture : option string
}.

Record NodeStatus : Type := {
  node_conditions : option (list NodeCondition);
  capacity : option (list (string * string));
  allocatable : option (list (string * string));
  node_info : option NodeSystemInfo
}.

Record Node : Type := {
  node_metadata : ObjectMeta;
  node_status : NodeStatus
}.

Record Namespace : Type := {
  ns_metadata : ObjectMeta;
  ns_phase : option string
}.

(** [IntOrString], the type of a service port's [target_port]. *)
Inductive IntOrString : Type :=
| IntVal (z : Z)
| StrVal (s : string).

Record ServicePort : Type := {
  sp_name : option string;
  sp_protocol : option string;
  port : Z;
  target_port : option IntOrString;
  node_port : option Z
}.

Record ServiceSpec : Type := {
  type : option string;
  cluster_ip : option string;
  external_i_ps : option (list string);
  svc_ports : option (list ServicePort)
}.

Record LoadBalancerIngress : Type := { ip : option string }.

Record LoadBalancerStatus : Type := {
  ingress : option (list LoadBalancerIngress)
}.

Record Service : Type := {
  svc_metadata : ObjectMeta;
  svc_spec : ServiceSpec;
  load_balancer : option LoadBalancerStatus
}.

Record DeploymentCondition : Type := {
  dc_type : option string;
  dc_status : option string;
  dc_reason : option string;
  dc_message : option string
}.

Record DeploymentStatus : Type := {
  ready_replicas : option Z;
  available_replicas : option Z;
  updated_replicas : option Z;
  dep_conditions : option (list DeploymentCondition)
}.

Record Deployment : Type := {
  dep_metadata : ObjectMeta;
  replicas : option Z;
  dep_status : DeploymentStatus
}.

End K8s.

(* ===================================================================== *)
(** ** The world: what the process and the client library answer *)
(* ===================================================================== *)

(** What each call outside agent.py gives: the file system and the
    environment of the process, and for every client call either the
    object it returns or the exception it raises.  A list call answers
    with the [items] of its response.  [client.CoreV1Api()] and
    [client.AppsV1Api()] only build a handle and are not recorded. *)
Record World : Type := {
  path_exists : string -> bool;
  environ_get : string -> option string;
  load_kube_config : option string -> result unit;
  load_incluster_config : result unit;
  list_pod_for_all_namespaces : option string -> result (list K8s.Pod);
  list_namespaced_pod : string -> option string -> result (list K8s.Pod);
  list_node : result (list K8s.Node);
  list_namespace : result (list K8s.Namespace);
  list_service_for_all_namespaces : result (list K8s.Service);
  list_namespaced_service : string -> result (list K8s.Service);
  list_deployment_for_all_namespaces : result (list K8s.Deployment);
  list_namespaced_deployment : string -> result (list K8s.Deployment);
  read_namespaced_pod : string -> string -> result K8s.Pod;
  read_namespaced_pod_log : LogKwargs -> result string
}.

(* ===================================================================== *)
(** ** load_kubernetes_config *)
(* ===================================================================== *)

Definition load_kubernetes_config (w : World) (kubeconfig_path : option string)
  : Comp string :=
  try_except
    (if (Py.truthy_opt kubeconfig_path && path_exists w (Py.str_opt kubeconfig_path))%bool
     then
       _ <- call (LoadKubeConfig kubeconfig_path) (load_kube_config w kubeconfig_path) ;;
       ret ("Loaded kubeconfig from: " ++ Py.str_opt kubeconfig_path)
     else if Py.truthy_opt (environ_get w "KUBECONFIG")
     then
       let kubeconfig_env := environ_get w "KUBECONFIG" in
       _ <- call (LoadKubeConfig kubeconfig_env) (load_kube_config w kubeconfig_env) ;;
       ret ("Loaded kubeconfig from KUBECONFIG env var: " ++ Py.str_opt kubeconfig_env)
     else
       _ <- call LoadInclusterConfig (load_incluster_config w) ;;
       ret "Loaded in-cluster config (running inside Kubernetes)")
    (fun e =>
       match e with
       | ConfigException _ =>
           Some (try_except
                   (_ <- call (LoadKubeConfig None) (load_kube_config w None) ;;
                    ret "Loaded kubeconfig from default location (~/.kube/config)")
                   (fun fallback_error =>
                      Some (ret ("Failed to load any Kubernetes config: " ++
                                 str_exn e ++ ", " ++ str_exn fallback_error))))
       | _ => None
       end).

(* ===================================================================== *)
(** ** Error records and the operation boundary *)
(* ===================================================================== *)

Definition error_record (error_message : string) : value :=
  VDict [("status", VStr "error"); ("error_message", VStr error_message)].

Definition error_record_code (error_message : string) (error_code : Z) : value :=
  VDict [("status", VStr "error"); ("error_message", VStr error_message);
         ("error_code", VInt error_code)].

(** The two [except] clauses that close every list operation and
    [describe_pod]; [what] is the text of the second clause's message.
<<
    except ApiException as e:  ... f"Kubernetes API error: {e.reason}" ... e.status
    except Exception as e:     ... f"<what>{str(e)}"
>> *)
Definition except_boundary (what : string) (e : exn) : option (Comp value) :=
  match e with
  | ApiException status reason _ =>
      Some (ret (error_record_code ("Kubernetes API error: " ++ reason) status))
  | _ => Some (ret (error_record (what ++ str_exn e)))
  end.

(* ===================================================================== *)
(** ** get_pods *)
(* ===================================================================== *)

Definition pod_container_status (cs : K8s.ContainerStatus) : value :=
  VDict [("name", vstr_opt (K8s.cs_name cs));
         ("ready", VBool (K8s.ready cs));
         ("restart_count", VInt (K8s.restart_count cs))].

Definition pod_info (pod : K8s.Pod) : dict :=
  let pod_info :=
    [("name", vstr_opt (K8s.name (K8s.metadata pod)));
     ("namespace", vstr_opt (K8s.namespace (K8s.metadata pod)));
     ("status", vstr_opt (K8s.phase (K8s.status pod)));
     ("pod_ip", vstr_opt (K8s.pod_ip (K8s.status pod)));
     ("node", vstr_opt (K8s.node_name (K8s.spec pod)));
     ("containers", vlen (K8s.containers (K8s.spec pod)));
     ("labels", vstr_dict (or_empty (K8s.labels (K8s.metadata pod))))] in
  match K8s.container_statuses (K8s.status pod) with
  | Some (cs :: css) =>
      dict_set "container_statuses" (VList (map pod_container_status (cs :: css))) pod_info
  | _ => pod_info
  end.

Definition get_pods (w : World) (namespace : string) (label_selector : option string)
  : Comp value :=
  try_except
    (config_status <- load_kubernetes_config w None ;;
     pods <- (if Py.lower namespace =? "all"
              then call (ListPodForAllNamespaces label_selector)
                        (list_pod_for_all_namespaces w label_selector)
              else call (ListNamespacedPod namespace label_selector)
                        (list_namespaced_pod w namespace label_selector)) ;;
     let pod_list := map (fun pod => VDict (pod_info pod)) pods in
     ret (VDict [("status", VStr "success");
                 ("config_info", VStr config_status);
                 ("pod_count", vlen pod_list);
                 ("pods", VList pod_list)]))
    (except_boundary "Error listing pods: ").

(* ===================================================================== *)
(** ** get_nodes *)
(* ===================================================================== *)

Definition role_prefix : string := "node-role.kubernetes.io/".

(** The loop over [node.metadata.labels] that fills [node_info["roles"]],
    and the default that follows it. *)
Definition node_roles (labels : option (list (string * string))) : list string :=
  let roles :=
    fold_left
      (fun roles label_key =>
         if Py.contains role_prefix label_key
         then let role := Py.replace role_prefix "" label_key in
              if Py.truthy role then (roles ++ [role])%list else roles
         else roles)
      (keys (or_empty labels)) [] in
  match roles with
  | [] => ["worker"]
  | _ => roles
  end.

Definition node_conditions_dict (node : K8s.Node) : list (string * string) :=
  match K8s.node_conditions (K8s.node_status node) with
  | Some l => fold_left (fun conditions condition =>
                           dict_set (K8s.nc_type condition) (K8s.nc_status condition)
                                    conditions) l []
  | None => []
  end.

Definition get_default (k : string) (d : list (string * string)) (default : string) : string :=
  match dict_get k d with Some v => v | None => default end.

Definition resource_map (d : list (string * string)) : value :=
  VDict [("cpu", VStr (get_default "cpu" d "Unknown"));
         ("memory", VStr (get_default "memory" d "Unknown"));
         ("pods", VStr (get_default "pods" d "Unknown"))].

Definition node_info_field (node : K8s.Node) (f : K8s.NodeSystemInfo -> option string)
  : value :=
  match K8s.node_info (K8s.node_status node) with
  | Some ni => vstr_opt (f ni)
  | None => VStr "Unknown"
  end.

Definition node_info (node : K8s.Node) : dict :=
  let conditions := node_conditions_dict node in
  let capacity := or_empty (K8s.capacity (K8s.node_status node)) in
  let allocatable := or_empty (K8s.allocatable (K8s.node_status node)) in
  [("name", vstr_opt (K8s.name (K8s.node_metadata node)));
   ("status", VStr (match dict_get "Ready" conditions with
                    | Some s => if s =? "True" then "Ready" else "NotReady"
                    | None => "NotReady"
                    end));
   ("roles", VList (map VStr (node_roles (K8s.labels (K8s.node_metadata node)))));
   ("version", node_info_field node K8s.kubelet_version);
   ("os", node_info_field node K8s.operating_system);
   ("architecture", node_info_field node K8s.architecture);
   ("capacity", resource_map capacity);
   ("allocatable", resource_map allocatable);
   ("conditions", vstr_dict conditions)].

Definition get_nodes (w : World) : Comp value :=
  try_except
    (config_status <- load_kubernetes_config w None ;;
     nodes <- call ListNode (list_node w) ;;
     let node_list := map (fun node => VDict (node_info node)) nodes in
     ret (VDict [("status", VStr "success");
                 ("config_info", VStr config_status);
                 ("node_count", vlen node_list);
                 ("nodes", VList node_list)]))
    (except_boundary "Error listing nodes: ").

(* ===================================================================== *)
(** ** get_namespaces *)
(* ===================================================================== *)

Definition namespace_info (ns : K8s.Namespace) : dict :=
  [("name", vstr_opt (K8s.name (K8s.ns_metadata ns)));
   ("status", vstr_opt (K8s.ns_phase ns));
   ("created", VStr (Py.str_opt (K8s.creation_timestamp (K8s.ns_metadata ns))));
   ("labels", vstr_dict (or_empty (K8s.labels (K8s.ns_metadata ns))))].

Definition get_namespaces (w : World) : Comp value :=
  try_except
    (config_status <- load_kubernetes_config w None ;;
     namespaces <- call ListNamespace (list_namespace w) ;;
     let namespace_list := map (fun ns => VDict (namespace_info ns)) namespaces in
     ret (VDict [("status", VStr "success");
                 ("config_info", VStr config_status);
                 ("namespace_count", vlen namespace_list);
                 ("namespaces", VList namespace_list)]))
    (except_boundary "Error listing namespaces: ").

(* ===================================================================== *)
(** ** get_services *)
(* ===================================================================== *)

(** [str(port.target_port) if port.target_port else None] *)
Definition target_port_value (tp : option K8s.IntOrString) : value :=
  match tp with
  | Some (K8s.IntVal z) => if (z =? 0)%Z then VNone else VStr (Py.str_int z)
  | Some (K8s.StrVal s) => if Py.truthy s then VStr s else VNone
  | None => VNone
  end.

Definition port_info (port : K8s.ServicePort) : value :=
  VDict [("name", vstr_opt (K8s.sp_name port));
         ("protocol", vstr_opt (K8s.sp_protocol port));
         ("port", VInt (K8s.port port));
         ("target_port", target_port_value (K8s.target_port port));
         ("node_port", vint_opt (K8s.node_port port))].

(** [[ing.ip for ing in ingress if ing.ip]] *)
Definition ingress_ips (ingress : list K8s.LoadBalancerIngress) : list value :=
  flat_map (fun ing => match K8s.ip ing with
                       | Some a => if Py.truthy a then [VStr a] else []
                       | None => []
                       end) ingress.

Definition is_load_balancer (svc : K8s.Service) : bool :=
  match K8s.type (K8s.svc_spec svc) with
  | Some t => t =? "LoadBalancer"
  | None => false
  end.

Definition service_info (svc : K8s.Service) : dict :=
  let service_info :=
    [("name", vstr_opt (K8s.name (K8s.svc_metadata svc)));
     ("namespace", vstr_opt (K8s.namespace (K8s.svc_metadata svc)));
     ("type", vstr_opt (K8s.type (K8s.svc_spec svc)));
     ("cluster_ip", vstr_opt (K8s.cluster_ip (K8s.svc_spec svc)));
     ("external_ip", VList (map VStr (match K8s.external_i_ps (K8s.svc_spec svc) with
                                      | Some l => l
                                      | None => []
                                      end)));
     ("ports", VList (map port_info (match K8s.svc_ports (K8s.svc_spec svc) with
                                     | Some l => l
                                     | None => []
                                     end)))] in
  if is_load_balancer svc then
    match K8s.load_balancer svc with
    | Some lb =>
        match K8s.ingress lb with
        | Some (ing :: ings) =>
            dict_set "load_balancer_ip" (VList (ingress_ips (ing :: ings))) service_info
        | _ => service_info
        end
    | None => service_info
    end
  else service_info.

Definition get_services (w : World) (namespace : string) : Comp value :=
  try_except
    (config_status <- load_kubernetes_config w None ;;
     services <- (if Py.lower namespace =? "all"
                  then call ListServiceForAllNamespaces (list_service_for_all_namespaces w)
                  else call (ListNamespacedService namespace)
                            (list_namespaced_service w namespace)) ;;
     let service_list := map (fun svc => VDict (service_info svc)) services in
     ret (VDict [("status", VStr "success");
                 ("config_info", VStr config_status);
                 ("service_count", vlen service_list);
                 ("services", VList service_list)]))
    (except_boundary "Error listing services: ").

(* ===================================================================== *)
(** ** get_deployments *)
(* ===================================================================== *)

(** [n or 0] *)
Definition or_zero (o : option Z) : Z :=
  match o with Some z => z | None => 0 end.

Definition deployment_condition (condition : K8s.DeploymentCondition) : value :=
  VDict [("type", vstr_opt (K8s.dc_type condition));
         ("status", vstr_opt (K8s.dc_status condition));
         ("reason", vstr_opt (K8s.dc_reason condition));
         ("message", vstr_opt (K8s.dc_message condition))].

Definition deployment_info (dep : K8s.Deployment) : dict :=
  [("name", vstr_opt (K8s.name (K8s.dep_metadata dep)));
   ("namespace", vstr_opt (K8s.namespace (K8s.dep_metadata dep)));
   ("replicas", vint_opt (K8s.replicas dep));
   ("ready_replicas", VInt (or_zero (K8s.ready_replicas (K8s.dep_status dep))));
   ("available_replicas", VInt (or_zero (K8s.available_replicas (K8s.dep_status dep))));
   ("updated_replicas", VInt (or_zero (K8s.updated_replicas (K8s.dep_status dep))));
   ("labels", vstr_dict (or_empty (K8s.labels (K8s.dep_metadata dep))));
   ("conditions", VList (map deployment_condition
                             (match K8s.dep_conditions (K8s.dep_status dep) with
                              | Some l => l
                              | None => []
                              end)))].

Definition get_deployments (w : World) (namespace : string) : Comp value :=
  try_except
    (config_status <- load_kubernetes_config w None ;;
     deployments <- (if Py.lower namespace =? "all"
                     then call ListDeploymentForAllNamespaces
                               (list_deployment_for_all_namespaces w)
                     else call (ListNamespacedDeployment namespace)
                               (list_namespaced_deployment w namespace)) ;;
     let deployment_list := map (fun dep => VDict (deployment_info dep)) deployments in
     ret (VDict [("status", VStr "success");
                 ("config_info", VStr config_status);
                 ("deployment_count", vlen deployment_list);
                 ("deployments", VList deployment_list)]))
    (except_boundary "Error listing deployments: ").

(* ===================================================================== *)
(** ** describe_pod *)
(* ===================================================================== *)

Definition container_port_info (p : K8s.ContainerPort) : value :=
  VDict [("container_port", VInt (K8s.container_port p));
         ("protocol", vstr_opt (K8s.cp_protocol p))].

(** [[{...} for e in container.env if e.value]] *)
Definition container_env (env : list K8s.EnvVar) : list value :=
  flat_map (fun e => if Py.truthy_opt (K8s.env_value e)
                     then [VDict [("name", VStr (K8s.env_name e));
                                  ("value", vstr_opt (K8s.env_value e))]]
                     else []) env.

Definition nonempty {A} (o : option (list A)) : bool :=
  match o with Some (_ :: _) => true | _ => false end.

Definition container_resources (r : option K8s.ResourceRequirements) : dict :=
  match r with
  | Some r =>
      let resources := [] in
      let resources :=
        if nonempty (K8s.requests r)
        then dict_set "requests" (vstr_dict (or_empty (K8s.requests r))) resources
        else resources in
      if nonempty (K8s.limits r)
      then dict_set "limits" (vstr_dict (or_empty (K8s.limits r))) resources
      else resources
  | None => []
  end.

Definition container_info (container : K8s.Container) : value :=
  VDict [("name", VStr (K8s.c_name container));
         ("image", vstr_opt (K8s.image container));
         ("ports", VList (map container_port_info
                              (match K8s.ports container with Some l => l | None => [] end)));
         ("env", VList (match K8s.env container with
                        | Some l => container_env l
                        | None => []
                        end));
         ("resources", VDict (container_resources (K8s.resources container)))].

(** The [state] entry of a container status, when one is added. *)
Definition state_entry (st : option K8s.ContainerState) : option value :=
  match st with
  | Some s =>
      match K8s.running s with
      | Some r =>
          Some (VDict [("running",
                        VDict [("started_at", VStr (Py.str_opt (K8s.started_at r)))])])
      | None =>
          match K8s.terminated s with
          | Some t =>
              Some (VDict [("terminated",
                            VDict [("exit_code", vint_opt (K8s.exit_code t));
                                   ("reason", vstr_opt (K8s.term_reason t));
                                   ("message", vstr_opt (K8s.term_message t))])])
          | None =>
              match K8s.waiting s with
              | Some wt =>
                  Some (VDict [("waiting",
                                VDict [("reason", vstr_opt (K8s.wait_reason wt));
                                       ("message", vstr_opt (K8s.wait_message wt))])])
              | None => None
              end
          end
      end
  | None => None
  end.

Definition status_info (cs : K8s.ContainerStatus) : dict :=
  let status_info :=
    [("name", vstr_opt (K8s.cs_name cs));
     ("ready", VBool (K8s.ready cs));
     ("restart_count", VInt (K8s.restart_count cs));
     ("image", vstr_opt (K8s.cs_image cs));
     ("image_id", vstr_opt (K8s.image_id cs));
     ("container_id", vstr_opt (K8s.container_id cs))] in
  match state_entry (K8s.state cs) with
  | Some st => dict_set "state" st status_info
  | None => status_info
  end.

Definition pod_condition (condition : K8s.PodCondition) : value :=
  VDict [("type", vstr_opt (K8s.pc_type condition));
         ("status", vstr_opt (K8s.pc_status condition));
         ("reason", vstr_opt (K8s.pc_reason condition));
         ("message", vstr_opt (K8s.pc_message condition));
         ("last_transition_time",
          VStr (Py.str_opt (K8s.last_transition_time condition)))].

Definition pod_details (pod : K8s.Pod) : dict :=
  let md := K8s.metadata pod in
  let st := K8s.status pod in
  let sp := K8s.spec pod in
  let pod_details :=
    [("name", vstr_opt (K8s.name md));
     ("namespace", vstr_opt (K8s.namespace md));
     ("uid", vstr_opt (K8s.uid md));
     ("created", VStr (Py.str_opt (K8s.creation_timestamp md)));
     ("labels", vstr_dict (or_empty (K8s.labels md)));
     ("annotations", vstr_dict (or_empty (K8s.annotations md)));
     ("status", VDict [("phase", vstr_opt (K8s.phase st));
                       ("message", vstr_opt (K8s.message st));
                       ("reason", vstr_opt (K8s.reason st));
                       ("pod_ip", vstr_opt (K8s.pod_ip st));
                       ("host_ip", vstr_opt (K8s.host_ip st));
                       ("start_time", vstr_opt (K8s.start_time st))]);
     ("spec", VDict [("node_name", vstr_opt (K8s.node_name sp));
                     ("restart_policy", vstr_opt (K8s.restart_policy sp));
                     ("service_account", vstr_opt (K8s.service_account_name sp));
                     ("containers", VList (map container_info (K8s.containers sp)))]);
     ("conditions", VList (map pod_condition
                               (match K8s.conditions st with Some l => l | None => [] end)));
     ("events", VList [])] in
  match K8s.container_statuses st with
  | Some (cs :: css) =>
      dict_set "container_statuses"
               (VList (map (fun cs => VDict (status_info cs)) (cs :: css))) pod_details
  | _ => pod_details
  end.

Definition describe_pod (w : World) (name namespace : string) : Comp value :=
  try_except
    (config_status <- load_kubernetes_config w None ;;
     pod <- call (ReadNamespacedPod name namespace) (read_namespaced_pod w name namespace) ;;
     ret (VDict [("status", VStr "success");
                 ("config_info", VStr config_status);
                 ("pod", VDict (pod_details pod))]))
    (except_boundary "Error getting pod details: ").

(* ===================================================================== *)
(** ** get_logs *)
(* ===================================================================== *)

Definition pod_not_found (pod_name namespace : string) : string :=
  "Pod '" ++ pod_name ++ "' not found in namespace '" ++ namespace ++ "'".

(** The two [except] clauses of the outer [try] of [get_logs].  They run
    with the function's locals as they stand when the exception is
    raised: [container], and [container_names], which is [None] as long
    as the assignment to that name has not been executed. *)
Definition get_logs_except (pod_name namespace : string) (container : option string)
    (container_names : option (list string)) (e : exn) : result value :=
  match e with
  | ApiException status reason body =>
      let error_msg := "Failed to get logs: " ++ reason in
      if (status =? 400)%Z then
        if Py.contains "previous terminated container" (Py.lower body) then
          Return (error_record_code
                    "No previous terminated container found for this pod" status)
        else if Py.contains "container" (Py.lower body) then
          match container_names with
          | Some names =>
              Return (error_record_code
                        ("Container '" ++ Py.str_opt container ++
                         "' not found in pod. Available containers: " ++
                         Py.repr_list names) status)
          | None => Raise (UnboundLocalError "container_names")
          end
        else Return (error_record_code error_msg status)
      else if (status =? 404)%Z then
        Return (error_record_code (pod_not_found pod_name namespace) status)
      else Return (error_record_code error_msg status)
  | _ => Return (error_record ("Error getting logs: " ++ str_exn e))
  end.

(** A statement of a [try] body: [c] runs, and an exception it raises is
    given to the handler [h] of the enclosing [try]. *)
Definition guarded {A B} (h : exn -> result B) (c : Comp A) (k : A -> Comp B) : Comp B :=
  match c with
  | (t, Return a) => let (t', r) := k a in (t ++ t', r)%list
  | (t, Raise e) => (t, h e)
  end.

Notation "x <-[ h ] c ;; k" := (guarded h c (fun x => k))
  (at level 61, c at next level, right associativity).

(** Truth value of an [Optional[int]]: [None] and [0] are false. *)
Definition truthy_int (o : option Z) : bool :=
  match o with Some z => negb (z =? 0)%Z | None => false end.

Definition no_logs_message : string :=
  "No logs found. The container might be starting up or not producing any output.".

(** The record returned when no container is named and the pod has
    several. *)
Definition multiple_containers_error (container_names : list string) : value :=
  VDict [("status", VStr "error");
         ("error_message",
          VStr ("Pod has multiple containers. Please specify one: " ++
                Py.repr_list container_names));
         ("containers", VList (map VStr container_names))].

(** [if not container and container_names: container = container_names[0]] *)
Definition default_container (container : option string) (container_names : list string)
  : option string :=
  match container_names with
  | first :: _ => if negb (Py.truthy_opt container) then Some first else container
  | [] => container
  end.

Definition log_kwargs (pod_name namespace : string) (container : option string)
    (previous : bool) (tail_lines since_seconds : option Z) (timestamps : bool)
  : LogKwargs :=
  {| kw_name := pod_name;
     kw_namespace := namespace;
     kw_container := container;
     kw_previous := previous;
     kw_timestamps := timestamps;
     kw_tail_lines := tail_lines;
     kw_since_seconds := since_seconds |}.

(** The success record of [get_logs], from [log_lines = ...] to
    [return response]. *)
Definition log_response (config_status pod_name namespace : string)
    (container : option string) (logs : string)
    (previous : bool) (tail_lines since_seconds : option Z) (timestamps : bool) : dict :=
  let log_lines := if Py.truthy logs then Py.split Py.nl logs else [] in
  let response :=
    [("status", VStr "success");
     ("config_info", VStr config_status);
     ("pod", VStr pod_name);
     ("namespace", VStr namespace);
     ("container", vstr_opt container);
     ("log_lines_count", vlen log_lines);
     ("logs", VStr logs)] in
  let response :=
    if truthy_int tail_lines
    then dict_set "tail_lines_requested" (vint_opt tail_lines) response
    else response in
  let response :=
    if truthy_int since_seconds
    then dict_set "since_seconds" (vint_opt since_seconds) response
    else response in
  let response :=
    if previous
    then dict_set "from_previous_container" (VBool true) response
    else response in
  let response :=
    if timestamps
    then dict_set "timestamps_included" (VBool true) response
    else response in
  if (negb (Py.truthy logs) || (Py.strip logs =? ""))%bool
  then dict_set "message" (VStr no_logs_message) response
  else response.

Definition get_logs (w : World) (pod_name namespace : string) (container : option string)
    (previous : bool) (tail_lines since_seconds : option Z) (timestamps : bool)
  : Comp value :=
  (* outer try; container_names is not bound yet *)
  config_status <-[get_logs_except pod_name namespace container None]
    load_kubernetes_config w None ;;
  (* inner try *)
  match call (ReadNamespacedPod pod_name namespace)
             (read_namespaced_pod w pod_name namespace) with
  | (t, Raise (ApiException status _ _)) =>
      (t, Return (error_record_code (pod_not_found pod_name namespace) status))
  | (t, Raise e) => (t, get_logs_except pod_name namespace container None e)
  | (t, Return pod) =>
      let container_names := map K8s.c_name (K8s.containers (K8s.spec pod)) in
      if (negb (Py.truthy_opt container) && Nat.ltb 1 (List.length container_names))%bool
      then (t, Return (multiple_containers_error container_names))
      else
        let container := default_container container container_names in
        (* back in the outer try, container_names bound *)
        let kwargs := log_kwargs pod_name namespace container
                                 previous tail_lines since_seconds timestamps in
        let (t', r) :=
          logs <-[get_logs_except pod_name namespace container (Some container_names)]
            call (ReadNamespacedPodLog kwargs) (read_namespaced_pod_log w kwargs) ;;
          ret (VDict (log_response config_status pod_name namespace container logs
                                   previous tail_lines since_seconds timestamps)) in
        ((t ++ t')%list, r)
  end.

(* ===================================================================== *)
(** ** The public operations *)
(* ===================================================================== *)

(** The tools registered with the agent ([tools=[...]] of [root_agent]),
    each with its arguments. *)
Inductive operation : Type :=
| GetPods (namespace : string) (label_selector : option string)
| GetNodes
| GetNamespaces
| GetServices (namespace : string)
| GetDeployments (namespace : string)
| DescribePod (name namespace : string)
| GetLogs (pod_name namespace : string) (container : option string)
          (previous : bool) (tail_lines since_seconds : option Z) (timestamps : bool).

Definition run (w : World) (op : operation) : Comp value :=
  match op with
  | GetPods namespace label_selector => get_pods w namespace label_selector
  | GetNodes => get_nodes w
  | GetNamespaces => get_namespaces w
  | GetServices namespace => get_services w namespace
  | GetDeployments namespace => get_deployments w namespace
  | DescribePod name namespace => describe_pod w name namespace
  | GetLogs pod_name namespace container previous tail_lines since_seconds timestamps =>
      get_logs w pod_name namespace container previous tail_lines since_seconds timestamps
  end.

(* ===================================================================== *)
(** ** Notions used to state the properties *)
(* ===================================================================== *)

(** The four credential sources of the configuration resolver. *)
Inductive ClusterConfigSource : Type :=
| ExplicitPath (path : string)
| EnvVariable (path : string)
| InCluster
| DefaultFile.

(** The client call that loads a source. *)
Definition source_event (s : ClusterConfigSource) : event :=
  match s with
  | ExplicitPath p => LoadKubeConfig (Some p)
  | EnvVariable p => LoadKubeConfig (Some p)
  | InCluster => LoadInclusterConfig
  | DefaultFile => LoadKubeConfig None
  end.

(** The status message that reports a source as loaded. *)
Definition loaded_message (s : ClusterConfigSource) : string :=
  match s with
  | ExplicitPath p => "Loaded kubeconfig from: " ++ p
  | EnvVariable p => "Loaded kubeconfig from KUBECONFIG env var: " ++ p
  | InCluster => "Loaded in-cluster config (running inside Kubernetes)"
  | DefaultFile => "Loaded kubeconfig from default location (~/.kube/config)"
  end.

(** The exception the world raises for a client call, if any. *)
Definition exn_of {A} (r : result A) : option exn :=
  match r with Return _ => None | Raise e => Some e end.

Definition raised_by (w : World) (ev : event) : option exn :=
  match ev with
  | LoadKubeConfig f => exn_of (load_kube_config w f)
  | LoadInclusterConfig => exn_of (load_incluster_config w)
  | ListPodForAllNamespaces ls => exn_of (list_pod_for_all_namespaces w ls)
  | ListNamespacedPod ns ls => exn_of (list_namespaced_pod w ns ls)
  | ListNode => exn_of (list_node w)
  | ListNamespace => exn_of (list_namespace w)
  | ListServiceForAllNamespaces => exn_of (list_service_for_all_namespaces w)
  | ListNamespacedService ns => exn_of (list_namespaced_service w ns)
  | ListDeploymentForAllNamespaces => exn_of (list_deployment_for_all_namespaces w)
  | ListNamespacedDeployment ns => exn_of (list_namespaced_deployment w ns)
  | ReadNamespacedPod n ns => exn_of (read_namespaced_pod w n ns)
  | ReadNamespacedPodLog kw => exn_of (read_namespaced_pod_log w kw)
  end.

(** The first applicable source, in the order explicit path, KUBECONFIG,
    in-cluster: an explicit path applies when it is given (and not
    empty) and the file exists, KUBECONFIG when it is set to a non-empty
    value. *)
Definition first_applicable (w : World) (kubeconfig_path : option string)
  : ClusterConfigSource :=
  match kubeconfig_path with
  | Some p =>
      if (Py.truthy p && path_exists w p)%bool then ExplicitPath p
      else match environ_get w "KUBECONFIG" with
           | Some e => if Py.truthy e then EnvVariable e else InCluster
           | None => InCluster
           end
  | None =>
      match environ_get w "KUBECONFIG" with
      | Some e => if Py.truthy e then EnvVariable e else InCluster
      | None => InCluster
      end
  end.

(** The source that the chain "explicit path, otherwise KUBECONFIG,
    otherwise in-cluster credentials, otherwise the default location"
    picks when the first applicable source wins: the in-cluster
    credentials apply when they can be loaded, and the default location
    is what is left. *)
Definition chain_source (w : World) (kubeconfig_path : option string)
  : ClusterConfigSource :=
  match first_applicable w kubeconfig_path with
  | InCluster =>
      match load_incluster_config w with
      | Return _ => InCluster
      | Raise _ => DefaultFile
      end
  | s => s
  end.

(** The source a call reports as loaded is the one the chain picks. *)
Definition chain_respected (w : World) (kubeconfig_path : option string) : Prop :=
  forall s,
    outcome (load_kubernetes_config w kubeconfig_path) = Return (loaded_message s) ->
    s = chain_source w kubeconfig_path.

(** The calls to the cluster's API server in a trace (the calls that
    load configuration left out). *)
Definition is_api_call (ev : event) : bool :=
  match ev with
  | LoadKubeConfig _ | LoadInclusterConfig => false
  | _ => true
  end.

Definition api_calls (t : list event) : list event := filter is_api_call t.

Definition is_log_read (ev : event) : bool :=
  match ev with ReadNamespacedPodLog _ => true | _ => false end.

(** Every character of [s] is one that Python counts as whitespace;
    the empty string included. *)
Fixpoint whitespace_only (s : string) : bool :=
  match s with
  | EmptyString => true
  | String c1 s1 =>
      if Py.is_space c1 then whitespace_only s1
      else match s1 with
           | EmptyString => false
           | String c2 s2 =>
               if Py.is_space2 c1 c2 then whitespace_only s2
               else match s2 with
                    | EmptyString => false
                    | String c3 s3 =>
                        (Py.is_space3 c1 c2 c3 && whitespace_only s3)%bool
                    end
           end
  end.

(** [s] is [p] followed by [suffix]. *)
Definition prefixed_with (p s suffix : string) : Prop := s = p ++ suffix.

(** The error record the two closing [except] clauses of a list
    operation or of [describe_pod] build from an exception. *)
Definition boundary_record (what : string) (e : exn) : value :=
  match e with
  | ApiException status reason _ =>
      error_record_code ("Kubernetes API error: " ++ reason) status
  | _ => error_record (what ++ str_exn e)
  end.

(** An operation made of configuration, one client call and the
    reshaping of its answer, closed by the two [except] clauses, written
    out by stages. *)
Definition staged {A} (w : World) (ev : event) (r : result A)
    (success : string -> A -> value) (what : string) : Comp value :=
  match load_kubernetes_config w None with
  | (t, Raise e) => (t, Return (boundary_record what e))
  | (t, Return config_status) =>
      ((t ++ [ev])%list,
       match r with
       | Return items => Return (success config_status items)
       | Raise e => Return (boundary_record what e)
       end)
  end.

(** The roles one label key contributes in [get_nodes]: the key with
    the role text taken out, when the key has that text in it and
    something is left. *)
Definition derived_roles (label_key : string) : list string :=
  if Py.contains role_prefix label_key
  then let role := Py.replace role_prefix "" label_key in
       if Py.truthy role then [role] else []
  else [].

(** The default kubeconfig location was tried. *)
Definition fallback_attempted (w : World) (kubeconfig_path : option string) : Prop :=
  In (source_event DefaultFile) (trace (load_kubernetes_config w kubeconfig_path)).

(** Step 3 of the resolution, the in-cluster load, ran and failed. *)
Definition incluster_failed (w : World) (kubeconfig_path : option string) : Prop :=
  In (source_event InCluster) (trace (load_kubernetes_config w kubeconfig_path)) /\
  raised_by w (source_event InCluster) <> None.

(** The state variants present in a container-status entry of
    [describe_pod]: the keys of its [state] dictionary. *)
Definition state_variants (entry : dict) : list string :=
  match dict_get "state" entry with
  | Some (VDict st) => keys st
  | _ => []
  end.

(** The state variants set on a container state of the API, in the
    order [describe_pod] looks at them. *)
Definition set_variants (st : option K8s.ContainerState) : list string :=
  match st with
  | Some s =>
      ((match K8s.running s with Some _ => ["running"] | None => [] end) ++
       (match K8s.terminated s with Some _ => ["terminated"] | None => [] end) ++
       (match K8s.waiting s with Some _ => ["waiting"] | None => [] end))%list
  | None => []
  end.

(** The field names of a state variant in the result of [describe_pod]. *)
Definition variant_fields (variant : string) : list string :=
  if variant =? "running" then ["started_at"]
  else if variant =? "terminated" then ["exit_code"; "reason"; "message"]
  else if variant =? "waiting" then ["reason"; "message"]
  else [].

(** The last client call of a computation raised [ApiException] with
    this status: a numeric status is available. *)
Definition api_status (w : World) (t : list event) : option Z :=
  match raised_by w (last t LoadInclusterConfig) with
  | Some (ApiException status _ _) => Some status
  | _ => None
  end.

(* ===================================================================== *)
(** ** Concrete clusters and worlds *)
(* ===================================================================== *)

Module Sample.

Definition meta (n : string) (l : option (list (string * string))) : K8s.ObjectMeta :=
  {| K8s.name := Some n;
     K8s.namespace := Some "default";
     K8s.uid := Some "0c1d";
     K8s.creation_timestamp := Some "2025-01-01 00:00:00+00:00";
     K8s.labels := l;
     K8s.annotations := None |}.

Definition container (n : string) : K8s.Container :=
  {| K8s.c_name := n;
     K8s.image := Some "nginx:1.27";
     K8s.ports := None;
     K8s.env := None;
     K8s.resources := None |}.

Definition container_status (n : string) (st : option K8s.ContainerState)
  : K8s.ContainerStatus :=
  {| K8s.cs_name := Some n;
     K8s.ready := true;
     K8s.restart_count := 0;
     K8s.cs_image := Some "nginx:1.27";
     K8s.image_id := None;
     K8s.container_id := None;
     K8s.state := st |}.

Definition pod (names : list string) (css : option (list K8s.ContainerStatus)) : K8s.Pod :=
  {| K8s.metadata := meta "web" None;
     K8s.spec := {| K8s.node_name := Some "node-1";
                    K8s.restart_policy := Some "Always";
                    K8s.service_account_name := Some "default";
                    K8s.containers := map container names |};
     K8s.status := {| K8s.phase := Some "Running";
                      K8s.message := None;
                      K8s.reason := None;
                      K8s.pod_ip := Some "10.0.0.7";
                      K8s.host_ip := Some "192.168.1.10";
                      K8s.start_time := None;
                      K8s.container_statuses := css;
                      K8s.conditions := None |} |}.

Definition node (n : string) (l : list (string * string)) : K8s.Node :=
  {| K8s.node_metadata := meta n (Some l);
     K8s.node_status := {| K8s.node_conditions :=
                             Some [{| K8s.nc_type := "Ready"; K8s.nc_status := "True" |}];
                           K8s.capacity := None;
                           K8s.allocatable := None;
                           K8s.node_info := None |} |}.

Definition service (n : string) : K8s.Service :=
  {| K8s.svc_metadata := meta n None;
     K8s.svc_spec := {| K8s.type := Some "ClusterIP";
                        K8s.cluster_ip := Some "10.96.0.1";
                        K8s.external_i_ps := None;
                        K8s.svc_ports := None |};
     K8s.load_balancer := None |}.

Definition deployment (n : string) : K8s.Deployment :=
  {| K8s.dep_metadata := meta n None;
     K8s.replicas := Some 2;
     K8s.dep_status := {| K8s.ready_replicas := Some 2;
                          K8s.available_replicas := None;
                          K8s.updated_replicas := None;
                          K8s.dep_conditions := None |} |}.

(** A world given by what varies between the examples: the value of
    KUBECONFIG, the two configuration loaders, the nodes, the pod read
    and the log read.  No file exists at an explicit path; every list
    call answers with one object per kind ([web]), the namespaced ones
    with none. *)
Definition world (kubeconfig : option string)
    (load_kube : option string -> result unit) (incluster : result unit)
    (nodes : list K8s.Node) (pod_read : result K8s.Pod) (log_read : result string)
  : World :=
  {| path_exists := fun _ => false;
     environ_get := fun k => if k =? "KUBECONFIG" then kubeconfig else None;
     load_kube_config := load_kube;
     load_incluster_config := incluster;
     list_pod_for_all_namespaces := fun _ => Return [pod ["app"] None];
     list_namespaced_pod := fun _ _ => Return [];
     list_node := Return nodes;
     list_namespace := Return [];
     list_service_for_all_namespaces := Return [service "web"];
     list_namespaced_service := fun _ => Return [];
     list_deployment_for_all_namespaces := Return [deployment "web"];
     list_namespaced_deployment := fun _ => Return [];
     read_namespaced_pod := fun _ _ => pod_read;
     read_namespaced_pod_log := fun _ => log_read |}.

Definition not_in_cluster : result unit :=
  Raise (ConfigException "Service host/port is not set.").

Definition no_kubeconfig : exn :=
  ConfigException "Invalid kube-config file. No configuration found.".

(** A workstation: KUBECONFIG unset, not in a cluster, a valid
    ~/.kube/config. *)
Definition workstation (nodes : list K8s.Node) (pod_read : result K8s.Pod)
    (log_read : result string) : World :=
  world None (fun _ => Return tt) not_in_cluster nodes pod_read log_read.

(** KUBECONFIG names a file that cannot be loaded; ~/.kube/config is
    valid. *)
Definition stale_kubeconfig : World :=
  world (Some "/etc/kube/stale.conf")
        (fun f => match f with Some _ => Raise no_kubeconfig | None => Return tt end)
        not_in_cluster [] (Return (pod ["app"] None)) (Return "").

(** A pod of a cluster, its service-account credentials in place and a
    valid ~/.kube/config, whose KUBECONFIG names a file that cannot be
    loaded. *)
Definition stale_kubeconfig_in_pod : World :=
  world (Some "/etc/kube/stale.conf")
        (fun f => match f with Some _ => Raise no_kubeconfig | None => Return tt end)
        (Return tt) [] (Return (pod ["app"] None)) (Return "").

(** KUBECONFIG names a file that the process may not read: opening it
    raises a [PermissionError]. *)
Definition unreadable_kubeconfig : World :=
  world (Some "/etc/kube/root.conf")
        (fun _ => Raise (OtherException
                           "[Errno 13] Permission denied: '/etc/kube/root.conf'"))
        not_in_cluster [] (Return (pod ["app"] None)) (Return "").

(** A log of nothing but whitespace: a space, a newline, a no-break
    space (U+00A0), a line separator (U+2028) and an ideographic space
    (U+3000). *)
Definition blank_log : string :=
  " " ++ String Py.nl "" ++ Py.chr 160 ++ Py.chr 8232 ++ Py.chr 12288.

(** No source can be loaded. *)
Definition no_config : World :=
  world None (fun _ => Raise no_kubeconfig) not_in_cluster
        [] (Return (pod ["app"] None)) (Return "").

(** Loading the file named by KUBECONFIG raises an [ApiException] with
    status 400 whose body mentions a container. *)
Definition config_api_error : World :=
  world (Some "/etc/kube/oidc.conf")
        (fun _ => Raise (ApiException 400 "Bad Request"
                                      "issuer: container registry token rejected"))
        not_in_cluster [] (Return (pod ["app"] None)) (Return "").

(** A node labelled [foo.node-role.kubernetes.io/x]: its label key has
    the role text inside it, not as a prefix. *)
Definition odd_labels : list (string * string) :=
  [("kubernetes.io/hostname", "node-1"); ("foo.node-role.kubernetes.io/x", "")].

Definition control_plane_labels : list (string * string) :=
  [("kubernetes.io/hostname", "cp-1"); ("node-role.kubernetes.io/control-plane", "")].

(** A pod with a container status that has no [state]. *)
Definition stateless_status : K8s.ContainerStatus := container_status "app" None.

Definition running_status : K8s.ContainerStatus :=
  container_status "app"
    (Some {| K8s.running := Some {| K8s.started_at := Some "2025-01-01 00:00:05+00:00" |};
             K8s.terminated := None;
             K8s.waiting := None |}).

End Sample.

(* ===================================================================== *)
(** ** get_model_config *)
(* ===================================================================== *)

(** [os.getenv(key, default)]: the default is used only when the
    variable is not set; a variable set to the empty string gives the
    empty string. *)
Definition getenv (environ : string -> option string) (key default : string) : string :=
  match environ key with
  | Some v => v
  | None => default
  end.

(** [os.environ[key] = value] *)
Definition setenv (key value : string) (environ : string -> option string)
  : string -> option string :=
  fun k => if k =? key then Some value else environ k.

(** What [get_model_config] returns: a [LiteLlm] object for a local
    model, or the name of a Gemini model. *)
Inductive model_config : Type :=
| LiteLlm (model : string)
| ModelName (name : string).

(** The lines printed, the environment of the process afterwards, and
    the value returned. *)
Record ModelSelection : Type := {
  printed : list string;
  environ_after : string -> option string;
  selected : model_config
}.

(** [LITELLM_AVAILABLE] is the module flag set by the guarded import of
    [LiteLlm]. *)
Definition get_model_config (environ : string -> option string)
    (LITELLM_AVAILABLE : bool) : ModelSelection :=
  let llm_type := Py.lower (getenv environ "LLM_TYPE" "cloud") in
  let cloud (out : list string) :=
    let gemini_model := getenv environ "GEMINI_MODEL" "gemini-2.0-pro-exp" in
    {| printed := (out ++ [("Using Cloud LLM: " ++ gemini_model)%string])%list;
       environ_after := environ;
       selected := ModelName gemini_model |} in
  if llm_type =? "local" then
    if negb LITELLM_AVAILABLE then
      cloud ["Error: Local LLM requested but LiteLlm not available.";
             "Falling back to cloud LLM (Gemini)."]
    else
      let lm_studio_base :=
        getenv environ "LM_STUDIO_API_BASE" "http://127.0.0.1:1234/v1/" in
      let lm_studio_model := getenv environ "LM_STUDIO_MODEL" "lm_studio/qwen3-1.7b" in
      {| printed := ["Using Local LLM: " ++ lm_studio_model ++ " at " ++ lm_studio_base];
         environ_after := setenv "LM_STUDIO_API_BASE" lm_studio_base environ;
         selected := LiteLlm lm_studio_model |}
  else cloud [].

(* ===================================================================== *)
(** ** test_kubernetes_connection.py *)
(* ===================================================================== *)

(** The diagnostic script, as the calls it makes, the environment it
    leaves and the verdict it returns.  The text it prints is not part
    of the model; no print decides what the script does next. *)
Module Diagnostics.

(** What the script reaches besides the [World] of agent.py. *)
Record Host : Type := {
  expanduser : string -> string;
  expandvars : string -> string;
  (** [from kubernetes import client, config] succeeds; otherwise it
      raises ImportError. *)
  import_kubernetes : bool;
  (** [v1.list_namespace(timeout_seconds=5)] *)
  list_namespace_5s : result (list K8s.Namespace);
  (** The imports at the head of agent.py (google.adk, kubernetes,
      dotenv). *)
  agent_dependencies : result unit;
  (** The variables of the .env file that [load_dotenv()] finds. *)
  dotenv_file : string -> option string;
  (** The guarded import of [LiteLlm] succeeds. *)
  litellm_available : bool;
  (** The constructors [LiteLlm(...)] and [Agent(...)]. *)
  agent_built : result unit
}.

(** [load_dotenv()]: a variable of the file is set unless the
    environment has it already. *)
Definition load_dotenv (file environ : string -> option string)
  : string -> option string :=
  fun k => match environ k with
           | Some v => Some v
           | None => file k
           end.

(** [from kubernetes_agent.agent import root_agent, get_pods], run for
    the first time in the process: the body of agent.py, that is its
    imports, [load_dotenv()], and [Agent(..., model=get_model_config(),
    ...)].  The result is the environment afterwards and whether the
    import raised. *)
Definition import_agent (h : Host) (environ : string -> option string)
  : (string -> option string) * result unit :=
  match agent_dependencies h with
  | Raise e => (environ, Raise e)
  | Return _ =>
      let environ := load_dotenv (dotenv_file h) environ in
      let model := get_model_config environ (litellm_available h) in
      (environ_after model, agent_built h)
  end.

Inductive step : Type :=
| Load (config_file : option string)
| ListNamespaces
| ImportAgent
| GetPodsTool (calls : list event).

Record Diagnosis : Type := {
  steps : list step;
  environ_left : string -> option string;
  verdict : bool
}.

(** The process with another environment. *)
Definition with_environ (w : World) (environ : string -> option string) : World :=
  {| path_exists := path_exists w;
     environ_get := environ;
     load_kube_config := load_kube_config w;
     load_incluster_config := load_incluster_config w;
     list_pod_for_all_namespaces := list_pod_for_all_namespaces w;
     list_namespaced_pod := list_namespaced_pod w;
     list_node := list_node w;
     list_namespace := list_namespace w;
     list_service_for_all_namespaces := list_service_for_all_namespaces w;
     list_namespaced_service := list_namespaced_service w;
     list_deployment_for_all_namespaces := list_deployment_for_all_namespaces w;
     list_namespaced_deployment := list_namespaced_deployment w;
     read_namespaced_pod := read_namespaced_pod w;
     read_namespaced_pod_log := read_namespaced_pod_log w |}.

(** The process with [os.environ[key] = value] done. *)
Definition set_environ (w : World) (key value : string) : World :=
  with_environ w (setenv key value (environ_get w)).

Definition config_locations : list string :=
  ["~/.kube/config";
   "~/kubespray/inventory/onemachine/artifacts/admin.conf";
   "${HOME}/kubespray/inventory/onemachine/artifacts/admin.conf"].

(** Step 2: the well-known locations that exist, expanded. *)
Definition found_configs (w : World) (h : Host) : list string :=
  flat_map (fun location =>
              let expanded := expanduser h (expandvars h location) in
              if path_exists w expanded then [expanded] else [])
           config_locations.

(** Step 3, first loop: [for path in kubeconfig_env.split(':')], with
    the [break] after the first load that succeeds.  The result says
    whether a configuration was loaded. *)
Fixpoint load_from_env (w : World) (h : Host) (paths : list string)
  : list step * bool :=
  match paths with
  | [] => ([], false)
  | path :: rest =>
      let expanded_path := expanduser h path in
      if path_exists w expanded_path then
        match load_kube_config w (Some expanded_path) with
        | Return _ => ([Load (Some expanded_path)], true)
        | Raise _ =>
            let (t, config_loaded) := load_from_env w h rest in
            (Load (Some expanded_path) :: t, config_loaded)
        end
      else load_from_env w h rest
  end.

(** Step 3, second loop: [for config_path in found_configs]. *)
Fixpoint load_from_found (w : World) (configs : list string) : list step * bool :=
  match configs with
  | [] => ([], false)
  | config_path :: rest =>
      match load_kube_config w (Some config_path) with
      | Return _ => ([Load (Some config_path)], true)
      | Raise _ =>
          let (t, config_loaded) := load_from_found w rest in
          (Load (Some config_path) :: t, config_loaded)
      end
  end.

Definition colon : ascii := ascii_of_nat 58.

Definition test_kubernetes_connection (w : World) (h : Host) : Diagnosis :=
  let kubeconfig_env := environ_get w "KUBECONFIG" in
  let found_configs := found_configs w h in
  let stop (t : list step) :=
    {| steps := t; environ_left := environ_get w; verdict := false |} in
  (* 3. load a configuration *)
  if negb (import_kubernetes h) then stop []
  else
    let (t1, config_loaded) :=
      if Py.truthy_opt kubeconfig_env
      then load_from_env w h (Py.split colon (Py.str_opt kubeconfig_env))
      else ([], false) in
    let (t2, config_loaded) :=
      if negb config_loaded then load_from_found w found_configs else ([], true) in
    let (t3, config_loaded) :=
      if negb config_loaded
      then match load_kube_config w None with
           | Return _ => ([Load None], true)
           | Raise _ => ([Load None], false)
           end
      else ([], true) in
    let t := (t1 ++ t2 ++ t3)%list in
    if negb config_loaded then stop t
    else
      (* 4. reach the API *)
      match list_namespace_5s h with
      | Raise _ => stop (t ++ [ListNamespaces])%list
      | Return _ =>
          (* 5. the agent; nothing here changes the verdict *)
          let w' :=
            match found_configs with
            | first :: _ => set_environ w "KUBECONFIG" first
            | [] => w
            end in
          match import_agent h (environ_get w') with
          | (environ, Raise _) =>
              {| steps := (t ++ [ListNamespaces; ImportAgent])%list;
                 environ_left := environ;
                 verdict := true |}
          | (environ, Return _) =>
              let w'' := with_environ w' environ in
              {| steps := (t ++ [ListNamespaces; ImportAgent;
                                 GetPodsTool (trace (get_pods w'' "kube-system" None))])%list;
                 environ_left := environ;
                 verdict := true |}
          end
      end.

(** [__main__]: an argument becomes KUBECONFIG; the exit status is 0 for
    a true verdict and 1 otherwise.  [argv] is [sys.argv], the name of
    the script first. *)
Definition main (w : World) (h : Host) (argv : list string) : Z :=
  let w :=
    match argv with
    | _ :: arg :: _ => set_environ w "KUBECONFIG" arg
    | _ => w
    end in
  if verdict (test_kubernetes_connection w h) then 0 else 1.

(** The configurations step 3 can load, in the order it tries them: the
    entries of KUBECONFIG that exist, the well-known files that exist,
    the default location. *)
Definition candidates (w : World) (h : Host) : list (option string) :=
  (map Some
       (filter (path_exists w)
               (map (expanduser h)
                    (if Py.truthy_opt (environ_get w "KUBECONFIG")
                     then Py.split colon (Py.str_opt (environ_get w "KUBECONFIG"))
                     else []))) ++
   map Some (found_configs w h) ++ [None])%list.

Definition loads (w : World) (c : option string) : bool :=
  match load_kube_config w c with Return _ => true | Raise _ => false end.

(** A list up to and with its first element that satisfies [p]. *)
Fixpoint up_to_first {A} (p : A -> bool) (l : list A) : list A :=
  match l with
  | [] => []
  | x :: l' => if p x then [x] else x :: up_to_first p l'
  end.

(** The configuration loads among the steps of a diagnosis. *)
Definition loads_of (t : list step) : list (option string) :=
  flat_map (fun s => match s with Load c => [c] | _ => [] end) t.

End Diagnostics.

(* ===================================================================== *)
(** ** Further notions *)
(* ===================================================================== *)

(** The number of occurrences of a character in a text. *)
Fixpoint count_char (c : ascii) (s : string) : nat :=
  match s with
  | EmptyString => O
  | String c' s' => if Ascii.eqb c' c then S (count_char c s') else count_char c s'
  end.

(** [tail_lines] or [since_seconds] as echoed in the success record of
    [get_logs]: only a number other than zero is echoed. *)
Definition echoed (o : option Z) : option value :=
  match o with
  | Some z => if (z =? 0)%Z then None else Some (VInt z)
  | None => None
  end.

Definition flag (b : bool) : option value :=
  if b then Some (VBool true) else None.

(** One turn of the loop of [get_nodes] over the conditions of a node:
    [conditions[condition.type] = condition.status]. *)
Definition conditions_step (conditions : list (string * string))
    (condition : K8s.NodeCondition) : list (string * string) :=
  dict_set (K8s.nc_type condition) (K8s.nc_status condition) conditions.

(** The field of a list operation's success record that holds the
    records, and the field that holds their number. *)
Definition items_key (op : operation) : string :=
  match op with
  | GetPods _ _ => "pods"
  | GetNodes => "nodes"
  | GetNamespaces => "namespaces"
  | GetServices _ => "services"
  | GetDeployments _ => "deployments"
  | _ => ""
  end.

Definition count_key (op : operation) : string :=
  match op with
  | GetPods _ _ => "pod_count"
  | GetNodes => "node_count"
  | GetNamespaces => "namespace_count"
  | GetServices _ => "service_count"
  | GetDeployments _ => "deployment_count"
  | _ => ""
  end.

(** The names of the objects in an answer of the API, in its order. *)
Definition answer_names {A} (meta : A -> K8s.ObjectMeta) (r : result (list A))
  : option (list value) :=
  match r with
  | Return items => Some (map (fun x => vstr_opt (K8s.name (meta x))) items)
  | Raise _ => None
  end.

(** The names of the objects the API lists for a list operation, when it
    answers. *)
Definition listed_names (w : World) (op : operation) : option (list value) :=
  match op with
  | GetPods ns ls =>
      answer_names K8s.metadata
        (if Py.lower ns =? "all" then list_pod_for_all_namespaces w ls
         else list_namespaced_pod w ns ls)
  | GetNodes => answer_names K8s.node_metadata (list_node w)
  | GetNamespaces => answer_names K8s.ns_metadata (list_namespace w)
  | GetServices ns =>
      answer_names K8s.svc_metadata
        (if Py.lower ns =? "all" then list_service_for_all_namespaces w
         else list_namespaced_service w ns)
  | GetDeployments ns =>
      answer_names K8s.dep_metadata
        (if Py.lower ns =? "all" then list_deployment_for_all_namespaces w
         else list_namespaced_deployment w ns)
  | DescribePod _ _ => None
  | GetLogs _ _ _ _ _ _ _ => None
  end.

(** The [name] field of each record of a list. *)
Definition record_names (records : list value) : list value :=
  map (fun v => match v with
                | VDict d => match dict_get "name" d with Some n => n | None => VNone end
                | _ => VNone
                end) records.

(** The most API calls an operation makes. *)
Definition api_call_bound (op : operation) : nat :=
  match op with
  | GetLogs _ _ _ _ _ _ _ => 2
  | _ => 1
  end.

Module MoreSamples.

(** A node whose readiness was reported twice: the later report
    counts. *)
Definition flapping_node : K8s.Node :=
  {| K8s.node_metadata := Sample.meta "node-2" None;
     K8s.node_status :=
       {| K8s.node_conditions :=
            Some [{| K8s.nc_type := "MemoryPressure"; K8s.nc_status := "False" |};
                  {| K8s.nc_type := "Ready"; K8s.nc_status := "False" |};
                  {| K8s.nc_type := "Ready"; K8s.nc_status := "True" |}];
          K8s.capacity := None;
          K8s.allocatable := None;
          K8s.node_info := None |} |}.

End MoreSamples.

Module MoreSamples2.

(** A container with one literal variable, one variable taken from a
    secret (no direct value) and one set to the empty string. *)
Definition app_container : K8s.Container :=
  {| K8s.c_name := "app";
     K8s.image := Some "nginx:1.27";
     K8s.ports := None;
     K8s.env := Some [{| K8s.env_name := "MODE"; K8s.env_value := Some "prod" |};
                      {| K8s.env_name := "TOKEN"; K8s.env_value := None |};
                      {| K8s.env_name := "EMPTY"; K8s.env_value := Some "" |}];
     K8s.resources := None |}.

Definition app_pod : K8s.Pod :=
  {| K8s.metadata := Sample.meta "web" None;
     K8s.spec := {| K8s.node_name := None;
                    K8s.restart_policy := None;
                    K8s.service_account_name := None;
                    K8s.containers := [app_container] |};
     K8s.status := {| K8s.phase := Some "Running";
                      K8s.message := None;
                      K8s.reason := None;
                      K8s.pod_ip := None;
                      K8s.host_ip := None;
                      K8s.start_time := None;
                      K8s.container_statuses := None;
                      K8s.conditions := None |} |}.

(** A load balancer that is known by a host name only. *)
Definition hostname_balancer : K8s.Service :=
  {| K8s.svc_metadata := Sample.meta "edge" None;
     K8s.svc_spec := {| K8s.type := Some "LoadBalancer";
                        K8s.cluster_ip := Some "10.96.0.9";
                        K8s.external_i_ps := None;
                        K8s.svc_ports := None |};
     K8s.load_balancer := Some {| K8s.ingress := Some [{| K8s.ip := None |}] |} |}.

End MoreSamples2.

(** A cluster whose only service is [MoreSamples2.hostname_balancer],
    reached from inside the cluster. *)
Definition balancer_world : World :=
  {| path_exists := fun _ => false;
     environ_get := fun _ => None;
     load_kube_config := fun _ => Return tt;
     load_incluster_config := Return tt;
     list_pod_for_all_namespaces := fun _ => Return [];
     list_namespaced_pod := fun _ _ => Return [];
     list_node := Return [];
     list_namespace := Return [];
     list_service_for_all_namespaces := Return [MoreSamples2.hostname_balancer];
     list_namespaced_service := fun _ => Return [];
     list_deployment_for_all_namespaces := Return [];
     list_namespaced_deployment := fun _ => Return [];
     read_namespaced_pod := fun _ _ => Return (Sample.pod ["app"] None);
     read_namespaced_pod_log := fun _ => Return "" |}.

Module MoreSamples3.

(** LLM_TYPE=LOCAL and nothing else set. *)
Definition local_environ : string -> option string :=
  fun k => if k =? "LLM_TYPE" then Some "LOCAL" else None.

(** A home directory with a kubespray administrator file and no
    ~/.kube/config; KUBECONFIG lists a missing file and a stale one. *)
Definition home : Diagnostics.Host :=
  {| Diagnostics.expanduser :=
       fun p => if prefix "~/" p
                then "/home/dev" ++ String.substring 1 (String.length p - 1) p
                else p;
     Diagnostics.expandvars :=
       fun p => if prefix "${HOME}" p
                then "/home/dev" ++ String.substring 7 (String.length p - 7) p
                else p;
     Diagnostics.import_kubernetes := true;
     Diagnostics.list_namespace_5s := Return [];
     Diagnostics.agent_dependencies := Return tt;
     Diagnostics.dotenv_file :=
       fun k => if k =? "KUBECONFIG" then Some "/srv/dotenv.conf"
                else if k =? "LLM_TYPE" then Some "local"
                else None;
     Diagnostics.litellm_available := true;
     Diagnostics.agent_built := Return tt |}.

Definition admin_conf : string :=
  "/home/dev/kubespray/inventory/onemachine/artifacts/admin.conf".

Definition kubespray_world : World :=
  {| path_exists := fun p => (p =? admin_conf) || (p =? "/etc/kube/stale.conf");
     environ_get := fun k => if k =? "KUBECONFIG"
                             then Some "/etc/kube/missing.conf:/etc/kube/stale.conf"
                             else None;
     load_kube_config :=
       fun f => match f with
                | Some p => if p =? admin_conf then Return tt
                            else Raise Sample.no_kubeconfig
                | None => Raise Sample.no_kubeconfig
                end;
     load_incluster_config := Sample.not_in_cluster;
     list_pod_for_all_namespaces := fun _ => Return [];
     list_namespaced_pod := fun _ _ => Return [Sample.pod ["coredns"] None];
     list_node := Return [];
     list_namespace := Return [];
     list_service_for_all_namespaces := Return [];
     list_namespaced_service := fun _ => Return [];
     list_deployment_for_all_namespaces := Return [];
     list_namespaced_deployment := fun _ => Return [];
     read_namespaced_pod := fun _ _ => Return (Sample.pod ["app"] None);
     read_namespaced_pod_log := fun _ => Return "" |}.

End MoreSamples3.

(* ===================================================================== *)
(** ** Python strings and dictionaries: lemmas *)
(* ===================================================================== *)

Ltac break_match :=
  match goal with
  | |- context [match ?x with _ => _ end] => destruct x eqn:?
  end.

Lemma prefix_app (p s : string) : prefix p (p ++ s) = true.
Proof.
  induction p as [|c p IH]; simpl.
  - destruct s; reflexivity.
  - destruct (ascii_dec c c); [exact IH | congruence].
Qed.


Lemma contains_prefix (sub s : string) : prefix sub s = true -> Py.contains sub s = true.
Proof. intros H. destruct s; simpl in *; rewrite H; reflexivity. Qed.






(** Induction on strings by length: the whitespace functions step over
    characters of one, two and three bytes. *)
Lemma string_length_ind (P : string -> Prop) :
  (forall s, (forall t, (String.length t < String.length s)%nat -> P t) -> P s) ->
  forall s, P s.
Proof.
  intros H s. remember (String.length s) as n eqn:Hn. revert s Hn.
  induction n as [n IH] using lt_wf_ind. intros s Hn.
  apply H. intros t Ht. apply (IH (String.length t)); [lia | reflexivity].
Qed.

Ltac shorter IH := apply IH; simpl; lia.

Lemma lstrip_whitespace (s : string) : whitespace_only s = true -> Py.lstrip s = "".
Proof.
  induction s as [s IH] using string_length_ind.
  destruct s as [|c1 s1]; [reflexivity|].
  cbn [whitespace_only Py.lstrip].
  destruct (Py.is_space c1); [shorter IH|].
  destruct s1 as [|c2 s2]; [discriminate|].
  destruct (Py.is_space2 c1 c2); [shorter IH|].
  destruct s2 as [|c3 s3]; [discriminate|].
  destruct (Py.is_space3 c1 c2 c3); [|discriminate].
  cbn [andb]. shorter IH.
Qed.

(** The test of [get_logs] for text with nothing but whitespace. *)
Lemma strip_whitespace (s : string) : whitespace_only s = true -> Py.strip s = "".
Proof. intros H. unfold Py.strip. rewrite (lstrip_whitespace s H). reflexivity. Qed.

Lemma rstrip_empty (s : string) : Py.rstrip s = "" -> whitespace_only s = true.
Proof.
  induction s as [s IH] using string_length_ind.
  destruct s as [|c1 s1]; [reflexivity|].
  cbn [whitespace_only Py.rstrip].
  destruct (Py.is_space c1).
  { destruct (Py.rstrip s1 =? "") eqn:E; [|discriminate].
    intros _. apply String.eqb_eq in E. revert E. shorter IH. }
  destruct s1 as [|c2 s2]; [discriminate|].
  destruct (Py.is_space2 c1 c2).
  { destruct (Py.rstrip s2 =? "") eqn:E; [|discriminate].
    intros _. apply String.eqb_eq in E. revert E. shorter IH. }
  destruct s2 as [|c3 s3]; [discriminate|].
  destruct (Py.is_space3 c1 c2 c3); [|discriminate].
  destruct (Py.rstrip s3 =? "") eqn:E; [|discriminate].
  intros _. apply String.eqb_eq in E. cbn [andb]. revert E. shorter IH.
Qed.

Lemma lstrip_whitespace_only (s : string) :
  whitespace_only (Py.lstrip s) = true -> whitespace_only s = true.
Proof.
  induction s as [s IH] using string_length_ind.
  destruct s as [|c1 s1]; [reflexivity|].
  cbn [Py.lstrip].
  destruct (Py.is_space c1) eqn:E1.
  { intros H. cbn [whitespace_only]. rewrite E1. revert H. shorter IH. }
  destruct s1 as [|c2 s2]; [intros H; exact H|].
  destruct (Py.is_space2 c1 c2) eqn:E2.
  { intros H. cbn [whitespace_only]. rewrite E1, E2. revert H. shorter IH. }
  destruct s2 as [|c3 s3]; [intros H; exact H|].
  destruct (Py.is_space3 c1 c2 c3) eqn:E3; [|intros H; exact H].
  intros H. cbn [whitespace_only]. rewrite E1, E2, E3. cbn [andb].
  revert H. shorter IH.
Qed.

(** [s.strip()] is empty exactly for whitespace-only text. *)
Lemma strip_empty_iff (s : string) : Py.strip s = "" <-> whitespace_only s = true.
Proof.
  split; [|apply strip_whitespace].
  intros H. apply lstrip_whitespace_only, rstrip_empty, H.
Qed.

(* ===================================================================== *)
(** ** Properties of load_kubernetes_config *)
(* ===================================================================== *)


Lemma load_first_attempt (w : World) (kubeconfig_path : option string) :
  load_kubernetes_config w kubeconfig_path =
  let s := first_applicable w kubeconfig_path in
  try_except
    (_ <- call (source_event s)
               (match s with
                | ExplicitPath p | EnvVariable p => load_kube_config w (Some p)
                | InCluster => load_incluster_config w
                | DefaultFile => load_kube_config w None
                end) ;;
     ret (loaded_message s))
    (fun e =>
       match e with
       | ConfigException _ =>
           Some (try_except
                   (_ <- call (LoadKubeConfig None) (load_kube_config w None) ;;
                    ret "Loaded kubeconfig from default location (~/.kube/config)")
                   (fun fallback_error =>
                      Some (ret ("Failed to load any Kubernetes config: " ++
                                 str_exn e ++ ", " ++ str_exn fallback_error))))
       | _ => None
       end).
Proof.
  unfold load_kubernetes_config, first_applicable.
  destruct kubeconfig_path as [p|]; simpl.
  - destruct (Py.truthy p && path_exists w p)%bool; [reflexivity|].
    destruct (environ_get w "KUBECONFIG") as [e|]; simpl; [|reflexivity].
    destruct (Py.truthy e); reflexivity.
  - destruct (environ_get w "KUBECONFIG") as [e|]; simpl; [|reflexivity].
    destruct (Py.truthy e); reflexivity.
Qed.

(** The whole behaviour of the resolver, by the outcome of the first
    load. *)
Lemma load_kubernetes_config_cases (w : World) (kubeconfig_path : option string) :
  let s := first_applicable w kubeconfig_path in
  load_kubernetes_config w kubeconfig_path =
  match raised_by w (source_event s) with
  | None => ([source_event s], Return (loaded_message s))
  | Some (ConfigException m) =>
      ([source_event s; source_event DefaultFile],
       match raised_by w (source_event DefaultFile) with
       | None => Return (loaded_message DefaultFile)
       | Some fallback_error =>
           Return ("Failed to load any Kubernetes config: " ++
                   m ++ ", " ++ str_exn fallback_error)
       end)
  | Some e => ([source_event s], Raise e)
  end.
Proof.
  intros s. rewrite load_first_attempt. fold s.
  destruct s as [p|p| |]; simpl.
  - destruct (load_kube_config w (Some p)) as [[]|e]; simpl; [reflexivity|].
    destruct e; simpl; try reflexivity.
    destruct (load_kube_config w None) as [[]|e']; reflexivity.
  - destruct (load_kube_config w (Some p)) as [[]|e]; simpl; [reflexivity|].
    destruct e; simpl; try reflexivity.
    destruct (load_kube_config w None) as [[]|e']; reflexivity.
  - destruct (load_incluster_config w) as [[]|e]; simpl; [reflexivity|].
    destruct e; simpl; try reflexivity.
    destruct (load_kube_config w None) as [[]|e']; reflexivity.
  - destruct (load_kube_config w None) as [[]|e]; simpl; [reflexivity|].
    destruct e; reflexivity.
Qed.

Lemma first_applicable_not_default (w : World) (kubeconfig_path : option string) :
  source_event (first_applicable w kubeconfig_path) <> source_event DefaultFile.
Proof.
  unfold first_applicable.
  destruct kubeconfig_path as [p|];
    repeat (break_match; simpl; try discriminate).
Qed.

(** The resolver makes no call to the API server. *)
Lemma load_trace_no_api (w : World) (kubeconfig_path : option string) :
  api_calls (trace (load_kubernetes_config w kubeconfig_path)) = [].
Proof.
  rewrite load_kubernetes_config_cases.
  destruct (first_applicable w kubeconfig_path);
    repeat (break_match; simpl; try reflexivity).
Qed.

(** C1, as stated, fails.  In a pod with service-account credentials
    whose KUBECONFIG is set but names a file that cannot be loaded, the
    chain picks KUBECONFIG, the first applicable source; the call
    reports the default location as loaded instead, and the in-cluster
    credentials, which rank above the default location and would have
    loaded, are never tried. *)
Lemma C1_counterexample :
  ~ chain_respected Sample.stale_kubeconfig_in_pod None.
Proof.
  intros H. specialize (H DefaultFile eq_refl). discriminate H.
Qed.

(** C1, amended.  Every call of [load_kubernetes_config] first loads the
    first applicable source in the fixed order explicit path (given and
    the file exists), then KUBECONFIG (set to a non-empty value), then
    in-cluster credentials, and reports it when the load succeeds.  The
    default file location is not a step of that order: it is loaded
    exactly when that first load, whichever source it was, raised a
    ConfigException, with no source in between tried.  A first load that
    raises any other exception ends the call with that exception. *)
Theorem C1_resolution_order (w : World) (kubeconfig_path : option string) :
  let s := first_applicable w kubeconfig_path in
  load_kubernetes_config w kubeconfig_path =
  match raised_by w (source_event s) with
  | None => ([source_event s], Return (loaded_message s))
  | Some (ConfigException m) =>
      ([source_event s; source_event DefaultFile],
       match raised_by w (source_event DefaultFile) with
       | None => Return (loaded_message DefaultFile)
       | Some fallback_error =>
           Return ("Failed to load any Kubernetes config: " ++
                   m ++ ", " ++ str_exn fallback_error)
       end)
  | Some e => ([source_event s], Raise e)
  end.
Proof. exact (load_kubernetes_config_cases w kubeconfig_path). Qed.

(** C6, as stated, fails: with KUBECONFIG naming a file that cannot be
    loaded, the default location is tried although the in-cluster load
    (step 3) never ran. *)
Lemma C6_counterexample :
  ~ (fallback_attempted Sample.stale_kubeconfig None <->
     incluster_failed Sample.stale_kubeconfig None).
Proof.
  intros [H _].
  assert (Hf : fallback_attempted Sample.stale_kubeconfig None)
    by (right; left; reflexivity).
  destruct (H Hf) as [Hin _].
  simpl in Hin. destruct Hin as [Hin|[Hin|[]]]; discriminate Hin.
Qed.

(** C6, amended.  The load from the default kubeconfig location is
    attempted exactly when the first load of the call (the explicit
    path, KUBECONFIG or the in-cluster load, whichever was selected)
    raises a ConfigException; and when that fallback fails too, the
    returned text holds the original failure message followed by the
    fallback failure message. *)
Theorem C6_fallback_on_config_error (w : World) (kubeconfig_path : option string) :
  (fallback_attempted w kubeconfig_path <->
   exists m, raised_by w (source_event (first_applicable w kubeconfig_path))
             = Some (ConfigException m)) /\
  (forall m fallback_error,
     raised_by w (source_event (first_applicable w kubeconfig_path))
       = Some (ConfigException m) ->
     raised_by w (source_event DefaultFile) = Some fallback_error ->
     outcome (load_kubernetes_config w kubeconfig_path) =
     Return ("Failed to load any Kubernetes config: " ++
             m ++ ", " ++ str_exn fallback_error)).
Proof.
  unfold fallback_attempted.
  pose proof (first_applicable_not_default w kubeconfig_path) as Hnd.
  rewrite load_kubernetes_config_cases.
  destruct (raised_by w (source_event (first_applicable w kubeconfig_path)))
    as [e|] eqn:He.
  - destruct e; simpl; (split; [split|]);
      try (intros [H|[]]; contradiction);
      try (intros [m' Hm]; discriminate Hm);
      try (intros m' fe Hm; discriminate Hm).
    + intros _. eexists; reflexivity.
    + intros _. right; left; reflexivity.
    + intros m' fe Hm Hfe. injection Hm as <-. rewrite Hfe. reflexivity.
  - simpl. split; [split|].
    + intros [H|[]]; contradiction.
    + intros [m' Hm]; discriminate Hm.
    + intros m' fe Hm; discriminate Hm.
Qed.

(** With no loadable source at all, both messages are reported. *)
Lemma C6_witness :
  fallback_attempted Sample.no_config None /\
  outcome (load_kubernetes_config Sample.no_config None) =
  Return ("Failed to load any Kubernetes config: " ++
          "Service host/port is not set." ++ ", " ++
          "Invalid kube-config file. No configuration found.").
Proof.
  destruct (C6_fallback_on_config_error Sample.no_config None) as [Hiff Hmsg].
  split.
  - apply Hiff. eexists; reflexivity.
  - apply (Hmsg "Service host/port is not set." Sample.no_kubeconfig);
      reflexivity.
Defined.

(* ===================================================================== *)
(** ** Properties of get_logs *)
(* ===================================================================== *)

Lemma not_in_load_trace (w : World) (p : option string) (ev : event) :
  is_api_call ev = true -> ~ In ev (trace (load_kubernetes_config w p)).
Proof.
  intros Hev Hin.
  pose proof (load_trace_no_api w p) as Hno. unfold api_calls in Hno.
  assert (Hf : In ev (filter is_api_call (trace (load_kubernetes_config w p))))
    by (apply filter_In; split; assumption).
  rewrite Hno in Hf. exact Hf.
Qed.

Lemma load_trace_no_log_read (w : World) (kubeconfig_path : option string) :
  filter is_log_read (trace (load_kubernetes_config w kubeconfig_path)) = [].
Proof.
  rewrite load_kubernetes_config_cases.
  destruct (first_applicable w kubeconfig_path);
    repeat (break_match; simpl; try reflexivity).
Qed.

(** The fields of the success record of [get_logs] that do not depend on
    the optional arguments. *)
Lemma log_response_fields (config_status pod_name namespace : string)
    (container : option string) (logs : string)
    (previous : bool) (tail_lines since_seconds : option Z) (timestamps : bool) :
  let d := log_response config_status pod_name namespace container logs
                        previous tail_lines since_seconds timestamps in
  dict_get "status" d = Some (VStr "success") /\
  dict_get "logs" d = Some (VStr logs) /\
  dict_get "error_message" d = None /\
  dict_get "message" d =
    (if (negb (Py.truthy logs) || (Py.strip logs =? ""))%bool
     then Some (VStr no_logs_message) else None).
Proof.
  unfold log_response.
  destruct (truthy_int tail_lines), (truthy_int since_seconds), previous, timestamps,
    (negb (Py.truthy logs) || (Py.strip logs =? ""))%bool;
    repeat split; reflexivity.
Qed.

Section GetLogs.

Variable w : World.
Variables pod_name namespace : string.
Variable container : option string.
Variable previous : bool.
Variables tail_lines since_seconds : option Z.
Variable timestamps : bool.

(** The call under study. *)
Let c : Comp value :=
  get_logs w pod_name namespace container previous tail_lines since_seconds timestamps.

(** [get_logs] by stages: configuration, the read of the pod, the check
    of the container names, the read of the log. *)
Lemma get_logs_stages :
  c =
  match load_kubernetes_config w None with
  | (t, Raise e) => (t, get_logs_except pod_name namespace container None e)
  | (t, Return config_status) =>
      match read_namespaced_pod w pod_name namespace with
      | Raise (ApiException status _ _) =>
          ((t ++ [ReadNamespacedPod pod_name namespace])%list,
           Return (error_record_code (pod_not_found pod_name namespace) status))
      | Raise e =>
          ((t ++ [ReadNamespacedPod pod_name namespace])%list,
           get_logs_except pod_name namespace container None e)
      | Return pod =>
          let container_names := map K8s.c_name (K8s.containers (K8s.spec pod)) in
          if (negb (Py.truthy_opt container) &&
              Nat.ltb 1 (List.length container_names))%bool
          then ((t ++ [ReadNamespacedPod pod_name namespace])%list,
                Return (multiple_containers_error container_names))
          else
            let container' := default_container container container_names in
            let kwargs := log_kwargs pod_name namespace container'
                                     previous tail_lines since_seconds timestamps in
            ((t ++ [ReadNamespacedPod pod_name namespace; ReadNamespacedPodLog kwargs])%list,
             match read_namespaced_pod_log w kwargs with
             | Return logs =>
                 Return (VDict (log_response config_status pod_name namespace container'
                                             logs previous tail_lines since_seconds
                                             timestamps))
             | Raise e =>
                 get_logs_except pod_name namespace container' (Some container_names) e
             end)
      end
  end.
Proof.
  unfold c, get_logs, guarded, call, ret.
  destruct (load_kubernetes_config w None) as [t [config_status|e]]; [|reflexivity].
  destruct (read_namespaced_pod w pod_name namespace) as [pod|e].
  - cbv zeta.
    destruct (negb (Py.truthy_opt container) &&
              Nat.ltb 1 (List.length (map K8s.c_name (K8s.containers (K8s.spec pod)))))%bool;
      [reflexivity|].
    destruct (read_namespaced_pod_log w _) as [logs|e]; reflexivity.
  - destruct e; reflexivity.
Qed.

(** C10.  In [get_logs], whenever the initial read of the pod raises an
    ApiException, whatever its HTTP status code, the result is the error
    record with the message [Pod '<pod_name>' not found in namespace
    '<namespace>'] and with [error_code] equal to that status code. *)
Theorem C10_pod_read_error_reported_not_found (status : Z) (reason body : string) :
  In (ReadNamespacedPod pod_name namespace) (trace c) ->
  read_namespaced_pod w pod_name namespace = Raise (ApiException status reason body) ->
  outcome c =
  Return (VDict [("status", VStr "error");
                 ("error_message",
                  VStr ("Pod '" ++ pod_name ++ "' not found in namespace '" ++
                        namespace ++ "'"));
                 ("error_code", VInt status)]).
Proof.
  intros Hin Hread. revert Hin. rewrite get_logs_stages.
  pose proof (not_in_load_trace w None (ReadNamespacedPod pod_name namespace) eq_refl)
    as Hno.
  destruct (load_kubernetes_config w None) as [t [config_status|e]]; simpl in *.
  - intros _. rewrite Hread. reflexivity.
  - intros Hin. contradiction.
Qed.

(** Where the log read sits in the trace of [get_logs], and what the
    call returns once the world answers it. *)
Lemma get_logs_log_read (kw : LogKwargs) :
  In (ReadNamespacedPodLog kw) (trace c) ->
  exists config_status pod,
    outcome (load_kubernetes_config w None) = Return config_status /\
    read_namespaced_pod w pod_name namespace = Return pod /\
    let container_names := map K8s.c_name (K8s.containers (K8s.spec pod)) in
    let container' := default_container container container_names in
    (negb (Py.truthy_opt container) && Nat.ltb 1 (List.length container_names))%bool
      = false /\
    kw = log_kwargs pod_name namespace container'
                    previous tail_lines since_seconds timestamps /\
    outcome c =
    match read_namespaced_pod_log w kw with
    | Return logs =>
        Return (VDict (log_response config_status pod_name namespace container'
                                    logs previous tail_lines since_seconds timestamps))
    | Raise e => get_logs_except pod_name namespace container' (Some container_names) e
    end.
Proof.
  rewrite get_logs_stages.
  pose proof (not_in_load_trace w None (ReadNamespacedPodLog kw) eq_refl) as Hno.
  destruct (load_kubernetes_config w None) as [t [config_status|e]]; simpl in *;
    [|intros Hin; contradiction].
  destruct (read_namespaced_pod w pod_name namespace) as [pod|e].
  - cbv zeta.
    destruct (negb (Py.truthy_opt container) &&
              Nat.ltb 1 (List.length (map K8s.c_name (K8s.containers (K8s.spec pod)))))%bool
      eqn:Hmulti; simpl.
    + intros Hin. apply in_app_or in Hin.
      destruct Hin as [Hin|[Hin|[]]]; [contradiction|discriminate].
    + intros Hin. apply in_app_or in Hin.
      destruct Hin as [Hin|[Hin|[Hin|[]]]]; [contradiction|discriminate|].
      injection Hin as <-.
      exists config_status, pod. repeat split; first [exact Hmulti | reflexivity].
  - destruct e; simpl; intros Hin; apply in_app_or in Hin;
      destruct Hin as [Hin|[Hin|[]]]; try contradiction; discriminate.
Qed.

(** C7.  For every [get_logs] call whose log read returns the empty
    string or text of whitespace only - whitespace as [str.strip] takes
    it, the no-break space and the other Unicode spaces included - the
    result is a success record whose [logs] field is that raw text and
    which also carries the explanatory [message] field; it is not an
    error record. *)
Theorem C7_empty_logs_are_success (kw : LogKwargs) (logs : string) :
  In (ReadNamespacedPodLog kw) (trace c) ->
  read_namespaced_pod_log w kw = Return logs ->
  logs = "" \/ whitespace_only logs = true ->
  exists d,
    outcome c = Return (VDict d) /\
    dict_get "status" d = Some (VStr "success") /\
    dict_get "logs" d = Some (VStr logs) /\
    dict_get "message" d = Some (VStr no_logs_message) /\
    dict_get "error_message" d = None.
Proof.
  intros Hin Hread Hws.
  destruct (get_logs_log_read kw Hin) as (config_status & pod & _ & _ & _ & _ & Hout).
  rewrite Hread in Hout.
  assert (Hstrip : Py.strip logs = "").
  { destruct Hws as [->|Hws]; [reflexivity | apply strip_whitespace, Hws]. }
  eexists. split; [exact Hout|].
  pose proof (log_response_fields config_status pod_name namespace
                (default_container container
                   (map K8s.c_name (K8s.containers (K8s.spec pod))))
                logs previous tail_lines since_seconds timestamps) as Hf.
  cbv zeta in Hf. destruct Hf as (Hs & Hl & He & Hm).
  rewrite Hstrip in Hm. simpl in Hm. rewrite orb_true_r in Hm.
  repeat split; assumption.
Qed.


(** [get_logs] returns a record marked success or error, unless
    configuration raised an ApiException with status 400 whose body
    mentions a container: then the handler reads [container_names]
    before it was ever assigned, and the call raises. *)
Lemma get_logs_returns_or_unbound :
  (exists d,
      outcome c = Return (VDict d) /\
      (dict_get "status" d = Some (VStr "success") \/
       dict_get "status" d = Some (VStr "error"))) \/
  (outcome c = Raise (UnboundLocalError "container_names") /\
   exists reason body,
     outcome (load_kubernetes_config w None) = Raise (ApiException 400 reason body) /\
     Py.contains "container" (Py.lower body) = true).
Proof.
  rewrite get_logs_stages. unfold outcome.
  assert (Hexc : forall cont names e,
             exists d, get_logs_except pod_name namespace cont (Some names) e
                       = Return (VDict d) /\
                       dict_get "status" d = Some (VStr "error")).
  { intros cont names e. unfold get_logs_except.
    destruct e; repeat break_match; eexists; split; reflexivity. }
  destruct (load_kubernetes_config w None) as [t [config_status|e]]; cbn [fst snd].
  - left. destruct (read_namespaced_pod w pod_name namespace) as [pod|e].
    + cbv zeta.
      destruct (negb (Py.truthy_opt container) &&
                Nat.ltb 1 (List.length (map K8s.c_name (K8s.containers (K8s.spec pod)))))%bool;
        cbn [fst snd].
      * eexists; split; [reflexivity | right; reflexivity].
      * destruct (read_namespaced_pod_log w _) as [logs|e].
        -- eexists; split; [reflexivity|]. left.
           apply log_response_fields.
        -- destruct (Hexc (default_container container
                             (map K8s.c_name (K8s.containers (K8s.spec pod))))
                          (map K8s.c_name (K8s.containers (K8s.spec pod))) e)
             as (d & -> & Hd). eauto.
    + destruct e; cbn [fst snd]; eexists; (split; [reflexivity | right; reflexivity]).
  - unfold get_logs_except. destruct e;
      try (left; eexists; split; [reflexivity | right; reflexivity]).
    destruct (status =? 400)%Z eqn:E400.
    + apply Z.eqb_eq in E400. subst status.
      destruct (Py.contains "previous terminated container" (Py.lower body));
        [left; eexists; split; [reflexivity | right; reflexivity]|].
      destruct (Py.contains "container" (Py.lower body)) eqn:Ec;
        [|left; eexists; split; [reflexivity | right; reflexivity]].
      right. split; [reflexivity|]. exists reason, body. split; [reflexivity | exact Ec].
    + left. destruct (status =? 404)%Z;
        eexists; (split; [reflexivity | right; reflexivity]).
Qed.

End GetLogs.

(** A pod read refused with status 403 is reported as not found, with
    code 403. *)
Lemma C10_witness :
  outcome (get_logs (Sample.workstation []
                       (Raise (ApiException 403 "Forbidden" "pods is forbidden"))
                       (Return ""))
                    "web" "default" None false None None false) =
  Return (VDict [("status", VStr "error");
                 ("error_message", VStr "Pod 'web' not found in namespace 'default'");
                 ("error_code", VInt 403)]).
Proof.
  apply (C10_pod_read_error_reported_not_found
           (Sample.workstation []
              (Raise (ApiException 403 "Forbidden" "pods is forbidden")) (Return ""))
           "web" "default" None false None None false
           403 "Forbidden" "pods is forbidden").
  - vm_compute. right; right; left; reflexivity.
  - reflexivity.
Defined.

(** A pod that has printed nothing yet, and one that has printed only
    whitespace, a no-break space and an ideographic space included:
    success, the raw text in [logs], and the message. *)
Lemma C7_witness :
  (exists d,
     outcome (get_logs (Sample.workstation [] (Return (Sample.pod ["app"] None)) (Return ""))
                       "web" "default" None false None None false) = Return (VDict d) /\
     dict_get "status" d = Some (VStr "success") /\
     dict_get "logs" d = Some (VStr "") /\
     dict_get "message" d = Some (VStr no_logs_message) /\
     dict_get "error_message" d = None) /\
  (exists d,
     outcome (get_logs (Sample.workstation [] (Return (Sample.pod ["app"] None))
                                           (Return Sample.blank_log))
                       "web" "default" None false None None false) = Return (VDict d) /\
     dict_get "status" d = Some (VStr "success") /\
     dict_get "logs" d = Some (VStr Sample.blank_log) /\
     dict_get "message" d = Some (VStr no_logs_message) /\
     dict_get "error_message" d = None).
Proof.
  split.
  - apply (C7_empty_logs_are_success
             (Sample.workstation [] (Return (Sample.pod ["app"] None)) (Return ""))
             "web" "default" None false None None false
             (log_kwargs "web" "default" (Some "app") false None None false) "").
    + vm_compute. right; right; right; left; reflexivity.
    + reflexivity.
    + left; reflexivity.
  - apply (C7_empty_logs_are_success
             (Sample.workstation [] (Return (Sample.pod ["app"] None))
                                 (Return Sample.blank_log))
             "web" "default" None false None None false
             (log_kwargs "web" "default" (Some "app") false None None false)
             Sample.blank_log).
    + vm_compute. right; right; right; left; reflexivity.
    + reflexivity.
    + right. vm_compute. reflexivity.
Defined.


(* ===================================================================== *)
(** ** The list operations and describe_pod by stages *)
(* ===================================================================== *)

Ltac by_stages :=
  unfold staged, try_except, bind, call, except_boundary, boundary_record, ret;
  destruct (load_kubernetes_config _ None) as [?t [?config_status|[]]];
  cbv iota beta; try rewrite !app_nil_r; try reflexivity;
  match goal with
  | |- context [match ?r with Return _ => _ | Raise _ => _ end] =>
      destruct r as [?items|[]]; cbv iota beta; try rewrite !app_nil_r; reflexivity
  end.

Lemma get_pods_staged (w : World) (namespace : string) (label_selector : option string) :
  get_pods w namespace label_selector =
  let success := fun config_status pods =>
    VDict [("status", VStr "success");
           ("config_info", VStr config_status);
           ("pod_count", vlen (map (fun pod => VDict (pod_info pod)) pods));
           ("pods", VList (map (fun pod => VDict (pod_info pod)) pods))] in
  if Py.lower namespace =? "all"
  then staged w (ListPodForAllNamespaces label_selector)
              (list_pod_for_all_namespaces w label_selector)
              success "Error listing pods: "
  else staged w (ListNamespacedPod namespace label_selector)
              (list_namespaced_pod w namespace label_selector)
              success "Error listing pods: ".
Proof. unfold get_pods. cbv zeta. destruct (Py.lower namespace =? "all"); by_stages. Qed.

Lemma get_services_staged (w : World) (namespace : string) :
  get_services w namespace =
  let success := fun config_status services =>
    VDict [("status", VStr "success");
           ("config_info", VStr config_status);
           ("service_count", vlen (map (fun svc => VDict (service_info svc)) services));
           ("services", VList (map (fun svc => VDict (service_info svc)) services))] in
  if Py.lower namespace =? "all"
  then staged w ListServiceForAllNamespaces (list_service_for_all_namespaces w)
              success "Error listing services: "
  else staged w (ListNamespacedService namespace) (list_namespaced_service w namespace)
              success "Error listing services: ".
Proof. unfold get_services. cbv zeta. destruct (Py.lower namespace =? "all"); by_stages. Qed.

Lemma get_deployments_staged (w : World) (namespace : string) :
  get_deployments w namespace =
  let success := fun config_status deployments =>
    VDict [("status", VStr "success");
           ("config_info", VStr config_status);
           ("deployment_count",
            vlen (map (fun dep => VDict (deployment_info dep)) deployments));
           ("deployments",
            VList (map (fun dep => VDict (deployment_info dep)) deployments))] in
  if Py.lower namespace =? "all"
  then staged w ListDeploymentForAllNamespaces (list_deployment_for_all_namespaces w)
              success "Error listing deployments: "
  else staged w (ListNamespacedDeployment namespace)
              (list_namespaced_deployment w namespace)
              success "Error listing deployments: ".
Proof.
  unfold get_deployments. cbv zeta. destruct (Py.lower namespace =? "all"); by_stages.
Qed.

Lemma get_nodes_staged (w : World) :
  get_nodes w =
  staged w ListNode (list_node w)
    (fun config_status nodes =>
       VDict [("status", VStr "success");
              ("config_info", VStr config_status);
              ("node_count", vlen (map (fun node => VDict (node_info node)) nodes));
              ("nodes", VList (map (fun node => VDict (node_info node)) nodes))])
    "Error listing nodes: ".
Proof. unfold get_nodes. by_stages. Qed.

Lemma get_namespaces_staged (w : World) :
  get_namespaces w =
  staged w ListNamespace (list_namespace w)
    (fun config_status namespaces =>
       VDict [("status", VStr "success");
              ("config_info", VStr config_status);
              ("namespace_count",
               vlen (map (fun ns => VDict (namespace_info ns)) namespaces));
              ("namespaces", VList (map (fun ns => VDict (namespace_info ns)) namespaces))])
    "Error listing namespaces: ".
Proof. unfold get_namespaces. by_stages. Qed.

Lemma describe_pod_staged (w : World) (name namespace : string) :
  describe_pod w name namespace =
  staged w (ReadNamespacedPod name namespace) (read_namespaced_pod w name namespace)
    (fun config_status pod =>
       VDict [("status", VStr "success");
              ("config_info", VStr config_status);
              ("pod", VDict (pod_details pod))])
    "Error getting pod details: ".
Proof. unfold describe_pod. by_stages. Qed.

(** The API calls of a staged operation: the one call, made once
    configuration has returned. *)
Lemma staged_api_calls {A} (w : World) (ev : event) (r : result A)
    (success : string -> A -> value) (what : string) :
  is_api_call ev = true ->
  api_calls (trace (staged w ev r success what)) =
  match outcome (load_kubernetes_config w None) with
  | Return _ => [ev]
  | Raise _ => []
  end.
Proof.
  intros Hev. unfold staged.
  pose proof (load_trace_no_api w None) as Hno.
  unfold trace, outcome in *.
  destruct (load_kubernetes_config w None) as [t [config_status|e]]; cbn [fst snd] in *.
  - unfold api_calls in *. rewrite filter_app, Hno. simpl. rewrite Hev. reflexivity.
  - exact Hno.
Qed.

(** A record built by the boundary clauses is an error record. *)
Lemma boundary_record_status (what : string) (e : exn) :
  exists d, boundary_record what e = VDict d /\
            dict_get "status" d = Some (VStr "error").
Proof. destruct e; simpl; eexists; split; reflexivity. Qed.

(** What a staged operation returns when its record says success. *)
Lemma staged_success {A} (w : World) (ev : event) (r : result A)
    (success : string -> A -> value) (what : string) (d : dict) :
  outcome (staged w ev r success what) = Return (VDict d) ->
  dict_get "status" d = Some (VStr "success") ->
  exists config_status items,
    outcome (load_kubernetes_config w None) = Return config_status /\
    r = Return items /\
    VDict d = success config_status items.
Proof.
  unfold staged, outcome.
  destruct (load_kubernetes_config w None) as [t [config_status|e]]; cbn [fst snd].
  - destruct r as [items|e].
    + intros H _. injection H as H. eauto.
    + intros H Hs. destruct (boundary_record_status what e) as (d' & Hd & Hst).
      rewrite Hd in H. injection H as <-. rewrite Hst in Hs. discriminate.
  - intros H Hs. destruct (boundary_record_status what e) as (d' & Hd & Hst).
    rewrite Hd in H. injection H as <-. rewrite Hst in Hs. discriminate.
Qed.

(** C3, as stated, fails.  With KUBECONFIG naming a file that the
    process may not read, [get_pods] with the namespace [all] issues no
    list call at all: the exception of the configuration load ends the
    operation before it. *)
Lemma C3_counterexample :
  ~ (Py.lower "all" = "all" ->
     api_calls (trace (get_pods Sample.unreadable_kubeconfig "all" None)) =
       [ListPodForAllNamespaces None]).
Proof.
  intros H. specialize (H eq_refl). vm_compute in H. discriminate H.
Qed.

(** C3, amended.  For every call of [get_pods], [get_services] and
    [get_deployments] in which [load_kubernetes_config] returns: if the
    namespace argument is [all] in any letter case, the one API call
    made is the cluster-wide list call; otherwise it is the list call
    scoped to exactly that namespace.  When [load_kubernetes_config]
    raises instead, no list call is issued.  In every success record the
    count field is the length of the sequence of resources. *)
Theorem C3_namespace_scope_and_count
    (w : World) (namespace : string) (label_selector : option string) :
  (forall config_status,
     outcome (load_kubernetes_config w None) = Return config_status ->
     (Py.lower namespace = "all" ->
      api_calls (trace (get_pods w namespace label_selector)) =
        [ListPodForAllNamespaces label_selector] /\
      api_calls (trace (get_services w namespace)) = [ListServiceForAllNamespaces] /\
      api_calls (trace (get_deployments w namespace)) = [ListDeploymentForAllNamespaces]) /\
     (Py.lower namespace <> "all" ->
      api_calls (trace (get_pods w namespace label_selector)) =
        [ListNamespacedPod namespace label_selector] /\
      api_calls (trace (get_services w namespace)) = [ListNamespacedService namespace] /\
      api_calls (trace (get_deployments w namespace)) =
        [ListNamespacedDeployment namespace])) /\
  (forall e,
     outcome (load_kubernetes_config w None) = Raise e ->
     api_calls (trace (get_pods w namespace label_selector)) = [] /\
     api_calls (trace (get_services w namespace)) = [] /\
     api_calls (trace (get_deployments w namespace)) = []) /\
  (forall d,
     outcome (get_pods w namespace label_selector) = Return (VDict d) ->
     dict_get "status" d = Some (VStr "success") ->
     exists pods, dict_get "pods" d = Some (VList pods) /\
                  dict_get "pod_count" d = Some (VInt (Z.of_nat (List.length pods)))) /\
  (forall d,
     outcome (get_services w namespace) = Return (VDict d) ->
     dict_get "status" d = Some (VStr "success") ->
     exists services,
       dict_get "services" d = Some (VList services) /\
       dict_get "service_count" d = Some (VInt (Z.of_nat (List.length services)))) /\
  (forall d,
     outcome (get_deployments w namespace) = Return (VDict d) ->
     dict_get "status" d = Some (VStr "success") ->
     exists deployments,
       dict_get "deployments" d = Some (VList deployments) /\
       dict_get "deployment_count" d = Some (VInt (Z.of_nat (List.length deployments)))).
Proof.
  rewrite get_pods_staged, get_services_staged, get_deployments_staged. cbv zeta.
  split; [|split; [|split; [|split]]].
  - intros config_status Hload. split.
    + intros Hall. apply String.eqb_eq in Hall. rewrite Hall.
      rewrite !staged_api_calls by reflexivity. rewrite Hload. auto.
    + intros Hns. apply String.eqb_neq in Hns. rewrite Hns.
      rewrite !staged_api_calls by reflexivity. rewrite Hload. auto.
  - intros e Hload.
    destruct (Py.lower namespace =? "all");
      rewrite !staged_api_calls by reflexivity; rewrite Hload; auto.
  - intros d Hout Hs.
    destruct (Py.lower namespace =? "all");
      apply staged_success in Hout; try exact Hs;
      destruct Hout as (cs & items & _ & _ & Hd); injection Hd as ->;
      eexists; split; reflexivity.
  - intros d Hout Hs.
    destruct (Py.lower namespace =? "all");
      apply staged_success in Hout; try exact Hs;
      destruct Hout as (cs & items & _ & _ & Hd); injection Hd as ->;
      eexists; split; reflexivity.
  - intros d Hout Hs.
    destruct (Py.lower namespace =? "all");
      apply staged_success in Hout; try exact Hs;
      destruct Hout as (cs & items & _ & _ & Hd); injection Hd as ->;
      eexists; split; reflexivity.
Qed.

(** On a workstation, [get_pods("ALL")] makes the cluster-wide call and
    counts the one pod it lists; [get_pods("kube-system")] makes the
    call for that namespace. *)
Lemma C3_witness :
  api_calls (trace (get_pods (Sample.workstation [] (Return (Sample.pod ["app"] None))
                                                 (Return "")) "ALL" None)) =
    [ListPodForAllNamespaces None] /\
  api_calls (trace (get_pods (Sample.workstation [] (Return (Sample.pod ["app"] None))
                                                 (Return "")) "kube-system" None)) =
    [ListNamespacedPod "kube-system" None] /\
  exists pods,
    dict_get "pods" [("status", VStr "success");
                     ("config_info", VStr (loaded_message DefaultFile));
                     ("pod_count", VInt 1);
                     ("pods", VList [VDict (pod_info (Sample.pod ["app"] None))])]
      = Some (VList pods) /\
    dict_get "pod_count" [("status", VStr "success");
                          ("config_info", VStr (loaded_message DefaultFile));
                          ("pod_count", VInt 1);
                          ("pods", VList [VDict (pod_info (Sample.pod ["app"] None))])]
      = Some (VInt (Z.of_nat (List.length pods))).
Proof.
  pose (w := Sample.workstation [] (Return (Sample.pod ["app"] None)) (Return "")).
  split; [|split].
  - destruct (C3_namespace_scope_and_count w "ALL" None) as [Hcalls _].
    destruct (Hcalls (loaded_message DefaultFile) eq_refl) as [Hall _].
    exact (proj1 (Hall eq_refl)).
  - destruct (C3_namespace_scope_and_count w "kube-system" None) as [Hcalls _].
    destruct (Hcalls (loaded_message DefaultFile) eq_refl) as [_ Hns].
    refine (proj1 (Hns _)). discriminate.
  - destruct (C3_namespace_scope_and_count w "ALL" None) as (_ & _ & Hpods & _).
    apply Hpods; reflexivity.
Defined.

(* ===================================================================== *)
(** ** Properties of get_nodes *)
(* ===================================================================== *)

Lemma replace_from_skip (old new x s : string) :
  Py.replace_from old new (String.length x) (x ++ s) = Py.replace_from old new O s.
Proof.
  induction x as [|c x IH]; simpl; [reflexivity|].
  destruct (x ++ s) eqn:E; simpl in *; exact IH.
Qed.

Lemma replace_absent (old new s : string) :
  Py.contains old s = false -> Py.replace_from old new O s = s.
Proof.
  induction s as [|c s IH]; intros H; [reflexivity|].
  change (Py.contains old (String c s))
    with (prefix old (String c s) || Py.contains old s)%bool in H.
  apply orb_false_iff in H. destruct H as [Hp Hc].
  cbn [Py.replace_from]. rewrite Hp. rewrite (IH Hc). reflexivity.
Qed.

(** Removing a text from a key that starts with it, when the rest does
    not hold the text again, leaves the rest. *)
Lemma replace_prefixed (c : ascii) (old suffix : string) :
  Py.contains (String c old) suffix = false ->
  Py.replace (String c old) "" (String c old ++ suffix) = suffix.
Proof.
  intros H. unfold Py.replace.
  change (String c old ++ suffix) with (String c (old ++ suffix)).
  cbn [Py.replace_from].
  change (String c (old ++ suffix)) with (String c old ++ suffix).
  rewrite prefix_app.
  replace (String.length (String c old) - 1)%nat with (String.length old)
    by (simpl; lia).
  rewrite replace_from_skip. simpl. apply replace_absent, H.
Qed.

Lemma roles_loop (label_keys : list string) (acc : list string) :
  fold_left
    (fun roles label_key =>
       if Py.contains role_prefix label_key
       then let role := Py.replace role_prefix "" label_key in
            if Py.truthy role then (roles ++ [role])%list else roles
       else roles)
    label_keys acc =
  (acc ++ flat_map derived_roles label_keys)%list.
Proof.
  revert acc. induction label_keys as [|k l IH]; intros acc; simpl.
  - rewrite app_nil_r. reflexivity.
  - rewrite IH. unfold derived_roles.
    destruct (Py.contains role_prefix k); simpl; [|reflexivity].
    destruct (Py.truthy (Py.replace role_prefix "" k)); simpl; [|reflexivity].
    rewrite <- app_assoc. reflexivity.
Qed.

Lemma node_roles_derived (labels : option (list (string * string))) :
  node_roles labels =
  match flat_map derived_roles (keys (or_empty labels)) with
  | [] => ["worker"]
  | roles => roles
  end.
Proof.
  unfold node_roles. rewrite roles_loop. cbn [app].
  destruct (flat_map derived_roles (keys (or_empty labels))); reflexivity.
Qed.

Lemma derived_roles_absent (l : list string) :
  (forall k, In k l -> Py.contains role_prefix k = false) ->
  flat_map derived_roles l = [].
Proof.
  induction l as [|k l IH]; intros H; simpl; [reflexivity|].
  unfold derived_roles at 1. rewrite (H k (or_introl eq_refl)). simpl.
  apply IH. intros k' Hk'. apply H. right. exact Hk'.
Qed.

(** C5, as stated, fails: a node labelled [foo.node-role.kubernetes.io/x]
    has no label key prefixed with [node-role.kubernetes.io/], yet its
    roles are [foo.x], not [worker]. *)
Lemma C5_counterexample :
  (forall k suffix, In k (keys Sample.odd_labels) ->
                    ~ prefixed_with role_prefix k suffix) /\
  outcome (get_nodes (Sample.workstation [Sample.node "node-1" Sample.odd_labels]
                        (Return (Sample.pod ["app"] None)) (Return ""))) =
  Return (VDict [("status", VStr "success");
                 ("config_info", VStr (loaded_message DefaultFile));
                 ("node_count", VInt 1);
                 ("nodes", VList [VDict (node_info (Sample.node "node-1" Sample.odd_labels))])])
  /\
  dict_get "roles" (node_info (Sample.node "node-1" Sample.odd_labels)) =
    Some (VList [VStr "foo.x"]) /\
  VList [VStr "foo.x"] <> VList [VStr "worker"].
Proof.
  split; [|split; [|split]].
  - intros k suffix Hin Hp. unfold prefixed_with, role_prefix in Hp.
    destruct Hin as [<-|[<-|[]]]; simpl in Hp; discriminate Hp.
  - reflexivity.
  - reflexivity.
  - discriminate.
Qed.

(** C5, amended.  For every node record produced by [get_nodes], the
    roles list contains, for each label key that has the text
    [node-role.kubernetes.io/] anywhere in it, the key with that text
    taken out, when something is left; for a key made of that prefix and
    a non-empty suffix without the text, this is the suffix.  The list
    is [worker] when no label key has the text in it; and a node whose
    only label key with the text is
    [node-role.kubernetes.io/control-plane] has the roles
    [control-plane]. *)
Theorem C5_roles_from_label_keys (w : World) (d : dict) :
  outcome (get_nodes w) = Return (VDict d) ->
  dict_get "status" d = Some (VStr "success") ->
  exists nodes,
    list_node w = Return nodes /\
    dict_get "nodes" d = Some (VList (map (fun node => VDict (node_info node)) nodes)) /\
    forall node, In node nodes ->
      exists roles,
        dict_get "roles" (node_info node) = Some (VList (map VStr roles)) /\
        (forall k, In k (keys (or_empty (K8s.labels (K8s.node_metadata node)))) ->
                   Py.contains role_prefix k = true ->
                   Py.replace role_prefix "" k <> "" ->
                   In (Py.replace role_prefix "" k) roles) /\
        (forall k suffix,
            In k (keys (or_empty (K8s.labels (K8s.node_metadata node)))) ->
            prefixed_with role_prefix k suffix ->
            suffix <> "" ->
            Py.contains role_prefix suffix = false ->
            In suffix roles) /\
        ((forall k, In k (keys (or_empty (K8s.labels (K8s.node_metadata node)))) ->
                    Py.contains role_prefix k = false) ->
         roles = ["worker"]) /\
        (forall before after,
            keys (or_empty (K8s.labels (K8s.node_metadata node))) =
              (before ++ [(role_prefix ++ "control-plane")%string] ++ after)%list ->
            (forall k, In k (before ++ after)%list ->
                       Py.contains role_prefix k = false) ->
            roles = ["control-plane"]).
Proof.
  intros Hout Hs. rewrite get_nodes_staged in Hout.
  apply staged_success in Hout; [|exact Hs].
  destruct Hout as (cs & nodes & _ & Hlist & Hd). injection Hd as ->.
  exists nodes. split; [exact Hlist|]. split; [reflexivity|].
  intros node _.
  exists (node_roles (K8s.labels (K8s.node_metadata node))).
  split; [reflexivity|].
  rewrite node_roles_derived.
  set (label_keys := keys (or_empty (K8s.labels (K8s.node_metadata node)))).
  assert (Hgen : forall k, In k label_keys ->
                           Py.contains role_prefix k = true ->
                           Py.replace role_prefix "" k <> "" ->
                           In (Py.replace role_prefix "" k)
                              (match flat_map derived_roles label_keys with
                               | [] => ["worker"]
                               | roles => roles
                               end)).
  { intros k Hin Hc Hne.
    assert (Hraw : In (Py.replace role_prefix "" k) (flat_map derived_roles label_keys)).
    { apply in_flat_map. exists k. split; [exact Hin|].
      unfold derived_roles. rewrite Hc. cbv zeta.
      destruct (Py.truthy (Py.replace role_prefix "" k)) eqn:Ht.
      - left; reflexivity.
      - unfold Py.truthy in Ht. apply negb_false_iff, String.eqb_eq in Ht.
        contradiction. }
    destruct (flat_map derived_roles label_keys); [destruct Hraw | exact Hraw]. }
  split; [exact Hgen|]. split; [|split].
  - intros k suffix Hin Hp Hne Habs. unfold prefixed_with in Hp. subst k.
    assert (Hrep : Py.replace role_prefix "" (role_prefix ++ suffix) = suffix)
      by (apply (replace_prefixed "n"), Habs).
    rewrite <- Hrep at 1. apply Hgen.
    + exact Hin.
    + apply contains_prefix, prefix_app.
    + rewrite Hrep. exact Hne.
  - intros Habs. rewrite (derived_roles_absent label_keys Habs). reflexivity.
  - intros before after Hkeys Habs. rewrite Hkeys.
    rewrite !flat_map_app.
    rewrite (derived_roles_absent before), (derived_roles_absent after).
    + reflexivity.
    + intros k Hk. apply Habs, in_or_app. right; exact Hk.
    + intros k Hk. apply Habs, in_or_app. left; exact Hk.
Qed.

(** A control-plane node: its record has the roles [control-plane]. *)
Lemma C5_witness :
  exists roles,
    dict_get "roles" (node_info (Sample.node "cp-1" Sample.control_plane_labels)) =
      Some (VList (map VStr roles)) /\
    roles = ["control-plane"].
Proof.
  destruct (C5_roles_from_label_keys
              (Sample.workstation [Sample.node "cp-1" Sample.control_plane_labels]
                 (Return (Sample.pod ["app"] None)) (Return ""))
              [("status", VStr "success");
               ("config_info", VStr (loaded_message DefaultFile));
               ("node_count", VInt 1);
               ("nodes", VList [VDict (node_info
                                         (Sample.node "cp-1" Sample.control_plane_labels))])]
              eq_refl eq_refl)
    as (nodes & Hlist & _ & Hnodes).
  injection Hlist as <-.
  destruct (Hnodes (Sample.node "cp-1" Sample.control_plane_labels) (or_introl eq_refl))
    as (roles & Hroles & _ & _ & _ & Hcp).
  exists roles. split; [exact Hroles|].
  apply (Hcp ["kubernetes.io/hostname"] []).
  - reflexivity.
  - intros k [<-|[]]. reflexivity.
Defined.

(* ===================================================================== *)
(** ** Properties of describe_pod *)
(* ===================================================================== *)

(** C8, as stated, fails: a container status that carries no state gives
    an entry with no state variant at all. *)
Lemma C8_counterexample :
  outcome (describe_pod
             (Sample.workstation []
                (Return (Sample.pod ["app"] (Some [Sample.stateless_status])))
                (Return ""))
             "web" "default") =
  Return (VDict [("status", VStr "success");
                 ("config_info", VStr (loaded_message DefaultFile));
                 ("pod", VDict (pod_details
                                  (Sample.pod ["app"] (Some [Sample.stateless_status]))))])
  /\
  dict_get "container_statuses"
           (pod_details (Sample.pod ["app"] (Some [Sample.stateless_status]))) =
    Some (VList [VDict (status_info Sample.stateless_status)]) /\
  List.length (state_variants (status_info Sample.stateless_status)) = 0%nat.
Proof. repeat split. Qed.

(** C8, amended.  For every container-status entry produced by
    [describe_pod], at most one of the three state variants is
    populated: the first one the container status has among running,
    terminated and waiting, with the fields Running{started_at},
    Terminated{exit_code, reason, message}, Waiting{reason, message};
    and the entry has no state when the container status has no state,
    or a state with none of the three set. *)
Theorem C8_at_most_one_state_variant
    (w : World) (name namespace : string) (d : dict) :
  outcome (describe_pod w name namespace) = Return (VDict d) ->
  dict_get "status" d = Some (VStr "success") ->
  exists pod,
    read_namespaced_pod w name namespace = Return pod /\
    dict_get "pod" d = Some (VDict (pod_details pod)) /\
    (forall cs css,
        K8s.container_statuses (K8s.status pod) = Some (cs :: css) ->
        dict_get "container_statuses" (pod_details pod) =
          Some (VList (map (fun cs => VDict (status_info cs)) (cs :: css)))) /\
    (forall cs : K8s.ContainerStatus,
        state_variants (status_info cs) = firstn 1 (set_variants (K8s.state cs)) /\
        (List.length (state_variants (status_info cs)) <= 1)%nat /\
        (forall variant,
            In variant (state_variants (status_info cs)) ->
            exists fields,
              dict_get "state" (status_info cs) = Some (VDict [(variant, VDict fields)]) /\
              keys fields = variant_fields variant)).
Proof.
  intros Hout Hs. rewrite describe_pod_staged in Hout.
  apply staged_success in Hout; [|exact Hs].
  destruct Hout as (cs0 & pod & _ & Hread & Hd). injection Hd as ->.
  exists pod. split; [exact Hread|]. split; [reflexivity|]. split.
  - intros cs css Hcss. unfold pod_details. rewrite Hcss. reflexivity.
  - intros cs. unfold state_variants, status_info, state_entry, set_variants.
    destruct (K8s.state cs) as [s|]; [|repeat split; [simpl; lia | intros v []]].
    destruct (K8s.running s) as [r|].
    { repeat split; [simpl; lia|].
      intros variant [<-|[]]. eexists. split; reflexivity. }
    destruct (K8s.terminated s) as [t|].
    { repeat split; [simpl; lia|].
      intros variant [<-|[]]. eexists. split; reflexivity. }
    destruct (K8s.waiting s) as [wt|].
    { repeat split; [simpl; lia|].
      intros variant [<-|[]]. eexists. split; reflexivity. }
    repeat split; [simpl; lia | intros v []].
Qed.

(** A running container: its entry has the one variant [running]. *)
Lemma C8_witness :
  state_variants (status_info Sample.running_status) = ["running"] /\
  dict_get "container_statuses"
           (pod_details (Sample.pod ["app"] (Some [Sample.running_status]))) =
    Some (VList [VDict (status_info Sample.running_status)]).
Proof.
  destruct (C8_at_most_one_state_variant
              (Sample.workstation []
                 (Return (Sample.pod ["app"] (Some [Sample.running_status])))
                 (Return ""))
              "web" "default"
              [("status", VStr "success");
               ("config_info", VStr (loaded_message DefaultFile));
               ("pod", VDict (pod_details
                                (Sample.pod ["app"] (Some [Sample.running_status]))))]
              eq_refl eq_refl)
    as (pod & Hread & _ & Hcss & Hentry).
  injection Hread as <-.
  split.
  - exact (proj1 (Hentry Sample.running_status)).
  - exact (Hcss Sample.running_status [] eq_refl).
Defined.

(* ===================================================================== *)
(** ** Error records of the public operations *)
(* ===================================================================== *)

(** When the resolver raises, it is the exception of its last call. *)
Lemma load_raise_last (w : World) (p : option string) (t : list event) (e : exn) :
  load_kubernetes_config w p = (t, Raise e) ->
  raised_by w (last t LoadInclusterConfig) = Some e.
Proof.
  rewrite load_kubernetes_config_cases. cbv zeta.
  destruct (raised_by w (source_event (first_applicable w p))) as [e0|] eqn:He;
    [|discriminate].
  destruct e0; try (intros H; injection H as <- <-; exact He).
  destruct (raised_by w (source_event DefaultFile)); discriminate.
Qed.

Lemma api_status_last (w : World) (t : list event) (ev : event) :
  api_status w (t ++ [ev]) =
  match raised_by w ev with
  | Some (ApiException status _ _) => Some status
  | _ => None
  end.
Proof. unfold api_status. rewrite last_last. reflexivity. Qed.

(** What the [except] clauses of [get_logs] return. *)
Lemma get_logs_except_shape (pod_name namespace : string) (container : option string)
    (container_names : option (list string)) (e : exn) (v : value) :
  get_logs_except pod_name namespace container container_names e = Return v ->
  match e with
  | ApiException status _ _ => exists m, v = error_record_code m status
  | _ => exists m, v = error_record m
  end.
Proof.
  unfold get_logs_except. destruct e; intros H;
    repeat match type of H with
           | context [match ?x with _ => _ end] => destruct x
           end;
    try discriminate; injection H as <-; eexists; reflexivity.
Qed.

(** The error records of a staged operation. *)
Lemma staged_error {A} (w : World) (ev : event) (r : result A)
    (success : string -> A -> value) (what : string) (d : dict) :
  raised_by w ev = exn_of r ->
  (forall config_status items,
      exists d', success config_status items = VDict d' /\
                 dict_get "status" d' = Some (VStr "success")) ->
  outcome (staged w ev r success what) = Return (VDict d) ->
  dict_get "status" d = Some (VStr "error") ->
  (exists m,
      d = [("status", VStr "error"); ("error_message", VStr m)] /\
      api_status w (trace (staged w ev r success what)) = None) \/
  (exists m code,
      d = [("status", VStr "error"); ("error_message", VStr m);
           ("error_code", VInt code)] /\
      api_status w (trace (staged w ev r success what)) = Some code).
Proof.
  intros Hev Hsucc. unfold staged, outcome, trace.
  destruct (load_kubernetes_config w None) as [t [config_status|e]] eqn:Hload;
    cbn [fst snd].
  - rewrite api_status_last, Hev.
    destruct r as [items|e]; cbn [exn_of].
    + intros H Hs. destruct (Hsucc config_status items) as (d' & Hd' & Hst).
      rewrite Hd' in H. injection H as <-. rewrite Hst in Hs. discriminate.
    + intros H _. destruct e; injection H as <-;
        [right; do 2 eexists | left; eexists ..]; split; reflexivity.
  - apply load_raise_last in Hload. unfold api_status. rewrite Hload.
    intros H _. destruct e; injection H as <-;
      [right; do 2 eexists | left; eexists ..]; split; reflexivity.
Qed.

(** C9, as stated, fails: the error of [get_logs] for a pod with several
    containers has a third field, [containers], besides [status] and
    [error_message]. *)
Lemma C9_counterexample :
  exists d,
    outcome (run (Sample.workstation []
                    (Return (Sample.pod ["app"; "sidecar"] None)) (Return ""))
                 (GetLogs "web" "default" None false None None false)) =
      Return (VDict d) /\
    dict_get "status" d = Some (VStr "error") /\
    keys d = ["status"; "error_message"; "containers"].
Proof. eexists. repeat split. Qed.

(** C9, amended.  Every error record returned by a public operation
    starts with [status] equal to [error] and a string [error_message].
    It has the integer [error_code] as its third and last field exactly
    when the failing call raised an ApiException, whose status it is.
    No other field appears, except in the error of [get_logs] for a pod
    with several containers and no container named, whose third field is
    [containers], the list of the container names. *)
Theorem C9_error_record_shape (w : World) (op : operation) (d : dict) :
  outcome (run w op) = Return (VDict d) ->
  dict_get "status" d = Some (VStr "error") ->
  (exists m,
      d = [("status", VStr "error"); ("error_message", VStr m)] /\
      api_status w (trace (run w op)) = None) \/
  (exists m code,
      d = [("status", VStr "error"); ("error_message", VStr m);
           ("error_code", VInt code)] /\
      api_status w (trace (run w op)) = Some code) \/
  (exists m pod pod_name namespace container previous tail_lines since_seconds
          timestamps,
      op = GetLogs pod_name namespace container previous tail_lines since_seconds
                   timestamps /\
      Py.truthy_opt container = false /\
      read_namespaced_pod w pod_name namespace = Return pod /\
      (1 < List.length (K8s.containers (K8s.spec pod)))%nat /\
      d = [("status", VStr "error"); ("error_message", VStr m);
           ("containers",
            VList (map VStr (map K8s.c_name (K8s.containers (K8s.spec pod)))))]).
Proof.
  assert (Hwrap : forall c : Comp value,
    ((exists m, d = [("status", VStr "error"); ("error_message", VStr m)] /\
                api_status w (trace c) = None) \/
     (exists m code, d = [("status", VStr "error"); ("error_message", VStr m);
                          ("error_code", VInt code)] /\
                     api_status w (trace c) = Some code)) ->
    (exists m, d = [("status", VStr "error"); ("error_message", VStr m)] /\
               api_status w (trace c) = None) \/
    (exists m code, d = [("status", VStr "error"); ("error_message", VStr m);
                         ("error_code", VInt code)] /\
                    api_status w (trace c) = Some code) \/
    (exists m pod pod_name namespace container previous tail_lines since_seconds
            timestamps,
        op = GetLogs pod_name namespace container previous tail_lines since_seconds
                     timestamps /\
        Py.truthy_opt container = false /\
        read_namespaced_pod w pod_name namespace = Return pod /\
        (1 < List.length (K8s.containers (K8s.spec pod)))%nat /\
        d = [("status", VStr "error"); ("error_message", VStr m);
             ("containers",
              VList (map VStr (map K8s.c_name (K8s.containers (K8s.spec pod)))))]))
    by tauto.
  destruct op as [ns ls| | |ns|ns|n ns|pn ns container prev tl ss ts]; cbn [run].
  - rewrite get_pods_staged. cbv zeta. intros Hout Hs. apply Hwrap.
    destruct (Py.lower ns =? "all");
      (eapply staged_error; [reflexivity| |exact Hout|exact Hs]);
      intros; eexists; split; reflexivity.
  - rewrite get_nodes_staged. intros Hout Hs. apply Hwrap.
    eapply staged_error; [reflexivity| |exact Hout|exact Hs].
    intros; eexists; split; reflexivity.
  - rewrite get_namespaces_staged. intros Hout Hs. apply Hwrap.
    eapply staged_error; [reflexivity| |exact Hout|exact Hs].
    intros; eexists; split; reflexivity.
  - rewrite get_services_staged. cbv zeta. intros Hout Hs. apply Hwrap.
    destruct (Py.lower ns =? "all");
      (eapply staged_error; [reflexivity| |exact Hout|exact Hs]);
      intros; eexists; split; reflexivity.
  - rewrite get_deployments_staged. cbv zeta. intros Hout Hs. apply Hwrap.
    destruct (Py.lower ns =? "all");
      (eapply staged_error; [reflexivity| |exact Hout|exact Hs]);
      intros; eexists; split; reflexivity.
  - rewrite describe_pod_staged. intros Hout Hs. apply Hwrap.
    eapply staged_error; [reflexivity| |exact Hout|exact Hs].
    intros; eexists; split; reflexivity.
  - rewrite get_logs_stages. unfold outcome, trace.
    destruct (load_kubernetes_config w None) as [t [config_status|e]] eqn:Hload;
      cbn [fst snd].
    + destruct (read_namespaced_pod w pn ns) as [pod|e] eqn:Hread.
      * cbv zeta.
        destruct (negb (Py.truthy_opt container) &&
                  Nat.ltb 1 (List.length (map K8s.c_name (K8s.containers (K8s.spec pod)))))%bool
          eqn:Hmulti; cbn [fst snd].
        { intros H _. injection H as <-. right; right.
          apply andb_true_iff in Hmulti. destruct Hmulti as [Hnone Hmany].
          apply negb_true_iff in Hnone. apply Nat.ltb_lt in Hmany.
          rewrite length_map in Hmany.
          exists (("Pod has multiple containers. Please specify one: " ++
                   Py.repr_list (map K8s.c_name (K8s.containers (K8s.spec pod))))%string),
                 pod, pn, ns, container, prev, tl, ss, ts.
          repeat split; assumption || reflexivity. }
        change (t ++ [ReadNamespacedPod pn ns; ?x])%list
          with (t ++ [ReadNamespacedPod pn ns] ++ [x])%list.
        rewrite app_assoc, api_status_last. cbn [raised_by].
        destruct (read_namespaced_pod_log w _) as [logs|e]; cbn [exn_of].
        { intros H Hs. injection H as <-.
          destruct (log_response_fields config_status pn ns
                      (default_container container
                         (map K8s.c_name (K8s.containers (K8s.spec pod))))
                      logs prev tl ss ts) as (Hst & _).
          rewrite Hst in Hs. discriminate. }
        intros H _. apply get_logs_except_shape in H.
        destruct e; destruct H as (m & Hm); injection Hm as ->;
          [right; left; do 2 eexists | left; eexists ..]; split; reflexivity.
      * destruct e; cbn [fst snd]; rewrite api_status_last; cbn [raised_by];
          rewrite Hread; cbn [exn_of]; intros H _;
          try (apply get_logs_except_shape in H; destruct H as (m & Hm);
               injection Hm as ->; left; eexists; split; reflexivity).
        injection H as <-. right; left. do 2 eexists. split; reflexivity.
    + apply load_raise_last in Hload. unfold api_status. rewrite Hload.
      intros H _. apply get_logs_except_shape in H.
      destruct e; destruct H as (m & Hm); injection Hm as ->;
        [right; left; do 2 eexists | left; eexists ..]; split; reflexivity.
Qed.

(** A pod that cannot be read: [describe_pod] reports the API error, and
    the code of the record is the status of the failed read. *)
Lemma C9_witness :
  api_status (Sample.workstation [] (Raise (ApiException 404 "Not Found" ""))
                                 (Return ""))
             (trace (run (Sample.workstation []
                            (Raise (ApiException 404 "Not Found" "")) (Return ""))
                         (DescribePod "web" "default"))) = Some 404.
Proof.
  destruct (C9_error_record_shape
              (Sample.workstation [] (Raise (ApiException 404 "Not Found" ""))
                                  (Return ""))
              (DescribePod "web" "default")
              [("status", VStr "error");
               ("error_message", VStr "Kubernetes API error: Not Found");
               ("error_code", VInt 404)]
              eq_refl eq_refl)
    as [(m & Hd & _) | [(m & code & Hd & Hst) | (m & pod & pn & ns & c & pr & tl & ss
                                                 & ts & Hop & _)]].
  - discriminate Hd.
  - injection Hd as _ <-. exact Hst.
  - discriminate Hop.
Defined.

(* ===================================================================== *)
(** ** Exceptions at the operation boundary *)
(* ===================================================================== *)

(** A staged operation always returns a record, marked success or
    error. *)
Lemma staged_returns {A} (w : World) (ev : event) (r : result A)
    (success : string -> A -> value) (what : string) :
  (forall config_status items,
      exists d', success config_status items = VDict d' /\
                 dict_get "status" d' = Some (VStr "success")) ->
  exists d,
    outcome (staged w ev r success what) = Return (VDict d) /\
    (dict_get "status" d = Some (VStr "success") \/
     dict_get "status" d = Some (VStr "error")).
Proof.
  intros Hsucc. unfold staged, outcome.
  destruct (load_kubernetes_config w None) as [t [config_status|e]]; cbn [fst snd].
  - destruct r as [items|e].
    + destruct (Hsucc config_status items) as (d' & -> & Hst). eauto.
    + destruct (boundary_record_status what e) as (d' & -> & Hst). eauto.
  - destruct (boundary_record_status what e) as (d' & -> & Hst). eauto.
Qed.

(** The six operations other than [get_logs] never raise. *)
Lemma operations_return (w : World) (op : operation) :
  match op with
  | GetLogs _ _ _ _ _ _ _ => True
  | _ =>
      exists d,
        outcome (run w op) = Return (VDict d) /\
        (dict_get "status" d = Some (VStr "success") \/
         dict_get "status" d = Some (VStr "error"))
  end.
Proof.
  destruct op as [ns ls| | |ns|ns|n ns|pn ns container prev tl ss ts];
    cbn [run]; [ rewrite get_pods_staged | rewrite get_nodes_staged
               | rewrite get_namespaces_staged | rewrite get_services_staged
               | rewrite get_deployments_staged | rewrite describe_pod_staged
               | exact I ];
    cbv zeta; try destruct (Py.lower ns =? "all");
    apply staged_returns; intros; eexists; split; reflexivity.
Qed.

(** C2.  The claim that no public operation ever raises is broken by
    [get_logs]: when loading the configuration raises an ApiException
    with status 400 whose body mentions a container, the [except
    ApiException] clause formats [container_names], a local that has not
    been assigned yet, and the UnboundLocalError leaves the function. *)
Theorem C2_get_logs_raises_unbound_local :
  outcome (run Sample.config_api_error
               (GetLogs "web" "default" None false None None false)) =
  Raise (UnboundLocalError "container_names").
Proof. reflexivity. Qed.

(* ===================================================================== *)
(** ** More on get_logs: what is read, what is echoed, how failures read *)
(* ===================================================================== *)

Lemma split_length (sep : ascii) (s : string) :
  List.length (Py.split sep s) = S (count_char sep s).
Proof.
  induction s as [|c s IH]; simpl; [reflexivity|].
  destruct (Ascii.eqb c sep); simpl.
  - rewrite IH. reflexivity.
  - destruct (Py.split sep s); simpl in *; [discriminate IH | exact IH].
Qed.

(** Every field of the success record of [get_logs]. *)
Lemma log_response_all_fields (config_status pod_name namespace : string)
    (container : option string) (logs : string)
    (previous : bool) (tail_lines since_seconds : option Z) (timestamps : bool) :
  let d := log_response config_status pod_name namespace container logs
                        previous tail_lines since_seconds timestamps in
  dict_get "config_info" d = Some (VStr config_status) /\
  dict_get "pod" d = Some (VStr pod_name) /\
  dict_get "namespace" d = Some (VStr namespace) /\
  dict_get "container" d = Some (vstr_opt container) /\
  dict_get "log_lines_count" d =
    Some (vlen (if Py.truthy logs then Py.split Py.nl logs else [])) /\
  dict_get "tail_lines_requested" d = echoed tail_lines /\
  dict_get "since_seconds" d = echoed since_seconds /\
  dict_get "from_previous_container" d = flag previous /\
  dict_get "timestamps_included" d = flag timestamps.
Proof.
  unfold log_response, echoed, truthy_int, flag.
  destruct tail_lines as [tl|], since_seconds as [ss|];
    try destruct (tl =? 0)%Z; try destruct (ss =? 0)%Z;
    destruct previous, timestamps,
      (negb (Py.truthy logs) || (Py.strip logs =? ""))%bool;
    repeat split; reflexivity.
Qed.

Section GetLogsDetails.

Variable w : World.
Variables pod_name namespace : string.
Variable container : option string.
Variable previous : bool.
Variables tail_lines since_seconds : option Z.
Variable timestamps : bool.

Let c : Comp value :=
  get_logs w pod_name namespace container previous tail_lines since_seconds timestamps.

(** X1.  In [get_logs], when the last client call made - the first
    configuration load, the read of the pod or the read of the log - was
    answered with status 404, the result is one and the same error
    record: the message that the pod was not found in the namespace, and
    the code 404.  A failure of the fallback load of the default
    kubeconfig is not such a call: whatever it raised, a 404 too,
    [get_logs] goes on to read the pod. *)
Theorem X1_get_logs_404_last_call :
  (api_status w (trace c) = Some 404 ->
   outcome c =
   Return (VDict [("status", VStr "error");
                  ("error_message",
                   VStr ("Pod '" ++ pod_name ++ "' not found in namespace '" ++
                         namespace ++ "'"));
                  ("error_code", VInt 404)])) /\
  (forall m fallback_error,
     raised_by w (source_event (first_applicable w None)) = Some (ConfigException m) ->
     raised_by w (source_event DefaultFile) = Some fallback_error ->
     exists rest,
       trace c = ([source_event (first_applicable w None); source_event DefaultFile;
                   ReadNamespacedPod pod_name namespace] ++ rest)%list).
Proof.
  split.
  - unfold c. rewrite get_logs_stages. unfold trace, outcome.
    destruct (load_kubernetes_config w None) as [t [config_status|e]] eqn:Hload;
      cbn [fst snd].
    + destruct (read_namespaced_pod w pod_name namespace) as [pod|e] eqn:Hread.
      * cbv zeta.
        destruct (negb (Py.truthy_opt container) &&
                  Nat.ltb 1 (List.length (map K8s.c_name (K8s.containers (K8s.spec pod)))))%bool;
          cbn [fst snd].
        -- rewrite api_status_last. cbn [raised_by]. rewrite Hread. discriminate.
        -- change (t ++ [ReadNamespacedPod pod_name namespace; ?x])%list
             with (t ++ [ReadNamespacedPod pod_name namespace] ++ [x])%list.
           rewrite app_assoc, api_status_last. cbn [raised_by].
           destruct (read_namespaced_pod_log w _) as [logs|e]; cbn [exn_of];
             [discriminate|].
           destruct e; try discriminate. intros H. injection H as ->. reflexivity.
      * destruct e; cbn [fst snd]; rewrite api_status_last; cbn [raised_by];
          rewrite Hread; cbn [exn_of]; try discriminate.
        intros H. injection H as ->. reflexivity.
    + apply load_raise_last in Hload. unfold api_status. rewrite Hload.
      destruct e; try discriminate. intros H. injection H as ->. reflexivity.
  - intros m fallback_error Hfirst Hfallback.
    unfold c. rewrite get_logs_stages, load_kubernetes_config_cases. cbv zeta.
    rewrite Hfirst, Hfallback. unfold trace.
    destruct (read_namespaced_pod w pod_name namespace) as [pod|e].
    + cbv zeta.
      destruct (negb (Py.truthy_opt container) &&
                Nat.ltb 1 (List.length (map K8s.c_name (K8s.containers (K8s.spec pod)))))%bool;
        cbn [fst app]; eexists; reflexivity.
    + destruct e; cbn [fst app]; eexists; reflexivity.
Qed.

(** X2.  When the log read of [get_logs] is refused with status 400, the
    body of the response picks the message, compared without regard to
    letter case: a body about a previous terminated container gives the
    fixed text for that, first; otherwise a body that mentions a
    container gives the text that names the container the read was made
    for and lists the containers of the pod; any other body gives the
    reason of the exception.  The code is 400 in each case. *)
Theorem X2_get_logs_400_messages (kw : LogKwargs) (reason body : string) :
  In (ReadNamespacedPodLog kw) (trace c) ->
  read_namespaced_pod_log w kw = Raise (ApiException 400 reason body) ->
  exists pod,
    read_namespaced_pod w pod_name namespace = Return pod /\
    outcome c =
    Return (VDict [("status", VStr "error");
                   ("error_message",
                    VStr (if Py.contains "previous terminated container" (Py.lower body)
                          then "No previous terminated container found for this pod"
                          else if Py.contains "container" (Py.lower body)
                          then "Container '" ++ Py.str_opt (kw_container kw) ++
                               "' not found in pod. Available containers: " ++
                               Py.repr_list (map K8s.c_name
                                                 (K8s.containers (K8s.spec pod)))
                          else "Failed to get logs: " ++ reason));
                   ("error_code", VInt 400)]).
Proof.
  intros Hin Hread.
  destruct (get_logs_log_read w pod_name namespace container previous
              tail_lines since_seconds timestamps kw Hin)
    as (config_status & pod & _ & Hpod & _ & Hkw & Hout).
  exists pod. split; [exact Hpod|].
  fold c in Hout. rewrite Hout, Hread. rewrite Hkw. unfold get_logs_except.
  cbn [kw_container log_kwargs Z.eqb Pos.eqb].
  destruct (Py.contains "previous terminated container" (Py.lower body));
    [reflexivity|].
  destruct (Py.contains "container" (Py.lower body)); reflexivity.
Qed.

(** X3.  [get_logs] reads the log at most once, and the read carries the
    caller's arguments unchanged: pod, namespace, previous, timestamps,
    and tail_lines and since_seconds exactly as given (left out when not
    given, never defaulted).  A container the caller names is used as it
    is, whether or not the pod lists it; with none named, the read is
    for the pod's only container, and the argument is passed on as it
    came when the pod lists no container. *)
Theorem X3_get_logs_read_arguments :
  (List.length (filter is_log_read (trace c)) <= 1)%nat /\
  forall kw,
    In (ReadNamespacedPodLog kw) (trace c) ->
    kw_name kw = pod_name /\
    kw_namespace kw = namespace /\
    kw_previous kw = previous /\
    kw_timestamps kw = timestamps /\
    kw_tail_lines kw = tail_lines /\
    kw_since_seconds kw = since_seconds /\
    (Py.truthy_opt container = true -> kw_container kw = container) /\
    (Py.truthy_opt container = false ->
     exists pod,
       read_namespaced_pod w pod_name namespace = Return pod /\
       (forall first rest,
           map K8s.c_name (K8s.containers (K8s.spec pod)) = first :: rest ->
           rest = [] /\ kw_container kw = Some first) /\
       (map K8s.c_name (K8s.containers (K8s.spec pod)) = [] ->
        kw_container kw = container)).
Proof.
  split.
  - unfold c. rewrite get_logs_stages.
    pose proof (load_trace_no_log_read w None) as Hnolog.
    unfold trace in *.
    destruct (load_kubernetes_config w None) as [t [config_status|e]]; cbn [fst snd] in *;
      [|rewrite Hnolog; simpl; lia].
    destruct (read_namespaced_pod w pod_name namespace) as [pod|e].
    + cbv zeta.
      destruct (negb (Py.truthy_opt container) &&
                Nat.ltb 1 (List.length (map K8s.c_name (K8s.containers (K8s.spec pod)))))%bool;
        cbn [fst snd]; rewrite filter_app, Hnolog; simpl; lia.
    + destruct e; cbn [fst snd]; rewrite filter_app, Hnolog; simpl; lia.
  - intros kw Hin.
    destruct (get_logs_log_read w pod_name namespace container previous
                tail_lines since_seconds timestamps kw Hin)
      as (config_status & pod & _ & Hpod & Hmulti & Hkw & _).
    cbv zeta in Hmulti, Hkw. rewrite Hkw. cbn [log_kwargs kw_name kw_namespace
      kw_previous kw_timestamps kw_tail_lines kw_since_seconds kw_container].
    repeat (split; [reflexivity|]). split.
    + intros Ht. unfold default_container. rewrite Ht.
      destruct (map K8s.c_name (K8s.containers (K8s.spec pod))); reflexivity.
    + intros Hf. exists pod. split; [exact Hpod|].
      unfold default_container. rewrite Hf in *. cbn [negb andb] in *.
      split.
      * intros first rest Hnames. rewrite Hnames in *.
        split; [|reflexivity].
        destruct rest; [reflexivity | discriminate Hmulti].
      * intros Hnames. rewrite Hnames. reflexivity.
Qed.

(** X4.  In the success record of [get_logs], [log_lines_count] is 0 for
    an empty log and otherwise the number of newline characters of the
    log plus one, so a log that ends with a newline counts one more line
    than it has newlines. *)
Theorem X4_get_logs_line_count (kw : LogKwargs) (logs : string) :
  In (ReadNamespacedPodLog kw) (trace c) ->
  read_namespaced_pod_log w kw = Return logs ->
  exists d,
    outcome c = Return (VDict d) /\
    dict_get "log_lines_count" d =
    Some (VInt (if logs =? "" then 0
                else Z.of_nat (count_char Py.nl logs) + 1)).
Proof.
  intros Hin Hread.
  destruct (get_logs_log_read w pod_name namespace container previous
              tail_lines since_seconds timestamps kw Hin)
    as (config_status & pod & _ & _ & _ & _ & Hout).
  fold c in Hout. rewrite Hread in Hout.
  eexists. split; [exact Hout|].
  pose proof (log_response_all_fields config_status pod_name namespace
                (default_container container
                   (map K8s.c_name (K8s.containers (K8s.spec pod))))
                logs previous tail_lines since_seconds timestamps) as Hf.
  cbv zeta in Hf. destruct Hf as (_ & _ & _ & _ & Hcount & _).
  rewrite Hcount. unfold Py.truthy, vlen.
  destruct (logs =? ""); cbn [negb]; [reflexivity|].
  rewrite split_length. do 2 f_equal. lia.
Qed.

(** X5.  The success record of [get_logs] reports what was read and
    echoes only what was asked for: [container] is the container the
    read was made for; [tail_lines_requested] and [since_seconds] appear
    exactly for a number other than zero; [from_previous_container] and
    [timestamps_included] exactly for a true flag; and [message] exactly
    when the log is empty or whitespace only, whitespace as [str.strip]
    takes it (the Unicode spaces included). *)
Theorem X5_get_logs_success_fields (kw : LogKwargs) (logs : string) :
  In (ReadNamespacedPodLog kw) (trace c) ->
  read_namespaced_pod_log w kw = Return logs ->
  exists d,
    outcome c = Return (VDict d) /\
    dict_get "pod" d = Some (VStr pod_name) /\
    dict_get "namespace" d = Some (VStr namespace) /\
    dict_get "container" d = Some (vstr_opt (kw_container kw)) /\
    dict_get "tail_lines_requested" d = echoed tail_lines /\
    dict_get "since_seconds" d = echoed since_seconds /\
    dict_get "from_previous_container" d = flag previous /\
    dict_get "timestamps_included" d = flag timestamps /\
    (dict_get "message" d = Some (VStr no_logs_message) <->
     whitespace_only logs = true) /\
    (dict_get "message" d = None <-> whitespace_only logs = false).
Proof.
  intros Hin Hread.
  destruct (get_logs_log_read w pod_name namespace container previous
              tail_lines since_seconds timestamps kw Hin)
    as (config_status & pod & _ & _ & _ & Hkw & Hout).
  fold c in Hout. rewrite Hread in Hout.
  eexists. split; [exact Hout|].
  pose proof (log_response_all_fields config_status pod_name namespace
                (default_container container
                   (map K8s.c_name (K8s.containers (K8s.spec pod))))
                logs previous tail_lines since_seconds timestamps) as Hf.
  pose proof (log_response_fields config_status pod_name namespace
                (default_container container
                   (map K8s.c_name (K8s.containers (K8s.spec pod))))
                logs previous tail_lines since_seconds timestamps) as Hm.
  cbv zeta in Hf, Hm, Hkw.
  destruct Hf as (_ & Hp & Hn & Hc & _ & Htl & Hss & Hprev & Hts).
  destruct Hm as (_ & _ & _ & Hm).
  rewrite Hkw. cbn [kw_container log_kwargs].
  repeat (split; [assumption|]).
  rewrite Hm.
  assert (Hcond : (negb (Py.truthy logs) || (Py.strip logs =? ""))%bool
                  = whitespace_only logs).
  { destruct (whitespace_only logs) eqn:Hws.
    - rewrite (strip_whitespace logs Hws). simpl. apply orb_true_r.
    - apply orb_false_iff. split.
      + unfold Py.truthy. rewrite negb_involutive. apply String.eqb_neq.
        intros ->. discriminate Hws.
      + apply String.eqb_neq. intros Hs. apply strip_empty_iff in Hs. congruence. }
  rewrite Hcond.
  destruct (whitespace_only logs); split; split; intros H;
    try reflexivity; try discriminate H.
Qed.

End GetLogsDetails.

(** A log read answered with 404: the pod is reported as not found.
    With no source loadable, the fallback included, the pod is read all
    the same. *)
Lemma X1_witness :
  outcome (get_logs (Sample.workstation [] (Return (Sample.pod ["app"] None))
                                        (Raise (ApiException 404 "Not Found" "")))
                    "web" "default" None false None None false) =
  Return (VDict [("status", VStr "error");
                 ("error_message", VStr "Pod 'web' not found in namespace 'default'");
                 ("error_code", VInt 404)]) /\
  exists rest,
    trace (get_logs Sample.no_config "web" "default" None false None None false) =
    ([LoadInclusterConfig; LoadKubeConfig None; ReadNamespacedPod "web" "default"]
       ++ rest)%list.
Proof.
  split.
  - apply (proj1 (X1_get_logs_404_last_call
                    (Sample.workstation [] (Return (Sample.pod ["app"] None))
                                        (Raise (ApiException 404 "Not Found" "")))
                    "web" "default" None false None None false)).
    reflexivity.
  - apply (proj2 (X1_get_logs_404_last_call
                    Sample.no_config "web" "default" None false None None false)
                 "Service host/port is not set." Sample.no_kubeconfig);
      reflexivity.
Defined.

(** The previous log of a container that never restarted. *)
Lemma X2_witness :
  outcome (get_logs (Sample.workstation [] (Return (Sample.pod ["app"] None))
                       (Raise (ApiException 400 "Bad Request"
                                 "Previous terminated container app in pod web not found")))
                    "web" "default" None true None None false) =
  Return (VDict [("status", VStr "error");
                 ("error_message",
                  VStr "No previous terminated container found for this pod");
                 ("error_code", VInt 400)]).
Proof.
  destruct (X2_get_logs_400_messages
              (Sample.workstation [] (Return (Sample.pod ["app"] None))
                 (Raise (ApiException 400 "Bad Request"
                           "Previous terminated container app in pod web not found")))
              "web" "default" None true None None false
              (log_kwargs "web" "default" (Some "app") true None None false)
              "Bad Request" "Previous terminated container app in pod web not found")
    as (pod & _ & Hout).
  - vm_compute. right; right; right; left; reflexivity.
  - reflexivity.
  - exact Hout.
Defined.

(** A container the pod does not list is asked for all the same. *)
Lemma X3_witness :
  (List.length
     (filter is_log_read
        (trace (get_logs (Sample.workstation [] (Return (Sample.pod ["app"] None))
                                             (Return "line"))
                         "web" "default" (Some "db") false (Some 10%Z) None true))) <= 1)%nat /\
  kw_container (log_kwargs "web" "default" (Some "db") false (Some 10) None true) =
    Some "db" /\
  kw_tail_lines (log_kwargs "web" "default" (Some "db") false (Some 10) None true) =
    Some 10 /\
  kw_since_seconds (log_kwargs "web" "default" (Some "db") false (Some 10) None true) =
    None.
Proof.
  destruct (X3_get_logs_read_arguments
              (Sample.workstation [] (Return (Sample.pod ["app"] None)) (Return "line"))
              "web" "default" (Some "db") false (Some 10) None true) as [Hone Hkw].
  destruct (Hkw (log_kwargs "web" "default" (Some "db") false (Some 10) None true))
    as (_ & _ & _ & _ & Htl & Hss & Hc & _).
  - vm_compute. right; right; right; left; reflexivity.
  - split; [exact Hone|].
    split; [exact (Hc eq_refl) | split; [exact Htl | exact Hss]].
Defined.

(** Two lines, each ended by a newline: three lines are counted. *)
Lemma X4_witness :
  exists d,
    outcome (get_logs (Sample.workstation [] (Return (Sample.pod ["app"] None))
                         (Return ("a" ++ String Py.nl ("b" ++ String Py.nl ""))))
                      "web" "default" None false None None false) = Return (VDict d) /\
    dict_get "log_lines_count" d = Some (VInt 3).
Proof.
  apply (X4_get_logs_line_count
           (Sample.workstation [] (Return (Sample.pod ["app"] None))
              (Return ("a" ++ String Py.nl ("b" ++ String Py.nl ""))))
           "web" "default" None false None None false
           (log_kwargs "web" "default" (Some "app") false None None false)
           ("a" ++ String Py.nl ("b" ++ String Py.nl ""))).
  - vm_compute. right; right; right; left; reflexivity.
  - reflexivity.
Defined.

(** [tail_lines=0] is passed to the read but not echoed; a log of
    Unicode whitespace only gets the message. *)
Lemma X5_witness :
  (exists d,
     outcome (get_logs (Sample.workstation [] (Return (Sample.pod ["app"] None))
                                           (Return "ready"))
                       "web" "default" None true (Some 0) (Some 60) false) =
       Return (VDict d) /\
     dict_get "container" d = Some (VStr "app") /\
     dict_get "tail_lines_requested" d = None /\
     dict_get "since_seconds" d = Some (VInt 60) /\
     dict_get "from_previous_container" d = Some (VBool true) /\
     dict_get "timestamps_included" d = None /\
     dict_get "message" d = None) /\
  (exists d,
     outcome (get_logs (Sample.workstation [] (Return (Sample.pod ["app"] None))
                                           (Return Sample.blank_log))
                       "web" "default" None false None None false) =
       Return (VDict d) /\
     dict_get "message" d = Some (VStr no_logs_message)).
Proof.
  split.
  - destruct (X5_get_logs_success_fields
                (Sample.workstation [] (Return (Sample.pod ["app"] None)) (Return "ready"))
                "web" "default" None true (Some 0) (Some 60) false
                (log_kwargs "web" "default" (Some "app") true (Some 0) (Some 60) false)
                "ready")
      as (d & Hout & _ & _ & Hc & Htl & Hss & Hp & Hts & _ & Hm).
    + vm_compute. right; right; right; left; reflexivity.
    + reflexivity.
    + exists d. repeat (split; [assumption|]). apply Hm. reflexivity.
  - destruct (X5_get_logs_success_fields
                (Sample.workstation [] (Return (Sample.pod ["app"] None))
                                    (Return Sample.blank_log))
                "web" "default" None false None None false
                (log_kwargs "web" "default" (Some "app") false None None false)
                Sample.blank_log)
      as (d & Hout & _ & _ & _ & _ & _ & _ & _ & Hmsg & _).
    + vm_compute. right; right; right; left; reflexivity.
    + reflexivity.
    + exists d. split; [exact Hout|]. apply Hmsg. vm_compute. reflexivity.
Defined.

(* ===================================================================== *)
(** ** More on get_nodes: readiness *)
(* ===================================================================== *)

Lemma dict_get_set_same {A} (k : string) (v : A) (d : list (string * A)) :
  dict_get k (dict_set k v d) = Some v.
Proof.
  induction d as [|[k' v'] d IH]; simpl.
  - rewrite String.eqb_refl. reflexivity.
  - destruct (k' =? k) eqn:E; simpl.
    + rewrite String.eqb_refl. reflexivity.
    + rewrite E. exact IH.
Qed.

Lemma dict_get_set_other {A} (k k' : string) (v : A) (d : list (string * A)) :
  k' <> k -> dict_get k (dict_set k' v d) = dict_get k d.
Proof.
  intros Hne. induction d as [|[k0 v0] d IH]; simpl.
  - apply String.eqb_neq in Hne. rewrite Hne. reflexivity.
  - destruct (k0 =? k') eqn:E; simpl.
    + apply String.eqb_eq in E. subst k0.
      apply String.eqb_neq in Hne. rewrite Hne. reflexivity.
    + destruct (k0 =? k); [reflexivity | exact IH].
Qed.

(** Conditions of other types leave the entry of a type as it is. *)
Lemma conditions_loop_other (k : string) (l : list K8s.NodeCondition)
    (acc : list (string * string)) :
  (forall c, In c l -> K8s.nc_type c <> k) ->
  dict_get k (fold_left conditions_step l acc) = dict_get k acc.
Proof.
  revert acc. induction l as [|c l IH]; intros acc H; simpl; [reflexivity|].
  rewrite IH by (intros c' Hc'; apply H; right; exact Hc').
  unfold conditions_step. apply dict_get_set_other. apply H. left; reflexivity.
Qed.

(** The entry of a type is the status of the last condition of that
    type. *)
Lemma conditions_loop_last (k : string) (l1 l2 : list K8s.NodeCondition)
    (c : K8s.NodeCondition) (acc : list (string * string)) :
  K8s.nc_type c = k ->
  (forall c', In c' l2 -> K8s.nc_type c' <> k) ->
  dict_get k (fold_left conditions_step (l1 ++ c :: l2) acc) = Some (K8s.nc_status c).
Proof.
  intros Hk Hl2. rewrite fold_left_app. simpl.
  rewrite conditions_loop_other by exact Hl2.
  unfold conditions_step at 1. rewrite Hk. apply dict_get_set_same.
Qed.

(** The records of a successful [get_nodes]: one per node of the
    answer. *)
Lemma get_nodes_records (w : World) (d : dict) :
  outcome (get_nodes w) = Return (VDict d) ->
  dict_get "status" d = Some (VStr "success") ->
  exists nodes,
    list_node w = Return nodes /\
    dict_get "nodes" d = Some (VList (map (fun node => VDict (node_info node)) nodes)).
Proof.
  intros Hout Hs. rewrite get_nodes_staged in Hout.
  apply staged_success in Hout; [|exact Hs].
  destruct Hout as (cs & nodes & _ & Hlist & Hd). injection Hd as ->.
  exists nodes. split; [exact Hlist | reflexivity].
Qed.

(** X6.  In a node record of [get_nodes], the conditions map gives for
    each condition type the status of the last condition of that type,
    and the node's status is [Ready] exactly when that status, for the
    type [Ready], is the text [True]; a node with no condition of type
    [Ready] (or with no conditions at all) is [NotReady]. *)
Theorem X6_node_readiness (w : World) (d : dict) :
  outcome (get_nodes w) = Return (VDict d) ->
  dict_get "status" d = Some (VStr "success") ->
  exists nodes,
    list_node w = Return nodes /\
    dict_get "nodes" d = Some (VList (map (fun node => VDict (node_info node)) nodes)) /\
    forall node, In node nodes ->
      exists conditions,
        dict_get "conditions" (node_info node) = Some (vstr_dict conditions) /\
        (forall l1 c l2,
            K8s.node_conditions (K8s.node_status node) = Some (l1 ++ c :: l2)%list ->
            (forall c', In c' l2 -> K8s.nc_type c' <> K8s.nc_type c) ->
            dict_get (K8s.nc_type c) conditions = Some (K8s.nc_status c) /\
            (K8s.nc_type c = "Ready" ->
             dict_get "status" (node_info node) =
             Some (VStr (if K8s.nc_status c =? "True" then "Ready" else "NotReady")))) /\
        ((forall l, K8s.node_conditions (K8s.node_status node) = Some l ->
                    forall c, In c l -> K8s.nc_type c <> "Ready") ->
         dict_get "status" (node_info node) = Some (VStr "NotReady")).
Proof.
  intros Hout Hs.
  destruct (get_nodes_records w d Hout Hs) as (nodes & Hlist & Hnodes).
  exists nodes. split; [exact Hlist|]. split; [exact Hnodes|].
  intros node _. exists (node_conditions_dict node).
  split; [reflexivity|]. split.
  - intros l1 c l2 Hl Hl2.
    assert (Hget : dict_get (K8s.nc_type c) (node_conditions_dict node)
                   = Some (K8s.nc_status c)).
    { unfold node_conditions_dict. rewrite Hl.
      apply (conditions_loop_last (K8s.nc_type c) l1 l2 c []); [reflexivity | exact Hl2]. }
    split; [exact Hget|].
    intros Hready. rewrite Hready in Hget.
    unfold node_info. cbn [dict_get String.eqb Ascii.eqb Bool.eqb].
    rewrite Hget. reflexivity.
  - intros Hnone.
    assert (Hget : dict_get "Ready" (node_conditions_dict node) = None).
    { unfold node_conditions_dict.
      destruct (K8s.node_conditions (K8s.node_status node)) as [l|]; [|reflexivity].
      apply (conditions_loop_other "Ready" l []). exact (Hnone l eq_refl). }
    unfold node_info. cbn [dict_get String.eqb Ascii.eqb Bool.eqb].
    rewrite Hget. reflexivity.
Qed.

(** A node first reported not ready and then ready is [Ready]. *)
Lemma X6_witness :
  dict_get "status" (node_info MoreSamples.flapping_node) = Some (VStr "Ready").
Proof.
  destruct (X6_node_readiness
              (Sample.workstation [MoreSamples.flapping_node]
                 (Return (Sample.pod ["app"] None)) (Return ""))
              [("status", VStr "success");
               ("config_info", VStr (loaded_message DefaultFile));
               ("node_count", VInt 1);
               ("nodes", VList [VDict (node_info MoreSamples.flapping_node)])]
              eq_refl eq_refl)
    as (nodes & Hlist & _ & Hnodes).
  injection Hlist as <-.
  destruct (Hnodes MoreSamples.flapping_node (or_introl eq_refl))
    as (conditions & _ & Hlast & _).
  destruct (Hlast [{| K8s.nc_type := "MemoryPressure"; K8s.nc_status := "False" |};
                   {| K8s.nc_type := "Ready"; K8s.nc_status := "False" |}]
                  {| K8s.nc_type := "Ready"; K8s.nc_status := "True" |}
                  [] eq_refl) as [_ Hready].
  - intros c' [].
  - exact (Hready eq_refl).
Defined.

(* ===================================================================== *)
(** ** Every operation: configuration first, then its API calls *)
(* ===================================================================== *)

Lemma staged_trace {A} (w : World) (ev : event) (r : result A)
    (success : string -> A -> value) (what : string) :
  is_api_call ev = true ->
  trace (staged w ev r success what) =
  (trace (load_kubernetes_config w None) ++
   api_calls (trace (staged w ev r success what)))%list.
Proof.
  intros Hev. rewrite staged_api_calls by exact Hev.
  unfold staged, trace, outcome.
  destruct (load_kubernetes_config w None) as [t [config_status|e]]; cbn [fst snd].
  - reflexivity.
  - rewrite app_nil_r. reflexivity.
Qed.

Lemma get_logs_api_calls (w : World) (pod_name namespace : string)
    (container : option string) (previous : bool)
    (tail_lines since_seconds : option Z) (timestamps : bool) :
  let c := get_logs w pod_name namespace container previous
                    tail_lines since_seconds timestamps in
  trace c = (trace (load_kubernetes_config w None) ++ api_calls (trace c))%list /\
  (api_calls (trace c) = [] /\ exn_of (outcome (load_kubernetes_config w None)) <> None \/
   exn_of (outcome (load_kubernetes_config w None)) = None /\
   (api_calls (trace c) = [ReadNamespacedPod pod_name namespace] \/
    exists kw, api_calls (trace c) =
               [ReadNamespacedPod pod_name namespace; ReadNamespacedPodLog kw])).
Proof.
  intros c. subst c. rewrite get_logs_stages.
  pose proof (load_trace_no_api w None) as Hno.
  unfold trace, outcome, api_calls in *.
  destruct (load_kubernetes_config w None) as [t [config_status|e]]; cbn [fst snd] in *.
  - destruct (read_namespaced_pod w pod_name namespace) as [pod|e].
    + cbv zeta.
      destruct (negb (Py.truthy_opt container) &&
                Nat.ltb 1 (List.length (map K8s.c_name (K8s.containers (K8s.spec pod)))))%bool;
        cbn [fst snd]; rewrite filter_app, Hno; cbn [app filter is_api_call].
      * split; [reflexivity|]. right. split; [reflexivity|]. left; reflexivity.
      * split; [reflexivity|]. right. split; [reflexivity|]. right. eexists; reflexivity.
    + destruct e; cbn [fst snd]; rewrite filter_app, Hno; cbn [app filter is_api_call];
        (split; [reflexivity|]; right; split; [reflexivity|]; left; reflexivity).
  - rewrite Hno, app_nil_r. split; [reflexivity|]. left. split; [reflexivity|].
    discriminate.
Qed.

(** X7.  Every public operation first resolves the configuration and
    only then calls the API: its client calls are those of
    [load_kubernetes_config] followed by its API calls, of which there
    is at most one - at most two for [get_logs] - and none when the
    resolution raised. *)
Theorem X7_configuration_then_api_calls (w : World) (op : operation) :
  trace (run w op) =
    (trace (load_kubernetes_config w None) ++ api_calls (trace (run w op)))%list /\
  (List.length (api_calls (trace (run w op))) <= api_call_bound op)%nat /\
  (exn_of (outcome (load_kubernetes_config w None)) <> None ->
   api_calls (trace (run w op)) = []) /\
  (exn_of (outcome (load_kubernetes_config w None)) = None ->
   api_calls (trace (run w op)) <> []).
Proof.
  assert (Hstaged : forall A ev (r : result A) success what,
             is_api_call ev = true ->
             trace (staged w ev r success what) =
               (trace (load_kubernetes_config w None) ++
                api_calls (trace (staged w ev r success what)))%list /\
             (List.length (api_calls (trace (staged w ev r success what))) <= 1)%nat /\
             (exn_of (outcome (load_kubernetes_config w None)) <> None ->
              api_calls (trace (staged w ev r success what)) = []) /\
             (exn_of (outcome (load_kubernetes_config w None)) = None ->
              api_calls (trace (staged w ev r success what)) <> [])).
  { intros A ev r success what Hev. split; [apply staged_trace, Hev|].
    rewrite staged_api_calls by exact Hev.
    destruct (outcome (load_kubernetes_config w None)); cbn [exn_of List.length];
      repeat split;
      first [ lia | discriminate | reflexivity
            | intros H; exfalso; apply H; reflexivity ]. }
  destruct op as [ns ls| | |ns|ns|n ns|pn ns container prev tl ss ts];
    cbn [run api_call_bound].
  - rewrite get_pods_staged. cbv zeta.
    destruct (Py.lower ns =? "all"); apply Hstaged; reflexivity.
  - rewrite get_nodes_staged. apply Hstaged; reflexivity.
  - rewrite get_namespaces_staged. apply Hstaged; reflexivity.
  - rewrite get_services_staged. cbv zeta.
    destruct (Py.lower ns =? "all"); apply Hstaged; reflexivity.
  - rewrite get_deployments_staged. cbv zeta.
    destruct (Py.lower ns =? "all"); apply Hstaged; reflexivity.
  - rewrite describe_pod_staged. apply Hstaged; reflexivity.
  - destruct (get_logs_api_calls w pn ns container prev tl ss ts) as [Htrace Hcalls].
    cbv zeta in Htrace, Hcalls. split; [exact Htrace|].
    destruct Hcalls as [[Hnil Hraise] | [Hret [Hone | [kw Htwo]]]].
    + rewrite Hnil. repeat split;
        first [ simpl; lia | reflexivity | intros H; contradiction ].
    + rewrite Hone, Hret. repeat split;
        first [ simpl; lia | discriminate | intros H; exfalso; apply H; reflexivity ].
    + rewrite Htwo, Hret. repeat split;
        first [ simpl; lia | discriminate | intros H; exfalso; apply H; reflexivity ].
Qed.

(** On a workstation, [get_nodes] makes its one API call. *)
Lemma X7_witness :
  api_calls (trace (run (Sample.workstation [] (Return (Sample.pod ["app"] None))
                                            (Return "")) GetNodes)) <> [].
Proof.
  destruct (X7_configuration_then_api_calls
              (Sample.workstation [] (Return (Sample.pod ["app"] None)) (Return ""))
              GetNodes) as (_ & _ & _ & Hcalls).
  apply Hcalls. reflexivity.
Defined.

(* ===================================================================== *)
(** ** The list operations: one record per listed object *)
(* ===================================================================== *)

Lemma record_names_map {A} (meta : A -> K8s.ObjectMeta) (info : A -> dict)
    (items : list A) :
  (forall x, dict_get "name" (info x) = Some (vstr_opt (K8s.name (meta x)))) ->
  record_names (map (fun x => VDict (info x)) items) =
  map (fun x => vstr_opt (K8s.name (meta x))) items.
Proof.
  intros Hname. unfold record_names. rewrite map_map.
  apply map_ext. intros x. rewrite Hname. reflexivity.
Qed.

Lemma pod_info_name (pod : K8s.Pod) :
  dict_get "name" (pod_info pod) = Some (vstr_opt (K8s.name (K8s.metadata pod))).
Proof.
  unfold pod_info.
  destruct (K8s.container_statuses (K8s.status pod)) as [[|cs css]|]; reflexivity.
Qed.

Lemma service_info_name (svc : K8s.Service) :
  dict_get "name" (service_info svc) = Some (vstr_opt (K8s.name (K8s.svc_metadata svc))).
Proof.
  unfold service_info.
  destruct (is_load_balancer svc); [|reflexivity].
  destruct (K8s.load_balancer svc) as [lb|]; [|reflexivity].
  destruct (K8s.ingress lb) as [[|ing ings]|]; reflexivity.
Qed.

(** A staged operation whose configuration returns and whose call is
    answered gives the success record. *)
Lemma staged_answered {A} (w : World) (ev : event) (r : result A)
    (success : string -> A -> value) (what : string)
    (config_status : string) (items : A) :
  outcome (load_kubernetes_config w None) = Return config_status ->
  r = Return items ->
  outcome (staged w ev r success what) = Return (success config_status items).
Proof.
  unfold staged, outcome. intros Hload ->.
  destruct (load_kubernetes_config w None) as [t [cs|e]]; cbn [fst snd] in *.
  - injection Hload as ->. reflexivity.
  - discriminate Hload.
Qed.

(** X8.  When the configuration resolves and the API answers the list
    call of a list operation, the result is a success record with one
    record per listed object, in the order of the answer and under the
    object's name - nothing is dropped, merged or reordered - and the
    count field is the number of listed objects. *)
Theorem X8_one_record_per_listed_object
    (w : World) (op : operation) (config_status : string) (names : list value) :
  outcome (load_kubernetes_config w None) = Return config_status ->
  listed_names w op = Some names ->
  exists d records,
    outcome (run w op) = Return (VDict d) /\
    dict_get "status" d = Some (VStr "success") /\
    dict_get "config_info" d = Some (VStr config_status) /\
    dict_get (items_key op) d = Some (VList records) /\
    record_names records = names /\
    dict_get (count_key op) d = Some (VInt (Z.of_nat (List.length names))).
Proof.
  intros Hload Hnames.
  destruct op as [ns ls| | |ns|ns|n ns|pn ns container prev tl ss ts];
    cbn [run listed_names items_key count_key] in *; try discriminate Hnames.
  - rewrite get_pods_staged. cbv zeta. unfold answer_names in Hnames.
    destruct (Py.lower ns =? "all");
      match type of Hnames with
      | match ?r with _ => _ end = _ => destruct r as [items|e] eqn:Hr
      end; try discriminate Hnames; injection Hnames as <-;
      rewrite (staged_answered _ _ _ _ _ config_status items Hload eq_refl);
      do 2 eexists; repeat (split; [reflexivity|]);
      (split; [apply (record_names_map K8s.metadata pod_info), pod_info_name|]);
      unfold vlen; rewrite !length_map; reflexivity.
  - rewrite get_nodes_staged. unfold answer_names in Hnames.
    destruct (list_node w) as [items|e] eqn:Hr; try discriminate Hnames.
    injection Hnames as <-.
    rewrite (staged_answered _ _ _ _ _ config_status items Hload eq_refl).
    do 2 eexists; repeat (split; [reflexivity|]).
    split; [apply (record_names_map K8s.node_metadata node_info); reflexivity|].
    unfold vlen; rewrite !length_map; reflexivity.
  - rewrite get_namespaces_staged. unfold answer_names in Hnames.
    destruct (list_namespace w) as [items|e] eqn:Hr; try discriminate Hnames.
    injection Hnames as <-.
    rewrite (staged_answered _ _ _ _ _ config_status items Hload eq_refl).
    do 2 eexists; repeat (split; [reflexivity|]).
    split; [apply (record_names_map K8s.ns_metadata namespace_info); reflexivity|].
    unfold vlen; rewrite !length_map; reflexivity.
  - rewrite get_services_staged. cbv zeta. unfold answer_names in Hnames.
    destruct (Py.lower ns =? "all");
      match type of Hnames with
      | match ?r with _ => _ end = _ => destruct r as [items|e] eqn:Hr
      end; try discriminate Hnames; injection Hnames as <-;
      rewrite (staged_answered _ _ _ _ _ config_status items Hload eq_refl);
      do 2 eexists; repeat (split; [reflexivity|]);
      (split; [apply (record_names_map K8s.svc_metadata service_info), service_info_name|]);
      unfold vlen; rewrite !length_map; reflexivity.
  - rewrite get_deployments_staged. cbv zeta. unfold answer_names in Hnames.
    destruct (Py.lower ns =? "all");
      match type of Hnames with
      | match ?r with _ => _ end = _ => destruct r as [items|e] eqn:Hr
      end; try discriminate Hnames; injection Hnames as <-;
      rewrite (staged_answered _ _ _ _ _ config_status items Hload eq_refl);
      do 2 eexists; repeat (split; [reflexivity|]);
      (split; [apply (record_names_map K8s.dep_metadata deployment_info); reflexivity|]);
      unfold vlen; rewrite !length_map; reflexivity.
Qed.

(** The services of the sample cluster: one record, for [web]. *)
Lemma X8_witness :
  exists d records,
    outcome (run (Sample.workstation [] (Return (Sample.pod ["app"] None)) (Return ""))
                 (GetServices "All")) = Return (VDict d) /\
    dict_get "status" d = Some (VStr "success") /\
    dict_get "config_info" d = Some (VStr (loaded_message DefaultFile)) /\
    dict_get "services" d = Some (VList records) /\
    record_names records = [VStr "web"] /\
    dict_get "service_count" d = Some (VInt 1).
Proof.
  apply (X8_one_record_per_listed_object
           (Sample.workstation [] (Return (Sample.pod ["app"] None)) (Return ""))
           (GetServices "All") (loaded_message DefaultFile) [VStr "web"]);
    reflexivity.
Defined.

(* ===================================================================== *)
(** ** Configuration failure and the operations *)
(* ===================================================================== *)

(** A success record carries what the resolver returned. *)
Lemma success_config_info (w : World) (op : operation) (d : dict) :
  outcome (run w op) = Return (VDict d) ->
  dict_get "status" d = Some (VStr "success") ->
  exists config_status,
    outcome (load_kubernetes_config w None) = Return config_status /\
    dict_get "config_info" d = Some (VStr config_status).
Proof.
  assert (Hstaged : forall A ev (r : result A) (success : string -> A -> value) what,
             (forall cs items, exists d', success cs items = VDict d' /\
                                          dict_get "config_info" d' = Some (VStr cs)) ->
             outcome (staged w ev r success what) = Return (VDict d) ->
             dict_get "status" d = Some (VStr "success") ->
             exists config_status,
               outcome (load_kubernetes_config w None) = Return config_status /\
               dict_get "config_info" d = Some (VStr config_status)).
  { intros A ev r success what Hinfo Hout Hs.
    apply staged_success in Hout; [|exact Hs].
    destruct Hout as (cs & items & Hload & _ & Hd).
    destruct (Hinfo cs items) as (d' & Hd' & Hci).
    rewrite Hd' in Hd. injection Hd as ->. eauto. }
  destruct op as [ns ls| | |ns|ns|n ns|pn ns container prev tl ss ts]; cbn [run].
  - rewrite get_pods_staged. cbv zeta.
    destruct (Py.lower ns =? "all"); apply Hstaged;
      intros; eexists; split; reflexivity.
  - rewrite get_nodes_staged. apply Hstaged; intros; eexists; split; reflexivity.
  - rewrite get_namespaces_staged. apply Hstaged; intros; eexists; split; reflexivity.
  - rewrite get_services_staged. cbv zeta.
    destruct (Py.lower ns =? "all"); apply Hstaged;
      intros; eexists; split; reflexivity.
  - rewrite get_deployments_staged. cbv zeta.
    destruct (Py.lower ns =? "all"); apply Hstaged;
      intros; eexists; split; reflexivity.
  - rewrite describe_pod_staged. apply Hstaged; intros; eexists; split; reflexivity.
  - rewrite get_logs_stages. unfold outcome.
    destruct (load_kubernetes_config w None) as [t [config_status|e]]; cbn [fst snd].
    + destruct (read_namespaced_pod w pn ns) as [pod|e].
      * cbv zeta.
        destruct (negb (Py.truthy_opt container) &&
                  Nat.ltb 1 (List.length (map K8s.c_name (K8s.containers (K8s.spec pod)))))%bool;
          cbn [fst snd].
        { intros H Hs. injection H as <-. discriminate Hs. }
        destruct (read_namespaced_pod_log w _) as [logs|e].
        { intros H _. injection H as <-. exists config_status.
          split; [reflexivity|]. apply log_response_all_fields. }
        intros H Hs. apply get_logs_except_shape in H.
        destruct e; destruct H as (m & Hm); injection Hm as ->; discriminate Hs.
      * destruct e; cbn [fst snd]; intros H Hs;
          try (apply get_logs_except_shape in H; destruct H as (m & Hm);
               injection Hm as ->; discriminate Hs).
        injection H as <-. discriminate Hs.
    + intros H Hs. apply get_logs_except_shape in H.
      destruct e; destruct H as (m & Hm); injection Hm as ->; discriminate Hs.
Qed.

(** X9.  Failing to load any configuration does not stop an operation:
    when the first load raises a ConfigException and the fallback load
    fails too, every public operation still makes its API call, and a
    success record then carries the failure text of the resolver, with
    both messages, as its [config_info]. *)
Theorem X9_configuration_failure_does_not_abort
    (w : World) (op : operation) (m : string) (fallback_error : exn) :
  raised_by w (source_event (first_applicable w None)) = Some (ConfigException m) ->
  raised_by w (source_event DefaultFile) = Some fallback_error ->
  api_calls (trace (run w op)) <> [] /\
  forall d,
    outcome (run w op) = Return (VDict d) ->
    dict_get "status" d = Some (VStr "success") ->
    dict_get "config_info" d =
    Some (VStr ("Failed to load any Kubernetes config: " ++
                m ++ ", " ++ str_exn fallback_error)).
Proof.
  intros Hfirst Hfallback.
  assert (Hload : outcome (load_kubernetes_config w None) =
                  Return ("Failed to load any Kubernetes config: " ++
                          m ++ ", " ++ str_exn fallback_error)).
  { rewrite load_kubernetes_config_cases. cbv zeta.
    rewrite Hfirst, Hfallback. reflexivity. }
  split.
  - assert (Hcalls : forall A ev (r : result A) success what,
               is_api_call ev = true ->
               api_calls (trace (staged w ev r success what)) <> []).
    { intros A ev r success what Hev. rewrite staged_api_calls by exact Hev.
      rewrite Hload. discriminate. }
    destruct op as [ns ls| | |ns|ns|n ns|pn ns container prev tl ss ts]; cbn [run].
    + rewrite get_pods_staged. cbv zeta.
      destruct (Py.lower ns =? "all"); apply Hcalls; reflexivity.
    + rewrite get_nodes_staged. apply Hcalls; reflexivity.
    + rewrite get_namespaces_staged. apply Hcalls; reflexivity.
    + rewrite get_services_staged. cbv zeta.
      destruct (Py.lower ns =? "all"); apply Hcalls; reflexivity.
    + rewrite get_deployments_staged. cbv zeta.
      destruct (Py.lower ns =? "all"); apply Hcalls; reflexivity.
    + rewrite describe_pod_staged. apply Hcalls; reflexivity.
    + destruct (get_logs_api_calls w pn ns container prev tl ss ts) as [_ Hc].
      cbv zeta in Hc. rewrite Hload in Hc. cbn [exn_of] in Hc.
      destruct Hc as [[_ Hraise] | [_ [Hone | [kw Htwo]]]].
      * exfalso. apply Hraise. reflexivity.
      * rewrite Hone. discriminate.
      * rewrite Htwo. discriminate.
  - intros d Hout Hs.
    destruct (success_config_info w op d Hout Hs) as (cs & Hcs & Hci).
    rewrite Hload in Hcs. injection Hcs as <-. exact Hci.
Qed.

(** With nothing to load, [get_pods] still lists the pods and reports
    success, the failure text in [config_info]. *)
Lemma X9_witness :
  api_calls (trace (run Sample.no_config (GetPods "all" None))) <> [] /\
  forall d,
    outcome (run Sample.no_config (GetPods "all" None)) = Return (VDict d) ->
    dict_get "status" d = Some (VStr "success") ->
    dict_get "config_info" d =
    Some (VStr ("Failed to load any Kubernetes config: " ++
                "Service host/port is not set." ++ ", " ++
                str_exn Sample.no_kubeconfig)).
Proof.
  apply (X9_configuration_failure_does_not_abort
           Sample.no_config (GetPods "all" None)
           "Service host/port is not set." Sample.no_kubeconfig);
    reflexivity.
Defined.

(* ===================================================================== *)
(** ** More on load_kubernetes_config *)
(* ===================================================================== *)

Lemma loaded_message_not_failure (s : ClusterConfigSource) :
  prefix "Failed to load any Kubernetes config: " (loaded_message s) = false.
Proof. destruct s; reflexivity. Qed.

(** X10.  [load_kubernetes_config] makes one load call, or two, never
    more; it never raises a ConfigException - an exception that leaves
    it is another kind, raised by its first and then only load; and the
    text it returns begins with [Failed to load any Kubernetes config: ]
    exactly when the first load raised a ConfigException and the
    fallback load failed too, so that the text tells a caller whether a
    configuration is in place. *)
Theorem X10_resolver_outcomes (w : World) (kubeconfig_path : option string) :
  let c := load_kubernetes_config w kubeconfig_path in
  (1 <= List.length (trace c) <= 2)%nat /\
  (forall e, outcome c = Raise e ->
             (forall m, e <> ConfigException m) /\
             trace c = [source_event (first_applicable w kubeconfig_path)] /\
             raised_by w (source_event (first_applicable w kubeconfig_path)) = Some e) /\
  (forall s, outcome c = Return s ->
             (prefix "Failed to load any Kubernetes config: " s = true <->
              exists m fallback_error,
                raised_by w (source_event (first_applicable w kubeconfig_path))
                  = Some (ConfigException m) /\
                raised_by w (source_event DefaultFile) = Some fallback_error)).
Proof.
  intros c. subst c. rewrite load_kubernetes_config_cases. cbv zeta.
  destruct (raised_by w (source_event (first_applicable w kubeconfig_path)))
    as [e|] eqn:Hfirst.
  - destruct e;
      try (cbn [trace outcome fst snd List.length]; split; [lia|]; split;
           [ intros e' H; injection H as <-;
             split; [discriminate | split; reflexivity]
           | intros s H; discriminate H ]).
    cbn [trace outcome fst snd List.length]. split; [lia|]. split.
    + intros e' H. destruct (raised_by w (source_event DefaultFile)); discriminate H.
    + intros s H.
      destruct (raised_by w (source_event DefaultFile)) as [fe|] eqn:Hfb;
        injection H as <-.
      * split; [intros _; eauto|]. intros _.
        exact (prefix_app "Failed to load any Kubernetes config: "
                          (msg ++ ", " ++ str_exn fe)).
      * split; [intros H; discriminate H | intros (m' & fe & _ & H); discriminate H].
  - cbn [trace outcome fst snd List.length]. split; [lia|]. split.
    + intros e H. discriminate H.
    + intros s H. injection H as <-. rewrite loaded_message_not_failure.
      split; [intros H; discriminate H | intros (m & fe & H & _); discriminate H].
Qed.

(** A stale KUBECONFIG with a valid default file: two loads, and a text
    that does not report a failure. *)
Lemma X10_witness :
  prefix "Failed to load any Kubernetes config: "
         (loaded_message DefaultFile) = true <->
  exists m fallback_error,
    raised_by Sample.stale_kubeconfig
              (source_event (first_applicable Sample.stale_kubeconfig None))
      = Some (ConfigException m) /\
    raised_by Sample.stale_kubeconfig (source_event DefaultFile) = Some fallback_error.
Proof.
  destruct (X10_resolver_outcomes Sample.stale_kubeconfig None) as (_ & _ & Hs).
  apply (Hs (loaded_message DefaultFile)). reflexivity.
Defined.

(* ===================================================================== *)
(** ** More on describe_pod: environment variables *)
(* ===================================================================== *)

Lemma container_env_in (l : list K8s.EnvVar) (x : value) :
  In x (container_env l) <->
  exists e v,
    In e l /\ K8s.env_value e = Some v /\ v <> "" /\
    x = VDict [("name", VStr (K8s.env_name e)); ("value", VStr v)].
Proof.
  unfold container_env. rewrite in_flat_map. split.
  - intros (e & He & Hx).
    destruct (K8s.env_value e) as [v|] eqn:Hv; cbn [Py.truthy_opt] in Hx;
      [|destruct Hx].
    unfold Py.truthy in Hx. destruct (v =? "") eqn:E; cbn [negb] in Hx; [destruct Hx|].
    destruct Hx as [<-|[]]. exists e, v. apply String.eqb_neq in E.
    rewrite Hv. repeat split; assumption.
  - intros (e & v & He & Hv & Hne & ->). exists e. split; [exact He|].
    rewrite Hv. cbn [Py.truthy_opt]. unfold Py.truthy.
    apply String.eqb_neq in Hne. rewrite Hne. left; reflexivity.
Qed.

Lemma container_env_length (l : list K8s.EnvVar) :
  (List.length (container_env l) <= List.length l)%nat.
Proof.
  induction l as [|e l IH]; simpl; [lia|].
  destruct (Py.truthy_opt (K8s.env_value e)); simpl; lia.
Qed.

(** X11.  In the result of [describe_pod], the [env] list of a container
    holds exactly the variables of the container that have a direct
    value that is not empty, each with its name and value; a variable
    without a direct value (one taken from a secret or a config map) or
    with an empty value does not appear. *)
Theorem X11_env_direct_values_only (w : World) (name namespace : string) (d : dict) :
  outcome (describe_pod w name namespace) = Return (VDict d) ->
  dict_get "status" d = Some (VStr "success") ->
  exists pod spec,
    read_namespaced_pod w name namespace = Return pod /\
    dict_get "pod" d = Some (VDict (pod_details pod)) /\
    dict_get "spec" (pod_details pod) = Some (VDict spec) /\
    dict_get "containers" spec =
      Some (VList (map container_info (K8s.containers (K8s.spec pod)))) /\
    forall container, In container (K8s.containers (K8s.spec pod)) ->
      exists info envs,
        container_info container = VDict info /\
        dict_get "env" info = Some (VList envs) /\
        (List.length envs <=
         List.length (match K8s.env container with Some l => l | None => [] end))%nat /\
        forall x,
          In x envs <->
          exists l e v,
            K8s.env container = Some l /\ In e l /\
            K8s.env_value e = Some v /\ v <> "" /\
            x = VDict [("name", VStr (K8s.env_name e)); ("value", VStr v)].
Proof.
  intros Hout Hs. rewrite describe_pod_staged in Hout.
  apply staged_success in Hout; [|exact Hs].
  destruct Hout as (cs & pod & _ & Hread & Hd). injection Hd as ->.
  exists pod. eexists. split; [exact Hread|]. split; [reflexivity|].
  split.
  { unfold pod_details.
    destruct (K8s.container_statuses (K8s.status pod)) as [[|s0 ss]|]; reflexivity. }
  split; [reflexivity|].
  intros container _. unfold container_info. do 2 eexists.
  split; [reflexivity|]. split; [reflexivity|].
  destruct (K8s.env container) as [l|].
  - split; [apply container_env_length|].
    intros x. rewrite container_env_in. split.
    + intros (e & v & He & Hv & Hne & Hx). exists l, e, v. auto.
    + intros (l' & e & v & Hl & He & Hv & Hne & Hx). injection Hl as <-.
      exists e, v. auto.
  - split; [simpl; lia|]. intros x. split; [intros []|].
    intros (l & e & v & Hl & _). discriminate Hl.
Qed.

(** Of three variables, only the one with a literal value is listed. *)
Lemma X11_witness :
  exists info envs,
    container_info MoreSamples2.app_container = VDict info /\
    dict_get "env" info = Some (VList envs) /\
    In (VDict [("name", VStr "MODE"); ("value", VStr "prod")]) envs /\
    (List.length envs <= 3)%nat.
Proof.
  destruct (X11_env_direct_values_only
              (Sample.workstation [] (Return MoreSamples2.app_pod) (Return ""))
              "web" "default"
              [("status", VStr "success");
               ("config_info", VStr (loaded_message DefaultFile));
               ("pod", VDict (pod_details MoreSamples2.app_pod))]
              eq_refl eq_refl)
    as (pod & spec & Hread & _ & _ & _ & Hcont).
  injection Hread as <-.
  destruct (Hcont MoreSamples2.app_container (or_introl eq_refl))
    as (info & envs & Hinfo & Henv & Hlen & Hin).
  exists info, envs. split; [exact Hinfo|]. split; [exact Henv|].
  split; [|exact Hlen].
  apply Hin.
  exists [{| K8s.env_name := "MODE"; K8s.env_value := Some "prod" |};
          {| K8s.env_name := "TOKEN"; K8s.env_value := None |};
          {| K8s.env_name := "EMPTY"; K8s.env_value := Some "" |}],
         {| K8s.env_name := "MODE"; K8s.env_value := Some "prod" |}, "prod".
  repeat split; [left; reflexivity | discriminate].
Defined.

(* ===================================================================== *)
(** ** More on get_services: the addresses of a load balancer *)
(* ===================================================================== *)

Lemma ingress_ips_in (ingress : list K8s.LoadBalancerIngress) (x : value) :
  In x (ingress_ips ingress) <->
  exists ing a, In ing ingress /\ K8s.ip ing = Some a /\ a <> "" /\ x = VStr a.
Proof.
  unfold ingress_ips. rewrite in_flat_map. split.
  - intros (ing & Hing & Hx).
    destruct (K8s.ip ing) as [a|] eqn:Ha; [|destruct Hx].
    unfold Py.truthy in Hx. destruct (a =? "") eqn:E; cbn [negb] in Hx; [destruct Hx|].
    destruct Hx as [<-|[]]. apply String.eqb_neq in E. exists ing, a. auto.
  - intros (ing & a & Hing & Ha & Hne & ->). exists ing. split; [exact Hing|].
    rewrite Ha. unfold Py.truthy. apply String.eqb_neq in Hne. rewrite Hne.
    left; reflexivity.
Qed.

(** The records of a successful [get_services]. *)
Lemma get_services_records (w : World) (namespace : string) (d : dict) :
  outcome (get_services w namespace) = Return (VDict d) ->
  dict_get "status" d = Some (VStr "success") ->
  exists services,
    (if Py.lower namespace =? "all" then list_service_for_all_namespaces w
     else list_namespaced_service w namespace) = Return services /\
    dict_get "services" d =
      Some (VList (map (fun svc => VDict (service_info svc)) services)).
Proof.
  intros Hout Hs. rewrite get_services_staged in Hout. cbv zeta in Hout.
  destruct (Py.lower namespace =? "all");
    (apply staged_success in Hout; [|exact Hs]);
    destruct Hout as (cs & services & _ & Hlist & Hd); injection Hd as ->;
    exists services; (split; [exact Hlist | reflexivity]).
Qed.

(** X12.  A service record of [get_services] has the field
    [load_balancer_ip] exactly when the service is of type LoadBalancer
    and its status lists at least one ingress point; the field then
    holds the addresses of the ingress points that have one, so that it
    is an empty list for a load balancer known by host names only. *)
Theorem X12_load_balancer_addresses (w : World) (namespace : string) (d : dict) :
  outcome (get_services w namespace) = Return (VDict d) ->
  dict_get "status" d = Some (VStr "success") ->
  exists services,
    (if Py.lower namespace =? "all" then list_service_for_all_namespaces w
     else list_namespaced_service w namespace) = Return services /\
    dict_get "services" d =
      Some (VList (map (fun svc => VDict (service_info svc)) services)) /\
    forall svc, In svc services ->
      (dict_get "load_balancer_ip" (service_info svc) <> None <->
       K8s.type (K8s.svc_spec svc) = Some "LoadBalancer" /\
       exists lb ing ings,
         K8s.load_balancer svc = Some lb /\ K8s.ingress lb = Some (ing :: ings)) /\
      (forall lb ingress,
          K8s.type (K8s.svc_spec svc) = Some "LoadBalancer" ->
          K8s.load_balancer svc = Some lb ->
          K8s.ingress lb = Some ingress -> ingress <> [] ->
          exists ips,
            dict_get "load_balancer_ip" (service_info svc) = Some (VList ips) /\
            forall x, In x ips <->
                      exists ing a, In ing ingress /\ K8s.ip ing = Some a /\
                                    a <> "" /\ x = VStr a).
Proof.
  intros Hout Hs.
  destruct (get_services_records w namespace d Hout Hs) as (services & Hlist & Hrec).
  exists services. split; [exact Hlist|]. split; [exact Hrec|].
  intros svc _. unfold service_info, is_load_balancer. split.
  - destruct (K8s.type (K8s.svc_spec svc)) as [t|] eqn:Ht.
    + destruct (t =? "LoadBalancer") eqn:E.
      * apply String.eqb_eq in E. subst t.
        destruct (K8s.load_balancer svc) as [lb|].
        -- destruct (K8s.ingress lb) as [[|ing ings]|] eqn:Hi.
           ++ split; [intros H; exfalso; apply H; reflexivity|].
              intros (_ & lb' & i & rest & Hlb & Hing). injection Hlb as <-.
              rewrite Hi in Hing. discriminate Hing.
           ++ split; [intros _ | intros _; discriminate].
              split; [reflexivity|]. exists lb, ing, ings.
              split; [reflexivity | exact Hi].
           ++ split; [intros H; exfalso; apply H; reflexivity|].
              intros (_ & lb' & i & rest & Hlb & Hing). injection Hlb as <-.
              rewrite Hi in Hing. discriminate Hing.
        -- split; [intros H; exfalso; apply H; reflexivity|].
           intros (_ & lb' & i & rest & Hlb & _). discriminate Hlb.
      * split; [intros H; exfalso; apply H; reflexivity|].
        intros (Hty & _). injection Hty as ->. discriminate E.
    + split; [intros H; exfalso; apply H; reflexivity|].
      intros (Hty & _). discriminate Hty.
  - intros lb ingress Ht Hlb Hing Hne. rewrite Ht, Hlb, Hing.
    cbn [String.eqb Ascii.eqb Bool.eqb].
    destruct ingress as [|ing ings]; [contradiction|].
    eexists. split; [reflexivity|]. apply ingress_ips_in.
Qed.

(** A load balancer known by a host name: the field is there and
    empty. *)
Lemma X12_witness :
  exists ips,
    dict_get "load_balancer_ip" (service_info MoreSamples2.hostname_balancer) =
      Some (VList ips) /\
    forall x, ~ In x ips.
Proof.
  destruct (X12_load_balancer_addresses balancer_world "all"
              [("status", VStr "success");
               ("config_info", VStr (loaded_message InCluster));
               ("service_count", VInt 1);
               ("services",
                VList [VDict (service_info MoreSamples2.hostname_balancer)])]
              eq_refl eq_refl)
    as (services & Hlist & _ & Hsvc).
  injection Hlist as <-.
  destruct (Hsvc MoreSamples2.hostname_balancer (or_introl eq_refl)) as [_ Hips].
  destruct (Hips {| K8s.ingress := Some [{| K8s.ip := None |}] |}
                 [{| K8s.ip := None |}] eq_refl eq_refl eq_refl)
    as (ips & Hget & Hin); [discriminate|].
  exists ips. split; [exact Hget|].
  intros x Hx. apply Hin in Hx.
  destruct Hx as (ing & a & [<-|[]] & Ha & _). discriminate Ha.
Defined.

(* ===================================================================== *)
(** ** Properties of get_model_config *)
(* ===================================================================== *)

Lemma getenv_setenv_same (environ : string -> option string) (key value default : string) :
  getenv (setenv key value environ) key default = value.
Proof. unfold getenv, setenv. rewrite String.eqb_refl. reflexivity. Qed.

Lemma getenv_setenv_other (environ : string -> option string)
    (key key' value default : string) :
  key' <> key ->
  getenv (setenv key value environ) key' default = getenv environ key' default.
Proof.
  intros Hne. unfold getenv, setenv.
  apply String.eqb_neq in Hne. rewrite Hne. reflexivity.
Qed.

(** X13.  [get_model_config] selects the local model exactly when
    LLM_TYPE is [local], in any letter case, and LiteLlm is available.
    In every other case - LLM_TYPE not set, set to anything else, or
    [local] without LiteLlm - it returns the name of the Gemini model,
    GEMINI_MODEL or its default.  The last line it prints names the
    model it returns. *)
Theorem X13_model_selection (environ : string -> option string) (available : bool) :
  let r := get_model_config environ available in
  ((exists m, selected r = LiteLlm m) <->
   Py.lower (getenv environ "LLM_TYPE" "cloud") = "local" /\ available = true) /\
  (forall m, selected r = LiteLlm m ->
             m = getenv environ "LM_STUDIO_MODEL" "lm_studio/qwen3-1.7b" /\
             last (printed r) "" =
               "Using Local LLM: " ++ m ++ " at " ++
               getenv environ "LM_STUDIO_API_BASE" "http://127.0.0.1:1234/v1/") /\
  (forall name, selected r = ModelName name ->
                name = getenv environ "GEMINI_MODEL" "gemini-2.0-pro-exp" /\
                last (printed r) "" = "Using Cloud LLM: " ++ name).
Proof.
  unfold get_model_config. cbv zeta.
  destruct (Py.lower (getenv environ "LLM_TYPE" "cloud") =? "local") eqn:E.
  - apply String.eqb_eq in E. rewrite E.
    destruct available; cbn [negb selected printed].
    + split; [split; [intros _; split; reflexivity | intros _; eexists; reflexivity]|].
      split; [|intros name H; discriminate H].
      intros m H. injection H as <-. split; reflexivity.
    + split; [split; [intros [m H]; discriminate H | intros [_ H]; discriminate H]|].
      split; [intros m H; discriminate H|].
      intros name H. injection H as <-. split; reflexivity.
  - apply String.eqb_neq in E. cbn [selected printed].
    split; [split; [intros [m H]; discriminate H | intros [H _]; contradiction]|].
    split; [intros m H; discriminate H|].
    intros name H. injection H as <-. split; reflexivity.
Qed.

(** X14.  [get_model_config] changes the environment in one way only:
    when it selects the local model it sets LM_STUDIO_API_BASE to the
    address it uses, which is the value the variable had or, when it was
    not set, the default address.  A variable that is set is never
    changed, and running the function again in the environment it leaves
    selects the same model and prints the same lines. *)
Theorem X14_model_environment (environ : string -> option string) (available : bool) :
  let r := get_model_config environ available in
  (forall k v, environ k = Some v -> environ_after r k = Some v) /\
  (forall k, environ k = None -> environ_after r k <> None ->
             k = "LM_STUDIO_API_BASE" /\
             environ_after r k = Some "http://127.0.0.1:1234/v1/" /\
             exists m, selected r = LiteLlm m) /\
  selected (get_model_config (environ_after r) available) = selected r /\
  printed (get_model_config (environ_after r) available) = printed r /\
  (forall m, selected r = LiteLlm m ->
             environ_after r "LM_STUDIO_API_BASE" =
             Some (getenv environ "LM_STUDIO_API_BASE" "http://127.0.0.1:1234/v1/")).
Proof.
  unfold get_model_config. cbv zeta.
  destruct (Py.lower (getenv environ "LLM_TYPE" "cloud") =? "local") eqn:E.
  - destruct available; cbn [negb environ_after selected printed].
    + split; [|split].
      * intros k v Hk. unfold setenv, getenv.
        destruct (k =? "LM_STUDIO_API_BASE") eqn:Ek; [|exact Hk].
        apply String.eqb_eq in Ek. subst k. rewrite Hk. reflexivity.
      * intros k Hk Hafter. unfold setenv, getenv in *.
        destruct (k =? "LM_STUDIO_API_BASE") eqn:Ek; [|contradiction].
        apply String.eqb_eq in Ek. subst k. rewrite Hk.
        split; [reflexivity|]. split; [reflexivity|]. eexists; reflexivity.
      * rewrite (getenv_setenv_other environ "LM_STUDIO_API_BASE" "LLM_TYPE")
          by discriminate.
        rewrite E. cbn [negb selected printed].
        rewrite getenv_setenv_same.
        rewrite (getenv_setenv_other environ "LM_STUDIO_API_BASE" "LM_STUDIO_MODEL")
          by discriminate.
        split; [reflexivity|]. split; [reflexivity|].
        intros m _. unfold setenv. rewrite String.eqb_refl. reflexivity.
    + split; [intros k v Hk; exact Hk|].
      split; [intros k Hk Hafter; contradiction|].
      rewrite E. cbn [negb selected printed].
      split; [reflexivity|]. split; [reflexivity|]. intros m H. discriminate H.
  - cbn [environ_after selected printed].
    split; [intros k v Hk; exact Hk|].
    split; [intros k Hk Hafter; contradiction|].
    rewrite E. cbn [selected printed].
    split; [reflexivity|]. split; [reflexivity|]. intros m H. discriminate H.
Qed.

(** LLM_TYPE=LOCAL with LiteLlm available: the default local model. *)
Lemma X13_witness :
  selected (get_model_config MoreSamples3.local_environ true) =
    LiteLlm "lm_studio/qwen3-1.7b" /\
  last (printed (get_model_config MoreSamples3.local_environ true)) "" =
    "Using Local LLM: lm_studio/qwen3-1.7b at http://127.0.0.1:1234/v1/".
Proof.
  destruct (X13_model_selection MoreSamples3.local_environ true) as (_ & Hlocal & _).
  destruct (Hlocal "lm_studio/qwen3-1.7b" eq_refl) as [_ Hlast].
  split; [reflexivity | exact Hlast].
Defined.

(** The same call leaves LM_STUDIO_API_BASE set to the default address
    and LLM_TYPE as it was. *)
Lemma X14_witness :
  environ_after (get_model_config MoreSamples3.local_environ true) "LLM_TYPE" =
    Some "LOCAL" /\
  environ_after (get_model_config MoreSamples3.local_environ true)
                "LM_STUDIO_API_BASE" = Some "http://127.0.0.1:1234/v1/".
Proof.
  destruct (X14_model_environment MoreSamples3.local_environ true)
    as (Hkept & _ & _ & _ & Hbase).
  split.
  - apply Hkept. reflexivity.
  - exact (Hbase "lm_studio/qwen3-1.7b" eq_refl).
Defined.

(* ===================================================================== *)
(** ** Properties of test_kubernetes_connection.py *)
(* ===================================================================== *)

Module DiagnosticsFacts.
Import Diagnostics.

Lemma up_to_first_app {A} (p : A -> bool) (l1 l2 : list A) :
  up_to_first p (l1 ++ l2) =
  if existsb p l1 then up_to_first p l1 else (l1 ++ up_to_first p l2)%list.
Proof.
  induction l1 as [|x l1 IH]; simpl; [reflexivity|].
  destruct (p x); simpl; [reflexivity|].
  rewrite IH. destruct (existsb p l1); reflexivity.
Qed.

Lemma up_to_first_none {A} (p : A -> bool) (l : list A) :
  existsb p l = false -> up_to_first p l = l.
Proof.
  induction l as [|x l IH]; simpl; [reflexivity|].
  destruct (p x); simpl; [discriminate|]. intros H. rewrite (IH H). reflexivity.
Qed.

Lemma load_from_found_spec (w : World) (configs : list string) :
  load_from_found w configs =
  (map Load (up_to_first (loads w) (map Some configs)),
   existsb (loads w) (map Some configs)).
Proof.
  induction configs as [|p l IH]; simpl; [reflexivity|].
  unfold loads at 1 3. destruct (load_kube_config w (Some p)); simpl; [reflexivity|].
  rewrite IH. reflexivity.
Qed.

Lemma load_from_env_spec (w : World) (h : Host) (paths : list string) :
  load_from_env w h paths =
  (map Load (up_to_first (loads w)
               (map Some (filter (path_exists w) (map (expanduser h) paths)))),
   existsb (loads w) (map Some (filter (path_exists w) (map (expanduser h) paths)))).
Proof.
  induction paths as [|p l IH]; simpl; [reflexivity|].
  destruct (path_exists w (expanduser h p)); simpl; [|exact IH].
  unfold loads at 1 3.
  destruct (load_kube_config w (Some (expanduser h p))); simpl; [reflexivity|].
  rewrite IH. reflexivity.
Qed.

Lemma loads_of_map_load (l : list (option string)) : loads_of (map Load l) = l.
Proof. induction l as [|x l IH]; simpl; [reflexivity | rewrite IH; reflexivity]. Qed.

Lemma loads_of_app (t1 t2 : list step) :
  loads_of (t1 ++ t2) = (loads_of t1 ++ loads_of t2)%list.
Proof. unfold loads_of. apply flat_map_app. Qed.

(** The script with step 3 told by its candidates: the loads made are
    the candidates up to the first that loads, and a configuration is
    loaded when one of them loads. *)
Lemma test_kubernetes_connection_by_candidates (w : World) (h : Host) :
  test_kubernetes_connection w h =
  let stop (t : list step) :=
    {| steps := t; environ_left := environ_get w; verdict := false |} in
  if negb (import_kubernetes h) then stop []
  else
    let t := map Load (up_to_first (loads w) (candidates w h)) in
    if negb (existsb (loads w) (candidates w h)) then stop t
    else
      match list_namespace_5s h with
      | Raise _ => stop (t ++ [ListNamespaces])%list
      | Return _ =>
          let w' :=
            match found_configs w h with
            | first :: _ => set_environ w "KUBECONFIG" first
            | [] => w
            end in
          match import_agent h (environ_get w') with
          | (environ, Raise _) =>
              {| steps := (t ++ [ListNamespaces; ImportAgent])%list;
                 environ_left := environ;
                 verdict := true |}
          | (environ, Return _) =>
              let w'' := with_environ w' environ in
              {| steps := (t ++ [ListNamespaces; ImportAgent;
                                 GetPodsTool (trace (get_pods w'' "kube-system" None))])%list;
                 environ_left := environ;
                 verdict := true |}
          end
      end.
Proof.
  unfold test_kubernetes_connection, candidates. cbv zeta.
  destruct (import_kubernetes h); cbn [negb]; [|reflexivity].
  set (env_paths := if Py.truthy_opt (environ_get w "KUBECONFIG")
                    then Py.split colon (Py.str_opt (environ_get w "KUBECONFIG"))
                    else []).
  set (c1 := map Some (filter (path_exists w) (map (expanduser h) env_paths))).
  set (c2 := map Some (found_configs w h)).
  assert (H1 : (if Py.truthy_opt (environ_get w "KUBECONFIG")
                then load_from_env w h
                       (Py.split colon (Py.str_opt (environ_get w "KUBECONFIG")))
                else ([], false)) =
               (map Load (up_to_first (loads w) c1), existsb (loads w) c1)).
  { unfold c1, env_paths.
    destruct (Py.truthy_opt (environ_get w "KUBECONFIG"));
      [apply load_from_env_spec | reflexivity]. }
  rewrite H1. rewrite load_from_found_spec. fold c2.
  rewrite !up_to_first_app, !existsb_app.
  destruct (existsb (loads w) c1) eqn:E1; cbn [negb orb andb].
  - destruct (list_namespace_5s h); [destruct (import_agent h _) as [? []]|];
      rewrite ?map_app, <- ?app_assoc; cbn [app]; reflexivity.
  - rewrite (up_to_first_none (loads w) c1 E1).
    destruct (existsb (loads w) c2) eqn:E2; cbn [negb orb andb];
      [|rewrite (up_to_first_none (loads w) c2 E2)].
    + destruct (list_namespace_5s h); [destruct (import_agent h _) as [? []]|];
        rewrite ?map_app, <- ?app_assoc; cbn [app]; reflexivity.
    + cbn [up_to_first existsb].
      assert (H3 : loads w None =
                   match load_kube_config w None with
                   | Return _ => true
                   | Raise _ => false
                   end) by reflexivity.
      rewrite H3.
      destruct (load_kube_config w None) as [u|e]; cbn [negb orb andb].
      * destruct (list_namespace_5s h); [destruct (import_agent h _) as [? []]|];
          rewrite ?map_app, <- ?app_assoc; cbn [app map]; reflexivity.
      * rewrite ?map_app, <- ?app_assoc. cbn [app map]. reflexivity.
Qed.

End DiagnosticsFacts.

(** The first client call of [get_pods] is the load of the first
    applicable configuration source. *)
Lemma get_pods_first_call (w : World) (namespace : string)
    (label_selector : option string) :
  hd_error (trace (get_pods w namespace label_selector)) =
  Some (source_event (first_applicable w None)).
Proof.
  rewrite get_pods_staged. cbv zeta.
  destruct (Py.lower namespace =? "all");
    rewrite staged_trace by reflexivity;
    rewrite load_kubernetes_config_cases; cbv zeta;
    destruct (raised_by w (source_event (first_applicable w None))) as [[]|];
    reflexivity.
Qed.

(** [get_model_config] leaves a variable that is set as it is. *)
Lemma get_model_config_keeps (environ : string -> option string) (available : bool)
    (k v : string) :
  environ k = Some v ->
  environ_after (get_model_config environ available) k = Some v.
Proof.
  intros Hk. unfold get_model_config. cbv zeta.
  destruct (Py.lower (getenv environ "LLM_TYPE" "cloud") =? "local");
    [destruct available|]; cbn [negb environ_after]; try exact Hk.
  unfold setenv, getenv.
  destruct (k =? "LM_STUDIO_API_BASE") eqn:Ek; [|exact Hk].
  apply String.eqb_eq in Ek. subst k. rewrite Hk. reflexivity.
Qed.

(** So does the import of the agent. *)
Lemma import_agent_keeps (h : Diagnostics.Host) (environ : string -> option string)
    (k v : string) :
  environ k = Some v ->
  fst (Diagnostics.import_agent h environ) k = Some v.
Proof.
  intros Hk. unfold Diagnostics.import_agent.
  destruct (Diagnostics.agent_dependencies h); cbn [fst]; [|exact Hk].
  apply get_model_config_keeps. unfold Diagnostics.load_dotenv. rewrite Hk. reflexivity.
Qed.

(** X15.  The verdict of [test_kubernetes_connection] is true exactly
    when the kubernetes package can be imported, one of the candidate
    configurations loads - the entries of KUBECONFIG that exist, the
    well-known files that exist, the default location - and the
    namespaces can be listed.  What the import of the agent and its
    [get_pods] do in step 5 has no part in it.  The script exits with
    status 0 for a true verdict and 1 otherwise: run with no argument,
    on the environment as it is; run with arguments, with the first of
    them in the place of KUBECONFIG. *)
Theorem X15_diagnosis_verdict (w : World) (h : Diagnostics.Host) :
  let passes (w0 : World) :=
    (Diagnostics.import_kubernetes h &&
     existsb (Diagnostics.loads w0) (Diagnostics.candidates w0 h) &&
     match Diagnostics.list_namespace_5s h with
     | Return _ => true
     | Raise _ => false
     end)%bool in
  Diagnostics.verdict (Diagnostics.test_kubernetes_connection w h) = passes w /\
  (forall argv,
     (List.length argv <= 1)%nat ->
     Diagnostics.main w h argv = if passes w then 0 else 1) /\
  (forall script arg rest,
     Diagnostics.main w h (script :: arg :: rest) =
     if passes (Diagnostics.set_environ w "KUBECONFIG" arg) then 0 else 1).
Proof.
  intros passes.
  assert (Hverdict : forall w0,
    Diagnostics.verdict (Diagnostics.test_kubernetes_connection w0 h) = passes w0).
  { intros w0. unfold passes.
    rewrite DiagnosticsFacts.test_kubernetes_connection_by_candidates.
    cbv zeta.
    destruct (Diagnostics.import_kubernetes h); cbn [negb andb]; [|reflexivity].
    destruct (existsb (Diagnostics.loads w0) (Diagnostics.candidates w0 h));
      cbn [negb andb]; [|reflexivity].
    destruct (Diagnostics.list_namespace_5s h); [|reflexivity].
    destruct (Diagnostics.import_agent h _) as [? []]; reflexivity. }
  split; [apply Hverdict|]. split.
  - intros argv Hlen. unfold Diagnostics.main.
    destruct argv as [|script [|arg rest]];
      [rewrite Hverdict; reflexivity | rewrite Hverdict; reflexivity |].
    simpl in Hlen. lia.
  - intros script arg rest. unfold Diagnostics.main. rewrite Hverdict. reflexivity.
Qed.

(** With a kubespray file in place the script exits with 0 when run
    without an argument, and with 0 too when the argument names a file
    that does not exist: the well-known file is still found. *)
Lemma X15_witness :
  Diagnostics.main MoreSamples3.kubespray_world MoreSamples3.home
                   ["test_kubernetes_connection.py"] = 0 /\
  Diagnostics.main MoreSamples3.kubespray_world MoreSamples3.home
                   ["test_kubernetes_connection.py"; "/nowhere/config"] = 0.
Proof.
  pose proof (X15_diagnosis_verdict MoreSamples3.kubespray_world MoreSamples3.home)
    as H.
  cbv zeta in H. destruct H as (_ & Hnone & Harg).
  split.
  - rewrite (Hnone ["test_kubernetes_connection.py"]) by (simpl; lia).
    vm_compute. reflexivity.
  - rewrite (Harg "test_kubernetes_connection.py" "/nowhere/config" []).
    vm_compute. reflexivity.
Defined.

(** X16.  [test_kubernetes_connection] tries its candidate
    configurations in order - the entries of KUBECONFIG that exist, in
    the order of the variable, then the well-known files that exist,
    then the default location - and stops at the first that loads: the
    loads it makes are the candidates up to and with that one, and all
    of them when none loads.  Without the kubernetes package it does
    nothing. *)
Theorem X16_diagnosis_load_order (w : World) (h : Diagnostics.Host) :
  Diagnostics.loads_of (Diagnostics.steps (Diagnostics.test_kubernetes_connection w h)) =
  if Diagnostics.import_kubernetes h
  then Diagnostics.up_to_first (Diagnostics.loads w) (Diagnostics.candidates w h)
  else [].
Proof.
  rewrite DiagnosticsFacts.test_kubernetes_connection_by_candidates. cbv zeta.
  destruct (Diagnostics.import_kubernetes h); cbn [negb]; [|reflexivity].
  destruct (existsb (Diagnostics.loads w) (Diagnostics.candidates w h)); cbn [negb].
  - destruct (Diagnostics.list_namespace_5s h);
      [destruct (Diagnostics.import_agent h _) as [? []]|];
      cbn [Diagnostics.steps];
      rewrite DiagnosticsFacts.loads_of_app, DiagnosticsFacts.loads_of_map_load;
      apply app_nil_r.
  - cbn [Diagnostics.steps]. apply DiagnosticsFacts.loads_of_map_load.
Qed.

(** X17.  [test_kubernetes_connection] never changes or removes a
    variable of the environment that is set, other than KUBECONFIG, and
    leaves the environment as it was when its verdict is false.  After a
    true verdict, when a well-known configuration file was found,
    KUBECONFIG is left naming the first file found - the .env file and
    the import of the agent do not undo it - and the [get_pods] the
    script then runs through the agent loads that file first, whatever
    KUBECONFIG held before and whichever configuration step 3 had
    loaded. *)
Theorem X17_diagnosis_kubeconfig_override (w : World) (h : Diagnostics.Host) :
  (forall k v,
      k <> "KUBECONFIG" -> environ_get w k = Some v ->
      Diagnostics.environ_left (Diagnostics.test_kubernetes_connection w h) k = Some v) /\
  (Diagnostics.verdict (Diagnostics.test_kubernetes_connection w h) = false ->
   forall k, Diagnostics.environ_left (Diagnostics.test_kubernetes_connection w h) k
             = environ_get w k) /\
  (forall first rest,
      Diagnostics.verdict (Diagnostics.test_kubernetes_connection w h) = true ->
      Diagnostics.found_configs w h = first :: rest ->
      first <> "" ->
      Diagnostics.environ_left (Diagnostics.test_kubernetes_connection w h) "KUBECONFIG"
        = Some first /\
      (forall u u',
          Diagnostics.agent_dependencies h = Return u ->
          Diagnostics.agent_built h = Return u' ->
          exists calls,
            last (Diagnostics.steps (Diagnostics.test_kubernetes_connection w h))
                 Diagnostics.ImportAgent = Diagnostics.GetPodsTool calls /\
            hd_error calls = Some (LoadKubeConfig (Some first)))).
Proof.
  rewrite DiagnosticsFacts.test_kubernetes_connection_by_candidates. cbv zeta.
  destruct (Diagnostics.import_kubernetes h); cbn [negb];
    [|split; [intros k v _ Hk; exact Hk | split; [reflexivity | discriminate]]].
  destruct (existsb (Diagnostics.loads w) (Diagnostics.candidates w h)); cbn [negb];
    [|split; [intros k v _ Hk; exact Hk | split; [reflexivity | discriminate]]].
  destruct (Diagnostics.list_namespace_5s h);
    [|split; [intros k v _ Hk; exact Hk | split; [reflexivity | discriminate]]].
  set (w' := match Diagnostics.found_configs w h with
             | [] => w
             | first :: _ => Diagnostics.set_environ w "KUBECONFIG" first
             end).
  assert (Hkept : forall k v, k <> "KUBECONFIG" -> environ_get w k = Some v ->
                              environ_get w' k = Some v).
  { intros k v Hne Hk. unfold w'.
    destruct (Diagnostics.found_configs w h); [exact Hk|].
    cbn [Diagnostics.set_environ Diagnostics.with_environ environ_get].
    unfold setenv. apply String.eqb_neq in Hne. rewrite Hne. exact Hk. }
  pose proof (import_agent_keeps h (environ_get w')) as Himport.
  destruct (Diagnostics.import_agent h (environ_get w')) as [environ r] eqn:Hr.
  cbn [fst] in Himport.
  assert (Hleft : forall d : Diagnostics.Diagnosis,
             Diagnostics.environ_left d = environ ->
             forall k v, k <> "KUBECONFIG" -> environ_get w k = Some v ->
                         Diagnostics.environ_left d k = Some v).
  { intros d -> k v Hne Hk. apply Himport, Hkept; assumption. }
  split; [destruct r; apply Hleft; reflexivity|].
  split; [destruct r; discriminate|].
  intros first rest _ Hfound Hne.
  assert (Hset : environ "KUBECONFIG" = Some first).
  { apply Himport. unfold w'. rewrite Hfound.
    cbn [Diagnostics.set_environ Diagnostics.with_environ environ_get].
    unfold setenv. rewrite String.eqb_refl. reflexivity. }
  split; [destruct r; exact Hset|].
  intros u u' Hdeps Hbuilt.
  unfold Diagnostics.import_agent in Hr. rewrite Hdeps, Hbuilt in Hr.
  injection Hr as _ <-. cbn [Diagnostics.steps].
  eexists. split.
  - match goal with
    | |- last (?t ++ [?a; ?b; ?x])%list _ = _ =>
        replace (t ++ [a; b; x])%list with ((t ++ [a; b]) ++ [x])%list
          by (rewrite <- app_assoc; reflexivity)
    end.
    rewrite last_last. reflexivity.
  - rewrite get_pods_first_call.
    unfold first_applicable. cbn [Diagnostics.with_environ environ_get].
    rewrite Hset. unfold Py.truthy.
    apply String.eqb_neq in Hne. rewrite Hne. reflexivity.
Qed.

(** A stale KUBECONFIG, a kubespray file, and a .env file that names yet
    another configuration: the script loads the kubespray file, and
    leaves KUBECONFIG naming it for the agent's [get_pods]. *)
Lemma X17_witness :
  Diagnostics.loads_of
    (Diagnostics.steps
       (Diagnostics.test_kubernetes_connection MoreSamples3.kubespray_world
                                               MoreSamples3.home)) =
    [Some "/etc/kube/stale.conf"; Some MoreSamples3.admin_conf] /\
  Diagnostics.environ_left
    (Diagnostics.test_kubernetes_connection MoreSamples3.kubespray_world
                                            MoreSamples3.home) "KUBECONFIG" =
    Some MoreSamples3.admin_conf /\
  exists calls,
    last (Diagnostics.steps
            (Diagnostics.test_kubernetes_connection MoreSamples3.kubespray_world
                                                    MoreSamples3.home))
         Diagnostics.ImportAgent = Diagnostics.GetPodsTool calls /\
    hd_error calls = Some (LoadKubeConfig (Some MoreSamples3.admin_conf)).
Proof.
  split; [vm_compute; reflexivity|].
  destruct (X17_diagnosis_kubeconfig_override MoreSamples3.kubespray_world
                                              MoreSamples3.home) as (_ & _ & Hset).
  destruct (Hset MoreSamples3.admin_conf [MoreSamples3.admin_conf])
    as (Hk & Htool).
  - vm_compute. reflexivity.
  - vm_compute. reflexivity.
  - discriminate.
  - split; [exact Hk|]. exact (Htool tt tt eq_refl eq_refl).
Defined.
